(** * EEMpy, [eempy/read_data/read_data.py]: the readers of instrument files

    A shallow embedding of the readers of EEM, absorbance, reference and
    PARAFAC files, and of the two dataset aggregators, followed by the
    properties that the specification states of them, each proved of the
    code, or amended to what the code does and then proved.

    Conventions of the embedding.
    - A text file is the string of its characters as Python reads them in
      text mode, every line break being a line feed; [readline] hands out
      its lines with their line break, and the empty string at the end of
      the file, as Python's file objects do.
    - A Python exception is a value of [exn]; a function that can raise
      returns a [result]. Output written with [print] and the calls made to
      the interpolation routines of [eempy.eem_processing] and [scipy] are
      recorded, in order, in a trace.
    - A float is the rational that a double stands for, an infinity or
      NaN, and zero has no sign. The arithmetic of the readers, the
      difference and the quotient in the interval of a grid, is rounded to
      binary64 ([binary64]); comparisons, maxima and minima are exact, as
      they are on doubles.
    - The builtin [float] and the functions of pandas, scipy and
      [eempy.eem_processing] are not code of this file: they are the fields
      of the classes [PyFloat], [Pandas], [Scipy] and [EemProcessing], and
      every statement holds for each of their instances. *)

From Stdlib Require Import String Ascii List Bool Arith ZArith QArith Lia Lqa DecimalString.
Import ListNotations.

Local Close Scope Q_scope.
Local Open Scope string_scope.
Local Open Scope nat_scope.
Local Open Scope list_scope.

(* ================================================================= *)
(** * Part I: definitions *)
(* ================================================================= *)

(** ** Exceptions, results and traces *)

Inductive exn : Type :=
| IndexError
| ValueError
| UnboundLocalError
| FileNotFoundError.

(** The outcome of running a piece of code: a value, a raised exception,
    or a loop that never ends. *)
Inductive result (A : Type) : Type :=
| Ok (a : A)
| Raise (e : exn)
| Diverges.

Arguments Ok {A} a.
Arguments Raise {A} e.
Arguments Diverges {A}.

(** An argument of [print]. *)
Inductive pyval : Type :=
| VStr (s : string)
| VInt (n : Z).

(** A call to an interpolation routine of [eempy.eem_processing] or of
    scipy, as a call site of the aggregators makes it. *)
Inductive call : Type :=
| Call_eem_interpolation
| Call_process_eem_stack
| Call_interp1d.

Inductive event : Type :=
| Printed (args : list pyval)
| Called (c : call).

Definition trace := list event.

(** Code that prints, calls out and may raise. *)
Definition M (A : Type) : Type := (trace * result A)%type.

Definition ret {A : Type} (a : A) : M A := ([], Ok a).

Definition raise {A : Type} (e : exn) : M A := ([], Raise e).

Definition bind {A B : Type} (m : M A) (k : A -> M B) : M B :=
  match m with
  | (t, Ok a) => let (t', r) := k a in (t ++ t', r)
  | (t, Raise e) => (t, Raise e)
  | (t, Diverges) => (t, Diverges)
  end.

Definition print (args : list pyval) : M unit := ([Printed args], Ok tt).

Definition called (c : call) : M unit := ([Called c], Ok tt).

Definition lift {A : Type} (r : result A) : M A := ([], r).

Declare Scope py_scope.
Delimit Scope py_scope with py.
Notation "x <- m ;; k" := (bind m (fun x => k))
  (at level 100, m at next level, right associativity) : py_scope.
Notation "' p <- m ;; k" := (bind m (fun x => match x with p => k end))
  (at level 100, p pattern, m at next level, right associativity) : py_scope.
Notation "m ;;; k" := (bind m (fun _ => k))
  (at level 100, right associativity) : py_scope.

(** The calls to interpolation routines recorded in a trace. *)
Definition calls_of (t : trace) : list call :=
  flat_map (fun e => match e with Called c => [c] | Printed _ => [] end) t.

(** The lines printed. *)
Definition printed_of (t : trace) : list (list pyval) :=
  flat_map (fun e => match e with Printed a => [a] | Called _ => [] end) t.

(** ** Floats *)

Inductive float : Type :=
| Fin (q : Q)
| PInf
| NInf
| NaN.

Definition Qltb (p q : Q) : bool :=
  match (p ?= q)%Q with Lt => true | _ => false end.

(** [a < b]; every comparison with NaN is false. *)
Definition f_ltb (a b : float) : bool :=
  match a, b with
  | NaN, _ | _, NaN => false
  | Fin p, Fin q => Qltb p q
  | Fin _, PInf => true
  | NInf, Fin _ => true
  | NInf, PInf => true
  | _, _ => false
  end.

(** [a > b]. *)
Definition f_gtb (a b : float) : bool := f_ltb b a.

(** *** Rounding to binary64

    The numbers of numpy are binary64: a difference or a quotient is the
    double nearest to the exact result, the one with the even significand
    when two are as near, an infinity past the largest double. A double is
    [m * 2 ^ e] for an integer [m] below [2 ^ 53] and [-1074 <= e <= 971].
    The two zeros are one number here. *)

Definition pow2 (e : Z) : Q :=
  if (0 <=? e)%Z then inject_Z (2 ^ e) else Qmake 1 (Z.to_pos (2 ^ (- e))).

(** The integer nearest to [x >= 0], the even one at a half. *)
Definition round_half_even (x : Q) : Z :=
  let n := Qnum x in
  let d := Zpos (Qden x) in
  let f := (n / d)%Z in
  match (2 * (n mod d) ?= d)%Z with
  | Lt => f
  | Gt => (f + 1)%Z
  | Eq => if Z.even f then f else (f + 1)%Z
  end.

(** The double nearest to [q > 0]. [fl] is the integer part of the
    logarithm of [q] in base 2, and [e] the exponent of the last bit of a
    double of that size. *)
Definition binary64_pos (q : Q) : float :=
  let l := (Z.log2 (Qnum q) - Z.log2 (Zpos (Qden q)))%Z in
  let fl := if Qle_bool (pow2 l) q then l else (l - 1)%Z in
  let e := Z.max (fl - 52) (-1074) in
  let m := round_half_even (q * pow2 (- e))%Q in
  let v := (inject_Z m * pow2 e)%Q in
  if Qle_bool (pow2 1024) v then PInf else Fin (Qred v).

Definition binary64 (q : Q) : float :=
  match (q ?= 0)%Q with
  | Eq => Fin 0%Q
  | Gt => binary64_pos q
  | Lt => match binary64_pos (- q)%Q with
          | Fin v => Fin (Qred (- v)%Q)
          | _ => NInf
          end
  end.

(** [a - b] on float64. *)
Definition f_sub (a b : float) : float :=
  match a, b with
  | NaN, _ | _, NaN => NaN
  | Fin p, Fin q => binary64 (p - q)%Q
  | Fin _, PInf => NInf
  | Fin _, NInf => PInf
  | PInf, PInf => NaN
  | PInf, _ => PInf
  | NInf, NInf => NaN
  | NInf, _ => NInf
  end.

(** [a / n] on float64 for an integer [n >= 0], as numpy divides: a
    division by zero gives an infinity or NaN (with a warning), not an
    exception. *)
Definition f_div_nat (a : float) (n : nat) : float :=
  match a with
  | Fin p =>
      match n with
      | O => match (p ?= 0)%Q with Eq => NaN | Gt => PInf | Lt => NInf end
      | S _ => binary64 (p / inject_Z (Z.of_nat n))%Q
      end
  | other => other
  end.

Definition f_of_int (z : Z) : float := Fin (inject_Z z).

Definition is_nan (a : float) : bool :=
  match a with NaN => true | _ => false end.

Definition is_fin (a : float) : bool :=
  match a with Fin _ => true | _ => false end.

(** The larger of two floats, NaN if one is NaN. *)
Definition f_max (a b : float) : float :=
  if is_nan a then a else if is_nan b then b else if f_ltb a b then b else a.

Definition f_min (a b : float) : float :=
  if is_nan a then a else if is_nan b then b else if f_ltb b a then b else a.

(** The builtin [float] on a token: [None] stands for its [ValueError]. *)
Class PyFloat : Type := { py_float : string -> option float }.

(** ** Text *)

Definition LF : ascii := "010"%char.
Definition TAB : ascii := "009"%char.

(** [str.isspace] on an ASCII character. *)
Definition is_space (c : ascii) : bool :=
  let n := nat_of_ascii c in
  ((9 <=? n) && (n <=? 13)) || ((28 <=? n) && (n <=? 32)).

Definition is_digit (c : ascii) : bool :=
  let n := nat_of_ascii c in (48 <=? n) && (n <=? 57).

Definition is_empty (s : string) : bool :=
  match s with EmptyString => true | _ => false end.

Definition snoc (s : string) (c : ascii) : string :=
  String.append s (String c EmptyString).

(** The lines of a text, each with its line break (the last one may have
    none): what successive [readline] calls return before the end. *)
Fixpoint lines_from (cur : string) (s : string) : list string :=
  match s with
  | EmptyString => if is_empty cur then [] else [cur]
  | String c s' =>
      if Ascii.eqb c LF then snoc cur c :: lines_from EmptyString s'
      else lines_from (snoc cur c) s'
  end.

Definition readlines (text : string) : list string := lines_from EmptyString text.

(** [f.readline()] on the lines not read yet: the next line and the rest,
    the empty string at the end of the file. *)
Definition readline (f : list string) : string * list string :=
  match f with
  | [] => (EmptyString, [])
  | l :: f' => (l, f')
  end.

(** [str.split()]: the maximal runs of characters that are not blank. *)
Fixpoint split_from (tok : string) (s : string) : list string :=
  match s with
  | EmptyString => if is_empty tok then [] else [tok]
  | String c s' =>
      if is_space c
      then (if is_empty tok then split_from EmptyString s'
            else tok :: split_from EmptyString s')
      else split_from (snoc tok c) s'
  end.

Definition split (s : string) : list string := split_from EmptyString s.

(** [str.split(sep)] for a one-character separator: empty fields are kept. *)
Fixpoint split_sep_from (sep : ascii) (tok : string) (s : string) : list string :=
  match s with
  | EmptyString => [tok]
  | String c s' =>
      if Ascii.eqb c sep then tok :: split_sep_from sep EmptyString s'
      else split_sep_from sep (snoc tok c) s'
  end.

Definition split_sep (sep : ascii) (s : string) : list string :=
  split_sep_from sep EmptyString s.

(** [re.findall(r"\d+", s)]: the maximal runs of digits. *)
Fixpoint digit_runs_from (tok : string) (s : string) : list string :=
  match s with
  | EmptyString => if is_empty tok then [] else [tok]
  | String c s' =>
      if is_digit c then digit_runs_from (snoc tok c) s'
      else (if is_empty tok then digit_runs_from EmptyString s'
            else tok :: digit_runs_from EmptyString s')
  end.

Definition findall_digits (s : string) : list string := digit_runs_from EmptyString s.

(** [int] on a run of digits. *)
Fixpoint int_from (acc : Z) (s : string) : Z :=
  match s with
  | EmptyString => acc
  | String c s' => int_from (10 * acc + (Z.of_nat (nat_of_ascii c) - 48))%Z s'
  end.

Definition py_int (s : string) : Z := int_from 0%Z s.

(** [sub in s]. *)
Fixpoint str_in (sub s : string) : bool :=
  if String.prefix sub s then true
  else match s with
       | EmptyString => false
       | String _ s' => str_in sub s'
       end.

Fixpoint lstrip (s : string) : string :=
  match s with
  | EmptyString => EmptyString
  | String c s' => if is_space c then lstrip s' else s
  end.

Fixpoint rstrip (s : string) : string :=
  match s with
  | EmptyString => EmptyString
  | String c s' =>
      match rstrip s' with
      | EmptyString => if is_space c then EmptyString else String c EmptyString
      | r => String c r
      end
  end.

(** [str.strip()]. *)
Definition strip (s : string) : string := rstrip (lstrip s).

(** [os.path.basename]: what follows the last slash. *)
Fixpoint basename_from (cur : string) (s : string) : string :=
  match s with
  | EmptyString => cur
  | String c s' =>
      if Ascii.eqb c "/"%char then basename_from EmptyString s'
      else basename_from (snoc cur c) s'
  end.

Definition basename (path : string) : string := basename_from EmptyString path.

(** The index of a record: [os.path.basename(file_path)[a:b + 1]] when
    [index_pos] is given (offsets counted from the start of the name, as in
    the docstring), [None] otherwise. *)
Definition index_of (file_path : string) (index_pos : option (nat * nat)) : option string :=
  match index_pos with
  | Some (a, b) => Some (substring a (b + 1 - a) (basename file_path))
  | None => None
  end.

(** [list(map(float, tokens))]: [None] when a token raises [ValueError]. *)
Fixpoint map_float `{PyFloat} (tokens : list string) : option (list float) :=
  match tokens with
  | [] => Some []
  | t :: ts =>
      match py_float t with
      | None => None
      | Some x =>
          match map_float ts with
          | None => None
          | Some xs => Some (x :: xs)
          end
      end
  end.

(** ** numpy arrays

    A one-dimensional array is the list of its elements. A two-dimensional
    array carries its shape, so that an array with no rows still has a
    number of columns. *)

Record ndarray : Type := mk_ndarray {
  shape0 : nat;
  shape1 : nat;
  rows : list (list float)
}.

Definition shape (a : ndarray) : nat * nat := (shape0 a, shape1 a).

(** The rows are as many and as long as the shape says. *)
Definition well_shaped (a : ndarray) : Prop :=
  length (rows a) = shape0 a /\ Forall (fun r => length r = shape1 a) (rows a).

Definition f_zero : float := Fin 0%Q.

(** [np.zeros((r, c))]. *)
Definition np_zeros (r c : nat) : ndarray :=
  mk_ndarray r c (repeat (repeat f_zero c) r).

(** [np.array([row])]: one row. *)
Definition np_array_row (row : list float) : ndarray :=
  mk_ndarray 1 (length row) [row].

(** [np.size]: the number of elements. *)
Definition np_size (a : ndarray) : nat := shape0 a * shape1 a.

(** [np.concatenate([a, b])] along the first axis: [ValueError] unless the
    rows of both are equally long. *)
Definition np_concatenate (a b : ndarray) : result ndarray :=
  if shape1 a =? shape1 b
  then Ok (mk_ndarray (shape0 a + shape0 b) (shape1 a) (rows a ++ rows b))
  else Raise ValueError.

(** [a[1:, :]]. *)
Definition drop_first_row (a : ndarray) : ndarray :=
  mk_ndarray (shape0 a - 1) (shape1 a) (tl (rows a)).

Definition column (j : nat) (a : ndarray) : list float :=
  map (fun r => nth j r f_zero) (rows a).

(** [a.T]. *)
Definition transpose (a : ndarray) : ndarray :=
  mk_ndarray (shape1 a) (shape0 a) (map (fun j => column j a) (seq 0 (shape1 a))).

(** [np.flipud] and [np.flip] on a one-dimensional array. *)
Definition np_flipud {A : Type} (l : list A) : list A := rev l.

Arguments np_flipud : simpl never.

(** [a[i, j]], for the statements. *)
Definition item (a : ndarray) (i j : nat) : float :=
  nth j (nth i (rows a) []) f_zero.

(** ** [read_eem] *)

Definition nl : string := String LF EmptyString.

Definition aqualog : string := "aqualog".

(** What [read_eem] returns: [(intensity, ex_range, em_range, index)]. The
    excitation wavelengths come from [int], the emission ones from [float]. *)
Definition eem_record : Type := (ndarray * list Z * list float * option string)%type.

(** The [while line:] loop of [read_eem]. [f] holds the line just read and
    the lines after it; it is empty once [readline] has returned the empty
    string. The [break] leaves the loop with what was accumulated. *)
Fixpoint read_eem_rows `{PyFloat} (f : list string) (idx : list float) (data : ndarray)
  : M (list float * ndarray) :=
  match f with
  | [] => ret (idx, data)
  | line :: f' =>
      if is_empty line then ret (idx, data)
      else
        match split line with
        | [] => raise IndexError
        | initial :: tokens =>
            match py_float initial with
            | None => read_eem_rows f' idx data
            | Some initial =>
                let idx := idx ++ [initial] in
                match map_float tokens with
                | None => read_eem_rows f' idx data
                | Some values =>
                    let dataline := np_array_row values in
                    match np_concatenate data dataline with
                    | Ok data' => read_eem_rows f' idx data'
                    | _ =>
                        (print [VStr (String.append
                           "please check the consistancy of header and data dimensions:" nl)] ;;;
                         print [VStr "number of columns suggested by your header: ";
                                VInt (Z.of_nat (np_size data)); VStr nl] ;;;
                         print [VStr "number of columns you have in your intensity data: ";
                                VInt (Z.of_nat (np_size dataline))] ;;;
                         ret (idx, data))%py
                    end
                end
            end
        end
  end.

(** [g[0] > g[1]] decides whether a grid is flipped; a grid with fewer than
    two points raises [IndexError]. *)
Definition ascending_em (g : list float) : result (list float) :=
  match g with
  | a :: b :: _ => Ok (if f_gtb a b then np_flipud g else g)
  | _ => Raise IndexError
  end.

Definition ascending_ex (g : list Z) : result (list Z) :=
  match g with
  | a :: b :: _ => Ok (if (b <? a)%Z then np_flipud g else g)
  | _ => Raise IndexError
  end.

(** [read_eem(file_path, index_pos, data_format)], [text] being the text of
    the file at [file_path]. The names [header], [idx] and [data] are bound
    in the aqualog branch only: with another format the first of them that
    is read, [data], is unbound. The [Warning(...)] of the source builds an
    object and drops it. *)
Definition read_eem `{PyFloat} (file_path text : string) (index_pos : option (nat * nat))
  (data_format : string) : M eem_record :=
  (let index := index_of file_path index_pos in
   let f := readlines text in
   locals <- (if String.eqb data_format aqualog then
                let (firstline, f) := readline f in
                let firstline := findall_digits firstline in
                let header := map py_int firstline in
                let data := np_zeros 1 (length header) in
                ' (idx, data) <- read_eem_rows f [] data ;;
                let data := drop_first_row data in
                ret (Some (header, idx, data))
              else ret None) ;;
   match locals with
   | None => raise UnboundLocalError
   | Some (header, idx, data) =>
       let intensity := transpose data in
       em_range <- lift (ascending_em idx) ;;
       ex_range <- lift (ascending_ex header) ;;
       ret (intensity, ex_range, em_range, index)
   end)%py.

(** ** [read_abs] *)

(** The [while line:] loop of [read_abs]: the first token must be a float
    ([IndexError] on a line without tokens, [ValueError] on another token);
    a missing second token gives NaN, one that is no float [ValueError]. *)
Fixpoint read_abs_rows `{PyFloat} (f : list string) (idx data : list float)
  : result (list float * list float) :=
  match f with
  | [] => Ok (idx, data)
  | line :: f' =>
      if is_empty line then Ok (idx, data)
      else
        match split line with
        | [] => Raise IndexError
        | t0 :: rest =>
            match py_float t0 with
            | None => Raise ValueError
            | Some initial =>
                let idx := idx ++ [initial] in
                match rest with
                | [] => read_abs_rows f' idx (data ++ [NaN])
                | t1 :: _ =>
                    match py_float t1 with
                    | None => Raise ValueError
                    | Some value => read_abs_rows f' idx (data ++ [value])
                    end
                end
            end
        end
  end.

(** [read_abs(file_path, index_pos, data_format)]: [(absorbance, ex_range,
    index)]. [absorbance] is bound in the aqualog branch only. *)
Definition read_abs `{PyFloat} (file_path text : string) (index_pos : option (nat * nat))
  (data_format : string) : M (list float * list float * option string) :=
  (let index := index_of file_path index_pos in
   let f := readlines text in
   locals <- (if String.eqb data_format aqualog then
                ' (idx, data) <- lift (read_abs_rows f [] []) ;;
                let ex_range := np_flipud idx in
                let absorbance := np_flipud data in
                ret (Some (absorbance, ex_range))
              else ret None) ;;
   match locals with
   | None => raise UnboundLocalError
   | Some (absorbance, ex_range) => ret (absorbance, ex_range, index)
   end)%py.

(** ** [read_reference_from_text] *)

(** The loop of [read_reference_from_text], entered with a first line that
    has a token. Each round reads a line and appends the float of its first
    token: a line without tokens raises [IndexError], which is caught; a
    first token that is no float raises [ValueError], which is not. The
    loop ends when the line read is empty, at the end of the file. *)
Fixpoint read_reference_rows `{PyFloat} (f : list string) (reference_data : list float)
  : result (list float) :=
  match f with
  | [] => Ok reference_data
  | line :: f' =>
      match split line with
      | [] => if is_empty line then Ok reference_data
              else read_reference_rows f' reference_data
      | t0 :: _ =>
          match py_float t0 with
          | None => Raise ValueError
          | Some x => read_reference_rows f' (reference_data ++ [x])
          end
      end
  end.

(** [read_reference_from_text(filepath)]: [(reference_data, header)]. *)
Definition read_reference_from_text `{PyFloat} (text : string) : result (list float * string) :=
  let f := readlines text in
  let (line, f) := readline f in
  match split line with
  | [] => Raise IndexError
  | header :: _ =>
      match read_reference_rows f [] with
      | Ok reference_data => Ok (reference_data, header)
      | Raise e => Raise e
      | Diverges => Diverges
      end
  end.

(** ** A [float] for the examples: plain decimal literals and [nan] *)

Fixpoint all_digits (s : string) : bool :=
  match s with
  | EmptyString => true
  | String c s' => is_digit c && all_digits s'
  end.

Definition decimal_unsigned (s : string) : option Q :=
  match split_sep "."%char s with
  | [i] => if negb (is_empty i) && all_digits i then Some (inject_Z (py_int i)) else None
  | [i; fr] =>
      if all_digits i && all_digits fr && negb (is_empty i && is_empty fr)
      then Some (Qmake (py_int (String.append i fr))
                       (Z.to_pos (10 ^ Z.of_nat (String.length fr))))
      else None
  | _ => None
  end.

Definition decimal_float (s : string) : option float :=
  if String.eqb s "nan" then Some NaN
  else match s with
       | String "-"%char s' => option_map (fun q => Fin (Qred (- q))) (decimal_unsigned s')
       | String "+"%char s' => option_map (fun q => Fin (Qred q)) (decimal_unsigned s')
       | _ => option_map (fun q => Fin (Qred q)) (decimal_unsigned s)
       end.

Definition decimal : PyFloat := {| py_float := decimal_float |}.

(** The text of a file from its lines, each ended by a line break. *)
Definition text_of (lines : list string) : string :=
  fold_right (fun l acc => String.append l (String LF acc)) EmptyString lines.


(** ** The lines of an EEM file, as [read_eem] takes them

    What the loop of [read_eem] does with a line depends on its tokens
    only; these definitions name the cases for the statements. *)

Inductive line_kind : Type :=
| NoToken
| NotARow
| BadValues (e : float)
| Row (e : float) (values : list float).

Definition classify `{PyFloat} (line : string) : line_kind :=
  match split line with
  | [] => NoToken
  | t0 :: tokens =>
      match py_float t0 with
      | None => NotARow
      | Some e =>
          match map_float tokens with
          | None => BadValues e
          | Some values => Row e values
          end
      end
  end.

(** The rows of the table: the lines whose tokens are all floats. *)
Definition table `{PyFloat} (lines : list string) : list (float * list float) :=
  flat_map (fun l => match classify l with Row e v => [(e, v)] | _ => [] end) lines.

(** The first tokens that are floats, whatever follows them on the line. *)
Definition emissions `{PyFloat} (lines : list string) : list float :=
  flat_map (fun l => match classify l with
                     | Row e _ | BadValues e => [e]
                     | _ => []
                     end) lines.

(** The lines whose first token is a float and another is not. *)
Definition dropped_rows `{PyFloat} (lines : list string) : nat :=
  length (filter (fun l => match classify l with BadValues _ => true | _ => false end) lines).

(** A line the loop passes without raising or breaking, [n] being the
    number of columns. *)
Definition passes `{PyFloat} (n : nat) (line : string) : bool :=
  match classify line with
  | NoToken => false
  | Row _ values => length values =? n
  | _ => true
  end.

(** A line of a well-formed file: a row of [n] values, or a line that is
    skipped because its first token is no float. *)
Definition well_formed_line `{PyFloat} (n : nat) (line : string) : bool :=
  match classify line with
  | NotARow => true
  | Row _ values => length values =? n
  | _ => false
  end.

(** A row whose number of values is not [n]: the loop breaks on it. *)
Definition mismatch `{PyFloat} (n : nat) (line : string) : bool :=
  match classify line with
  | Row _ values => negb (length values =? n)
  | _ => false
  end.

(** The header of an EEM file and the lines under it. *)
Definition header_of (text : string) : list Z :=
  map py_int (findall_digits (fst (readline (readlines text)))).

Definition data_lines (text : string) : list string :=
  snd (readline (readlines text)).

Definition well_formed_eem `{PyFloat} (text : string) : bool :=
  forallb (well_formed_line (length (header_of text))) (data_lines text).

(** [a] with the rows [rs] under it. *)
Definition extend (a : ndarray) (rs : list (list float)) : ndarray :=
  mk_ndarray (shape0 a + length rs) (shape1 a) (rows a ++ rs).

(** Strictly ascending, strictly descending. *)
Fixpoint ascending (g : list float) : Prop :=
  match g with
  | a :: (b :: _) as g' => f_ltb a b = true /\ ascending g'
  | _ => True
  end.

Fixpoint descending (g : list float) : Prop :=
  match g with
  | a :: (b :: _) as g' => f_gtb a b = true /\ descending g'
  | _ => True
  end.

(** ** The lines of an absorbance file and of a reference file *)

(** A line of an absorbance file and what it holds: a wavelength alone,
    read as NaN at that wavelength, or a wavelength and a value. *)
Definition abs_line `{PyFloat} (line : string) (entry : float * float) : Prop :=
  (exists w, split line = [w] /\ py_float w = Some (fst entry) /\ snd entry = NaN) \/
  (exists w v rest, split line = w :: v :: rest /\
                    py_float w = Some (fst entry) /\ py_float v = Some (snd entry)).

(** The first token of each line that has one. *)
Definition first_tokens (lines : list string) : list string :=
  flat_map (fun l => match split l with t :: _ => [t] | [] => [] end) lines.

(** ** pandas *)

(** A label of a column or of an index level. *)
Inductive label : Type :=
| LInt (n : Z)
| LStr (s : string).

(** An entry of an index level: as read from the file, or a time. *)
Inductive key : Type :=
| KStr (s : string)
| KFloat (x : float)
| KTime (t : Z).

(** A [MultiIndex] of two levels: the distinct entries of each level, and
    for each row the positions of its two entries in the levels. *)
Record MultiIndex : Type := mk_index {
  levels0 : list key;
  levels1 : list key;
  codes : list (nat * nat);
  names : list label
}.

Record DataFrame : Type := mk_frame {
  index : MultiIndex;
  columns : list label;
  cells : list (list float)
}.

(** [df.shape[1]]. *)
Definition width (df : DataFrame) : nat := length (columns df).

(** [df.columns = labels]: [ValueError] unless there is one label per
    column. *)
Definition set_columns (df : DataFrame) (labels : list label) : result DataFrame :=
  if length labels =? width df
  then Ok (mk_frame (index df) labels (cells df))
  else Raise ValueError.

(** [df.index.names = [a, b]]. *)
Definition set_index_names (df : DataFrame) (a b : string) : DataFrame :=
  let i := index df in
  mk_frame (mk_index (levels0 i) (levels1 i) (codes i) [LStr a; LStr b])
           (columns df) (cells df).

Fixpoint distinct (l : list Z) : bool :=
  match l with
  | [] => true
  | t :: l' => negb (existsb (Z.eqb t) l') && distinct l'
  end.

(** [i.set_levels([i.levels[0], times])]: the entries of the second level
    are replaced, the rows keep their positions. pandas raises
    [ValueError] when the new entries are not distinct or a row points
    past them. *)
Definition set_levels_time (i : MultiIndex) (times : list Z) : result MultiIndex :=
  if distinct times && forallb (fun c => snd c <? length times) (codes i)
  then Ok (mk_index (levels0 i) (map KTime times) (codes i) (names i))
  else Raise ValueError.

(** The two functions of pandas the reader calls. [read_csv text skiprows
    nrows] is [pd.read_csv(filepath, sep="\t", header=None, index_col=[0,
    1], skiprows=skiprows, nrows=nrows)] on the file of that text, and
    [to_datetime] is [pd.to_datetime] on the entries of an index level. *)
Class Pandas : Type := {
  read_csv : string -> nat -> nat -> result DataFrame;
  to_datetime : list key -> result (list Z)
}.

(** ** [read_parafac_model] *)

(** A [dict] from strings to strings, in order of insertion. *)
Definition dict : Type := list (string * string).

Fixpoint dict_set (d : dict) (k v : string) : dict :=
  match d with
  | [] => [(k, v)]
  | (k', v') :: d' => if String.eqb k' k then (k, v) :: d' else (k', v') :: dict_set d' k v
  end.

Definition str_of_nat (n : nat) : string := NilZero.string_of_uint (Nat.to_uint n).

(** [['component {rank}'.format(rank=r + 1) for r in range(n)]]. *)
Definition component_labels (n : nat) : list label :=
  map (fun r => LStr (String.append "component " (str_of_nat (r + 1)))) (seq 0 n).

(** In the loops of this reader every line is read as
    [f.readline().strip()]. Here [f] holds the stripped lines from the
    current one on: it is empty when the current line is the empty string
    that [readline] gives at the end of the file, and every [readline]
    after that gives the same. [line_count] is the number of the current
    line, from 0. *)

(** [while '#' in line:] with a message printed for a line that has
    [marker]. [last] is the value of [line_count] before the last
    increment, as [line_count_spectra_start] records it. *)
Fixpoint comment_block (marker message : string) (f : list string) (line_count : nat)
  (last : option nat) : M (list string * nat * option nat) :=
  match f with
  | [] => ret ([], line_count, last)
  | line :: f' =>
      if str_in "#" line then
        ((if str_in marker line then print [VStr message] else ret tt) ;;;
         comment_block marker message f' (S line_count) (Some line_count))%py
      else ret (f, line_count, last)
  end.

(** [while '#' not in line:] filling [info_dict]. At the end of the file
    the line is empty, has no ['#'], and the loop goes on for ever. *)
Fixpoint info_block (f : list string) (line_count : nat) (info_dict : dict)
  : result (list string * nat * dict) :=
  match f with
  | [] => Diverges
  | line :: f' =>
      if negb (str_in "#" line) then
        let phrase := split_sep TAB line in
        let info_dict :=
          if 1 <? length phrase
          then dict_set info_dict (nth 0 phrase EmptyString) (nth 1 phrase EmptyString)
          else dict_set info_dict (nth 0 phrase EmptyString) EmptyString in
        info_block f' (S line_count) info_dict
      else Ok (f, line_count, info_dict)
  end.

(** [while word in line:] for a word that is not empty. *)
Fixpoint row_block (word : string) (f : list string) (line_count : nat)
  : list string * nat :=
  match f with
  | [] => ([], line_count)
  | line :: f' =>
      if str_in word line then row_block word f' (S line_count)
      else (f, line_count)
  end.

(** The last loop, [while '#' in line:]. A line with ['end'] reads the
    scores from the lines [line_count_score] to [line_count], and only
    then is the next line read: on a line with ['#'] and without ['end']
    the loop goes on for ever. [line_count] stays as it is. *)
Fixpoint score_block `{Pandas} (text : string) (component_label : list label)
  (line_count_score line_count : nat) (f : list string) (score_df : option DataFrame)
  : M (option DataFrame) :=
  match f with
  | [] => ret score_df
  | line :: f' =>
      if str_in "#" line then
        if str_in "end" line then
          (let line_count_end := line_count in
           df <- lift (read_csv text line_count_score (line_count_end - line_count_score)) ;;
           times <- lift (to_datetime (levels1 (index df))) ;;
           i <- lift (set_levels_time (index df) times) ;;
           df <- lift (set_columns (mk_frame i (columns df) (cells df)) component_label) ;;
           let df := set_index_names df "type" "time" in
           print [VStr "Reading complete"] ;;;
           score_block text component_label line_count_score line_count f' (Some df))%py
        else ([], Diverges)
      else ret score_df
  end.

(** [read_parafac_model(filepath)]: [(ex_df, em_df, score_df, info_dict)],
    [text] being the text of the file. *)
Definition read_parafac_model `{Pandas} (text : string)
  : M (DataFrame * DataFrame * option DataFrame * dict) :=
  (let f := map strip (readlines text) in
   let line_count := 0 in
   ' (f, line_count, _) <-
     comment_block "Fluorescence" "Reading fluorescence measurement info..."
                   f line_count None ;;
   ' (f, line_count, info_dict) <- lift (info_block f line_count []) ;;
   ' (f, line_count, start) <-
     comment_block "Excitation" "Reading Ex/Em loadings..." f line_count None ;;
   match start with
   | None => raise UnboundLocalError
   | Some line_count_spectra_start =>
       let (f, line_count) := row_block "Ex" f line_count in
       let line_count_ex := line_count in
       ex_df <- lift (read_csv text (line_count_spectra_start + 1)
                               (line_count_ex - line_count_spectra_start - 1)) ;;
       let component_label := component_labels (width ex_df) in
       ex_df <- lift (set_columns ex_df component_label) ;;
       let ex_df := set_index_names ex_df "type" "wavelength" in
       let (f, line_count) := row_block "Em" f line_count in
       let line_count_em := line_count in
       em_df <- lift (read_csv text line_count_ex (line_count_em - line_count_ex)) ;;
       em_df <- lift (set_columns em_df component_label) ;;
       let em_df := set_index_names em_df "type" "wavelength" in
       let score_df := None in
       ' (f, line_count, _) <-
         comment_block "Score" "Reading component scores..." f line_count None ;;
       let line_count_score := line_count in
       let (f, line_count) := row_block "Score" f line_count in
       score_df <- score_block text component_label line_count_score line_count f score_df ;;
       ret (ex_df, em_df, score_df, info_dict)
   end)%py.

(** ** The layout of a PARAFAC file

    The blocks of an OpenFluor file, in the order of the file, as lists of
    stripped lines: comment lines have a ['#']; the loadings are the rows
    with ['Ex'], then the rows with ['Em']; the scores, when the file has
    them, are the rows with ['Score'], closed by lines with ['#'] and
    ['end']. *)

Record parafac_layout : Type := mk_layout {
  leading_comments : list string;
  metadata : list string;
  loading_comments : list string;
  ex_rows : list string;
  em_rows : list string;
  score_comments : list string;
  score_rows : list string;
  ending : list string;
  trailing : list string
}.

Definition layout_lines (l : parafac_layout) : list string :=
  leading_comments l ++ metadata l ++ loading_comments l ++ ex_rows l ++ em_rows l ++
  score_comments l ++ score_rows l ++ ending l ++ trailing l.

Definition current (f : list string) : string := hd EmptyString f.

Definition has (word line : string) : bool := str_in word line.

Definition nonempty {A : Type} (l : list A) : bool :=
  match l with [] => false | _ => true end.

Definition well_formed_parafac (l : parafac_layout) : bool :=
  forallb (has "#") (leading_comments l) &&
  nonempty (metadata l) &&
  forallb (fun s => negb (has "#" s)) (metadata l) &&
  nonempty (loading_comments l) &&
  forallb (has "#") (loading_comments l) &&
  nonempty (ex_rows l) &&
  forallb (fun s => has "Ex" s && negb (has "#" s)) (ex_rows l) &&
  nonempty (em_rows l) &&
  forallb (fun s => has "Em" s && negb (has "Ex" s) && negb (has "#" s)) (em_rows l) &&
  forallb (has "#") (score_comments l) &&
  negb (has "Em" (current (score_comments l ++ score_rows l ++ ending l ++ trailing l))) &&
  forallb (fun s => has "Score" s && negb (has "#" s)) (score_rows l) &&
  forallb (fun s => has "#" s && has "end" s) (ending l) &&
  negb (has "Score" (current (ending l ++ trailing l))) &&
  negb (has "#" (current (trailing l))) &&
  (if nonempty (score_rows l) then nonempty (ending l) else negb (nonempty (ending l))).

(** The numbers of the first rows of the loadings and of the scores. *)
Definition first_ex_row (l : parafac_layout) : nat :=
  length (leading_comments l) + length (metadata l) + length (loading_comments l).

Definition first_em_row (l : parafac_layout) : nat :=
  first_ex_row l + length (ex_rows l).

Definition first_score_row (l : parafac_layout) : nat :=
  first_em_row l + length (em_rows l) + length (score_comments l).

(** A table of loadings as the reader returns it: the table read, with
    the component labels and the names of the index levels. *)
Definition loadings (raw : DataFrame) (n : nat) : DataFrame :=
  set_index_names (mk_frame (index raw) (component_labels n) (cells raw))
                  "type" "wavelength".

(** The table of scores as the reader returns it. *)
Definition scores (raw : DataFrame) (times : list Z) (n : nat) : DataFrame :=
  set_index_names
    (mk_frame (mk_index (levels0 (index raw)) (map KTime times) (codes (index raw))
                        (names (index raw)))
              (component_labels n) (cells raw))
    "type" "time".

(** The scores of a file are read: pandas reads a table of [n] columns
    from the score rows and turns the entries of the second level of its
    index into distinct times, one for each entry. *)
Definition scores_read `{Pandas} (text : string) (l : parafac_layout) (n : nat)
  (raw : DataFrame) (times : list Z) : Prop :=
  read_csv text (first_score_row l) (length (score_rows l)) = Ok raw /\
  width raw = n /\
  to_datetime (levels1 (index raw)) = Ok times /\
  distinct times = true /\
  forallb (fun c => snd c <? length times) (codes (index raw)) = true.

(** ** A pandas for the examples

    Tables of tab-separated fields whose first two fields are strings and
    whose other fields are decimal numbers; the entries of a level stand
    in the order in which the rows bring them; the time of a date written
    [YYYY-MM-DD] is the number [YYYYMMDD]. *)

Fixpoint dedup (l : list string) : list string :=
  match l with
  | [] => []
  | s :: l' => s :: filter (fun x => negb (String.eqb x s)) (dedup l')
  end.

Fixpoint position (s : string) (l : list string) : nat :=
  match l with
  | [] => 0
  | x :: l' => if String.eqb x s then 0 else S (position s l')
  end.

Definition example_read_csv (text : string) (skiprows nrows : nat) : result DataFrame :=
  let table := map (fun l => split_sep TAB (strip l))
                   (firstn nrows (skipn skiprows (readlines text))) in
  let k0 := map (fun r => nth 0 r EmptyString) table in
  let k1 := map (fun r => nth 1 r EmptyString) table in
  Ok (mk_frame
        (mk_index (map KStr (dedup k0)) (map KStr (dedup k1))
                  (map (fun r => (position (nth 0 r EmptyString) (dedup k0),
                                  position (nth 1 r EmptyString) (dedup k1))) table)
                  [LInt 0; LInt 1])
        (map (fun j => LInt (Z.of_nat (j + 2))) (seq 0 (length (hd [] table) - 2)))
        (map (fun r => map (fun s => match decimal_float s with
                                     | Some x => x
                                     | None => NaN
                                     end) (skipn 2 r)) table)).

Fixpoint example_to_datetime (ks : list key) : result (list Z) :=
  match ks with
  | [] => Ok []
  | KStr s :: ks' =>
      match example_to_datetime ks' with
      | Ok ts => Ok (py_int (String.concat EmptyString (findall_digits s)) :: ts)
      | other => other
      end
  | _ :: _ => Raise ValueError
  end.

Definition example_pandas : Pandas :=
  {| read_csv := example_read_csv; to_datetime := example_to_datetime |}.

(** The fields of a row, joined by tabs. *)
Definition tsv (fields : list string) : string :=
  String.concat (String TAB EmptyString) fields.

Definition the_frame (r : result DataFrame) : DataFrame :=
  match r with
  | Ok df => df
  | _ => mk_frame (mk_index [] [] [] []) [] []
  end.

Definition the_times (r : result (list Z)) : list Z :=
  match r with
  | Ok ts => ts
  | _ => []
  end.

(** ** Stacks of arrays, [eempy.eem_processing] and scipy *)

(** A three-dimensional array [num x dim1 x dim2], as its slices along the
    first axis. *)
Record eem_stack : Type := mk_stack {
  dim1 : nat;
  dim2 : nat;
  slices : list ndarray
}.

(** [np.zeros([num, d1, d2])]. *)
Definition stack_zeros (num d1 d2 : nat) : eem_stack :=
  mk_stack d1 d2 (repeat (np_zeros d1 d2) num).

(** numpy's broadcasting of a two-dimensional array to the shape
    [(d1, d2)]: an axis of length one is repeated. *)
Definition broadcastable (a : ndarray) (d1 d2 : nat) : bool :=
  ((shape0 a =? d1) || (shape0 a =? 1)) && ((shape1 a =? d2) || (shape1 a =? 1)).

Definition broadcast_to (a : ndarray) (d1 d2 : nat) : ndarray :=
  mk_ndarray d1 d2
    (map (fun i => map (fun j => item a (if shape0 a =? 1 then 0 else i)
                                        (if shape1 a =? 1 then 0 else j))
                       (seq 0 d2))
         (seq 0 d1)).

Fixpoint replace_nth {A : Type} (n : nat) (x : A) (l : list A) : list A :=
  match l, n with
  | [], _ => []
  | _ :: l', O => x :: l'
  | y :: l', S n' => y :: replace_nth n' x l'
  end.

(** [stack[n, :, :] = a]: [IndexError] past the last slice, [ValueError]
    when [a] cannot be broadcast to the shape of a slice. *)
Definition set_slice (stack : eem_stack) (n : nat) (a : ndarray) : result eem_stack :=
  if length (slices stack) <=? n then Raise IndexError
  else if (shape0 a =? dim1 stack) && (shape1 a =? dim2 stack)
  then Ok (mk_stack (dim1 stack) (dim2 stack) (replace_nth n a (slices stack)))
  else if broadcastable a (dim1 stack) (dim2 stack)
  then Ok (mk_stack (dim1 stack) (dim2 stack)
                    (replace_nth n (broadcast_to a (dim1 stack) (dim2 stack)) (slices stack)))
  else Raise ValueError.

(** [np.max] and [np.min]: [ValueError] on an empty array, NaN when an
    element is NaN. *)
Definition np_max (g : list float) : result float :=
  match g with
  | [] => Raise ValueError
  | a :: g' => Ok (fold_left f_max g' a)
  end.

Definition np_min (g : list float) : result float :=
  match g with
  | [] => Raise ValueError
  | a :: g' => Ok (fold_left f_min g' a)
  end.

(** [(np.max(g) - np.min(g)) / (g.shape[0] - 1)]. *)
Definition interval (g : list float) : result float :=
  match np_max g, np_min g with
  | Ok mx, Ok mn => Ok (f_div_nat (f_sub mx mn) (length g - 1))
  | Ok _, other => other
  | other, _ => other
  end.

(** The interval of a grid of integers: numpy divides them as floats. *)
Definition interval_ex (g : list Z) : result float := interval (map f_of_int g).

(** The signature of [eem_interpolation(intensity, em_range_old,
    ex_range_old, em_range_new, ex_range_new, method)], positional
    arguments named as [read_eem_dataset] passes them. *)
Definition interpolation : Type :=
  ndarray -> list float -> list Z -> list float -> list Z -> string -> result ndarray.

(** The two functions of [eempy.eem_processing] that [read_eem_dataset]
    calls; their code is not in this file. [process_eem_stack] takes the
    stack, the function to apply to its slices and the four grids. *)
Class EemProcessing : Type := {
  eem_interpolation : interpolation;
  process_eem_stack :
    eem_stack -> interpolation -> list float -> list Z -> list float -> list Z ->
    result eem_stack
}.

(** [scipy.interpolate.interp1d(x, y, kind)(x_new)]. *)
Class Scipy : Type := {
  interp1d : list float -> list float -> string -> list float -> result (list float)
}.

(** ** [get_filelist] and the file system *)

(** A directory: the names of its files, in the order of [os.listdir],
    each with its text. *)
Definition directory : Type := list (string * string).

(** [get_filelist(filedir, kw)]. *)
Definition get_filelist (filedir : directory) (kw : string) : list string :=
  filter (fun file => str_in kw file) (map fst filedir).

Fixpoint lookup (name : string) (d : directory) : option string :=
  match d with
  | [] => None
  | (n, text) :: d' => if String.eqb n name then Some text else lookup name d'
  end.

(** [open(folder_path + '/' + name, 'r')]. *)
Definition open_file (folder : directory) (name : string) : result string :=
  match lookup name folder with
  | Some text => Ok text
  | None => Raise FileNotFoundError
  end.

Definition path_of (folder_path name : string) : string :=
  String.append folder_path (String.append "/" name).

(** [custom_filename_list] when it is given and not empty, the files of
    the folder with the keyword otherwise. *)
Definition filename_list_of (folder : directory) (kw : string)
  (custom_filename_list : option (list string)) : list string :=
  match custom_filename_list with
  | Some (name :: names) => name :: names
  | _ => get_filelist folder kw
  end.

(** ** [read_eem_dataset] *)

(** The variables that live across the rounds of the loop. At the start
    of a round and after the loop, [em_range] and [ex_range] are
    [em_range_old] and [ex_range_old]. *)
Record dataset_state : Type := mk_state {
  st_stack : eem_stack;
  st_indexes : list (option string);
  em_range_old : list float;
  ex_range_old : list Z
}.

(** [try: eem_stack[n, :, :] = intensity / except ValueError: print(...)]. *)
Definition insert_slice (stack : eem_stack) (n : nat) (intensity : ndarray)
  (filename : string) : M eem_stack :=
  match set_slice stack n intensity with
  | Ok stack' => ret stack'
  | Raise ValueError =>
      (print [VStr "Check data dimension: "; VStr filename] ;;; ret stack)%py
  | Raise e => raise e
  | Diverges => ([], Diverges)
  end.

(** The [if wavelength_alignment:] block of one round: the stack, the
    intensity and the two grids after it. *)
Definition align `{EemProcessing} (interpolation_method : string) (stack : eem_stack)
  (em_range_old : list float) (ex_range_old : list Z)
  (intensity : ndarray) (ex_range : list Z) (em_range : list float)
  : M (eem_stack * ndarray * list Z * list float) :=
  (em_interval_new <- lift (interval em_range) ;;
   em_interval_old <- lift (interval em_range_old) ;;
   ex_interval_new <- lift (interval_ex ex_range) ;;
   ex_interval_old <- lift (interval_ex ex_range_old) ;;
   let em_range_target :=
     if f_gtb em_interval_new em_interval_old then em_range_old else em_range in
   let ex_range_target :=
     if f_gtb ex_interval_new ex_interval_old then ex_range_old else ex_range in
   ' (intensity, ex_range, em_range) <-
     (if f_gtb em_interval_new em_interval_old || f_gtb ex_interval_new ex_interval_old
      then
        called Call_eem_interpolation ;;;
        intensity <- lift (eem_interpolation intensity em_range (np_flipud ex_range)
                             em_range_target (np_flipud ex_range_target)
                             interpolation_method) ;;
        ret (intensity, ex_range_old, em_range_old)
      else ret (intensity, ex_range, em_range)) ;;
   stack <-
     (if f_ltb em_interval_new em_interval_old || f_ltb ex_interval_new ex_interval_old
      then
        called Call_process_eem_stack ;;;
        lift (process_eem_stack stack eem_interpolation em_range_old
                (np_flipud ex_range_old) em_range_target (np_flipud ex_range_target))
      else ret stack) ;;
   ret (stack, intensity, ex_range, em_range))%py.

(** One round of [for n in range(1, len(filename_list))]. The files after
    the first are read without [index_pos]. *)
Definition dataset_round `{PyFloat} `{EemProcessing} (folder_path : string)
  (folder : directory) (data_format : string) (wavelength_alignment : bool)
  (interpolation_method : string) (st : dataset_state) (n : nat) (filename : string)
  : M dataset_state :=
  (text <- lift (open_file folder filename) ;;
   ' (intensity, ex_range, em_range, index) <-
     read_eem (path_of folder_path filename) text None data_format ;;
   let indexes := st_indexes st ++ [index] in
   ' (stack, intensity, ex_range, em_range) <-
     (if wavelength_alignment
      then align interpolation_method (st_stack st) (em_range_old st) (ex_range_old st)
                 intensity ex_range em_range
      else ret (st_stack st, intensity, ex_range, em_range)) ;;
   stack <- insert_slice stack n intensity filename ;;
   ret (mk_state stack indexes em_range ex_range))%py.

Fixpoint dataset_loop `{PyFloat} `{EemProcessing} (folder_path : string)
  (folder : directory) (data_format : string) (wavelength_alignment : bool)
  (interpolation_method : string) (filenames : list string) (n : nat)
  (st : dataset_state) : M dataset_state :=
  match filenames with
  | [] => ret st
  | filename :: filenames' =>
      (st' <- dataset_round folder_path folder data_format wavelength_alignment
                            interpolation_method st n filename ;;
       dataset_loop folder_path folder data_format wavelength_alignment
                    interpolation_method filenames' (S n) st')%py
  end.

(** [read_eem_dataset(folder_path, kw, data_format, index_pos,
    custom_filename_list, wavelength_alignment, interpolation_method)]:
    [(eem_stack, ex_range, em_range, indexes)], [folder] being the
    directory at [folder_path]. *)
Definition read_eem_dataset `{PyFloat} `{EemProcessing} (folder_path : string)
  (folder : directory) (kw data_format : string) (index_pos : option (nat * nat))
  (custom_filename_list : option (list string)) (wavelength_alignment : bool)
  (interpolation_method : string)
  : M (eem_stack * list Z * list float * list (option string)) :=
  let filename_list := filename_list_of folder kw custom_filename_list in
  match filename_list with
  | [] => raise IndexError
  | filename :: filenames =>
      (text <- lift (open_file folder filename) ;;
       ' (intensity, ex_range, em_range, index) <-
         read_eem (path_of folder_path filename) text index_pos data_format ;;
       let num_datfile := length filename_list in
       let stack := stack_zeros num_datfile (shape0 intensity) (shape1 intensity) in
       stack <- lift (set_slice stack 0 intensity) ;;
       st <- dataset_loop folder_path folder data_format wavelength_alignment
                          interpolation_method filenames 1
                          (mk_state stack [index] em_range ex_range) ;;
       ret (st_stack st, ex_range_old st, em_range_old st, st_indexes st))%py
  end.

(** ** An interpolation for the examples

    The sample nearest by position, whatever the wavelengths: the array
    returned has one row per target excitation wavelength and one column
    per target emission wavelength. *)

Definition resample (a : ndarray) (d1 d2 : nat) : ndarray :=
  mk_ndarray d1 d2
    (map (fun i => map (fun j => item a (i * shape0 a / d1) (j * shape1 a / d2))
                       (seq 0 d2))
         (seq 0 d1)).

Definition example_interpolation : interpolation :=
  fun intensity _ _ em_range_new ex_range_new _ =>
    Ok (resample intensity (length ex_range_new) (length em_range_new)).

Fixpoint map_result {A B : Type} (f : A -> result B) (l : list A) : result (list B) :=
  match l with
  | [] => Ok []
  | a :: l' =>
      match f a with
      | Ok b =>
          match map_result f l' with
          | Ok bs => Ok (b :: bs)
          | Raise e => Raise e
          | Diverges => Diverges
          end
      | Raise e => Raise e
      | Diverges => Diverges
      end
  end.

Definition example_process_eem_stack (stack : eem_stack) (f : interpolation)
  (em_old : list float) (ex_old : list Z) (em_new : list float) (ex_new : list Z)
  : result eem_stack :=
  match map_result (fun a => f a em_old ex_old em_new ex_new "linear") (slices stack) with
  | Ok s => Ok (mk_stack (length ex_new) (length em_new) s)
  | Raise e => Raise e
  | Diverges => Diverges
  end.

Definition example_processing : EemProcessing :=
  {| eem_interpolation := example_interpolation;
     process_eem_stack := example_process_eem_stack |}.

(** The file [name] of the folder is read as the EEM [r], an intensity
    array with its excitation and emission grids. *)
Definition reads_as `{PyFloat} (folder_path : string) (folder : directory)
  (data_format name : string) (r : ndarray * list Z * list float) : Prop :=
  exists text t,
    open_file folder name = Ok text /\
    read_eem (path_of folder_path name) text None data_format = (t, Ok (r, None)).

(** The file [name] of the folder is a well-formed EEM file, read as [r]. *)
Definition reads_well_formed `{PyFloat} (folder_path : string) (folder : directory)
  (data_format name : string) (r : ndarray * list Z * list float) : Prop :=
  exists text,
    open_file folder name = Ok text /\
    well_formed_eem text = true /\
    read_eem (path_of folder_path name) text None data_format = ([], Ok (r, None)).

(** ** Finer and coarser grids *)

(** The first interval is smaller than the second. *)
Definition lt_interval (a b : result float) : bool :=
  match a, b with
  | Ok x, Ok y => f_ltb x y
  | _, _ => false
  end.

(** An EEM as read: its array and its two grids. *)
Definition eem : Type := (ndarray * list Z * list float)%type.

Definition ex_of (r : eem) : list Z := snd (fst r).
Definition em_of (r : eem) : list float := snd r.

(** The emission wavelengths are numbers. *)
Definition finite_em (r : eem) : Prop := forallb is_fin (em_of r) = true.

(** No file is finer than another on one axis and coarser on the other. *)
Definition consistent (rs : list eem) : Prop :=
  forall r1 r2, In r1 rs -> In r2 rs ->
    ~ (lt_interval (interval (em_of r1)) (interval (em_of r2)) = true /\
       lt_interval (interval_ex (ex_of r2)) (interval_ex (ex_of r1)) = true).

(** Grids of one interval on an axis have as many points. *)
Definition ties_agree (rs : list eem) : Prop :=
  forall r1 r2, In r1 rs -> In r2 rs ->
    (lt_interval (interval (em_of r1)) (interval (em_of r2)) = false ->
     lt_interval (interval (em_of r2)) (interval (em_of r1)) = false ->
     length (em_of r1) = length (em_of r2)) /\
    (lt_interval (interval_ex (ex_of r1)) (interval_ex (ex_of r2)) = false ->
     lt_interval (interval_ex (ex_of r2)) (interval_ex (ex_of r1)) = false ->
     length (ex_of r1) = length (ex_of r2)).

(** What [read_eem_dataset] needs of [eempy.eem_processing]: the
    interpolation returns an array, and the stack comes back with as many
    slices, each of one row per target excitation wavelength and one
    column per target emission wavelength. *)
Definition interpolates `{EemProcessing} : Prop :=
  (forall intensity em_old ex_old em_new ex_new method,
     exists a, eem_interpolation intensity em_old ex_old em_new ex_new method = Ok a) /\
  (forall stack em_old ex_old em_new ex_new,
     exists stack',
       process_eem_stack stack eem_interpolation em_old ex_old em_new ex_new = Ok stack' /\
       dim1 stack' = length ex_new /\ dim2 stack' = length em_new /\
       length (slices stack') = length (slices stack)).

(** The state of the loop after the files [seen], for a stack of [num]
    slices: on each axis the running grid is the grid of a file seen, no
    file seen has a smaller interval, and the slices of the stack have
    one row per excitation and one column per emission wavelength of the
    running grids. *)
Definition aligned (seen : list eem) (num : nat) (st : dataset_state) : Prop :=
  (exists re, In re seen /\ em_of re = em_range_old st /\
     forall r, In r seen ->
       lt_interval (interval (em_of r)) (interval (em_of re)) = false) /\
  (exists rx, In rx seen /\ ex_of rx = ex_range_old st /\
     forall r, In r seen ->
       lt_interval (interval_ex (ex_of r)) (interval_ex (ex_of rx)) = false) /\
  dim1 (st_stack st) = length (ex_range_old st) /\
  dim2 (st_stack st) = length (em_range_old st) /\
  length (slices (st_stack st)) = num.

(** ** [read_abs_dataset] *)

(** [a[n, :] = row] on a two-dimensional array: [IndexError] past the
    last row, [ValueError] when [row] is neither as long as a row of [a]
    nor of length one. *)
Definition set_row (a : ndarray) (n : nat) (row : list float) : result ndarray :=
  if shape0 a <=? n then Raise IndexError
  else if length row =? shape1 a
  then Ok (mk_ndarray (shape0 a) (shape1 a) (replace_nth n row (rows a)))
  else if length row =? 1
  then Ok (mk_ndarray (shape0 a) (shape1 a)
                      (replace_nth n (repeat (hd f_zero row) (shape1 a)) (rows a)))
  else Raise ValueError.

(** [a[i, :]]. *)
Definition get_row (a : ndarray) (i : nat) : result (list float) :=
  match nth_error (rows a) i with
  | Some row => Ok row
  | None => Raise IndexError
  end.

(** [for i in range(n):] of the branch that interpolates the rows stacked
    so far onto the grid of the file just read; [rest] holds the values
    of [i] still to come. *)
Fixpoint reinterpolate_rows `{Scipy} (interpolation_method : string)
  (ex_range_old ex_range : list float) (abs_stack : ndarray) (rest : list nat)
  (abs_stack_new : ndarray) : M ndarray :=
  match rest with
  | [] => ret abs_stack_new
  | i :: rest' =>
      (row <- lift (get_row abs_stack i) ;;
       called Call_interp1d ;;;
       row' <- lift (interp1d ex_range_old row interpolation_method ex_range) ;;
       abs_stack_new <- lift (set_row abs_stack_new i row') ;;
       reinterpolate_rows interpolation_method ex_range_old ex_range abs_stack rest'
                          abs_stack_new)%py
  end.

(** The variables of [read_abs_dataset] that live across the rounds. *)
Record abs_state : Type := mk_abs_state {
  abs_stack_of : ndarray;
  abs_indexes : list (option string);
  abs_ex_range_old : list float
}.

(** One round of the loop of [read_abs_dataset]. In the branch of a
    coarser file the absorbance is interpolated and [ex_range] stays the
    grid of the file. *)
Definition abs_round `{PyFloat} `{Scipy} (folder_path : string) (folder : directory)
  (data_format : string) (index_pos : option (nat * nat)) (wavelength_alignment : bool)
  (interpolation_method : string) (num_datfile : nat) (st : abs_state) (n : nat)
  (filename : string) : M abs_state :=
  (text <- lift (open_file folder filename) ;;
   ' (absorbance, ex_range, index) <-
     read_abs (path_of folder_path filename) text index_pos data_format ;;
   let indexes := abs_indexes st ++ [index] in
   let ex_range_old := abs_ex_range_old st in
   ' (abs_stack, absorbance) <-
     (if wavelength_alignment then
        ex_interval_new <- lift (interval ex_range) ;;
        ex_interval_old <- lift (interval ex_range_old) ;;
        absorbance <-
          (if f_gtb ex_interval_new ex_interval_old then
             called Call_interp1d ;;;
             lift (interp1d ex_range absorbance interpolation_method ex_range_old)
           else ret absorbance) ;;
        abs_stack <-
          (if f_ltb ex_interval_new ex_interval_old then
             reinterpolate_rows interpolation_method ex_range_old ex_range
                                (abs_stack_of st) (seq 0 n)
                                (np_zeros num_datfile (length absorbance))
           else ret (abs_stack_of st)) ;;
        ret (abs_stack, absorbance)
      else ret (abs_stack_of st, absorbance)) ;;
   abs_stack <- lift (set_row abs_stack n absorbance) ;;
   ret (mk_abs_state abs_stack indexes ex_range))%py.

Fixpoint abs_loop `{PyFloat} `{Scipy} (folder_path : string) (folder : directory)
  (data_format : string) (index_pos : option (nat * nat)) (wavelength_alignment : bool)
  (interpolation_method : string) (num_datfile : nat) (filenames : list string) (n : nat)
  (st : abs_state) : M abs_state :=
  match filenames with
  | [] => ret st
  | filename :: filenames' =>
      (st' <- abs_round folder_path folder data_format index_pos wavelength_alignment
                        interpolation_method num_datfile st n filename ;;
       abs_loop folder_path folder data_format index_pos wavelength_alignment
                interpolation_method num_datfile filenames' (S n) st')%py
  end.

(** [read_abs_dataset(folder_path, kw, data_format, index_pos,
    custom_filename_list, wavelength_alignment, interpolation_method)]:
    [(abs_stack, ex_range, filename_list, indexes)]. *)
Definition read_abs_dataset `{PyFloat} `{Scipy} (folder_path : string)
  (folder : directory) (kw data_format : string) (index_pos : option (nat * nat))
  (custom_filename_list : option (list string)) (wavelength_alignment : bool)
  (interpolation_method : string)
  : M (ndarray * list float * list string * list (option string)) :=
  let filename_list := filename_list_of folder kw custom_filename_list in
  match filename_list with
  | [] => raise IndexError
  | filename :: filenames =>
      (text <- lift (open_file folder filename) ;;
       ' (absorbance, ex_range, index) <-
         read_abs (path_of folder_path filename) text index_pos data_format ;;
       let num_datfile := length filename_list in
       let abs_stack := np_zeros num_datfile (length absorbance) in
       abs_stack <- lift (set_row abs_stack 0 absorbance) ;;
       st <- abs_loop folder_path folder data_format index_pos wavelength_alignment
                      interpolation_method num_datfile filenames 1
                      (mk_abs_state abs_stack [index] ex_range) ;;
       ret (abs_stack_of st, abs_ex_range_old st, filename_list, abs_indexes st))%py
  end.

(** An [interp1d] for the examples: the sample nearest by position. *)
Definition example_interp1d (x y : list float) (kind : string) (x_new : list float)
  : result (list float) :=
  if length x =? length y
  then Ok (map (fun i => nth (i * length y / length x_new) y f_zero)
               (seq 0 (length x_new)))
  else Raise ValueError.

Definition example_scipy : Scipy := {| interp1d := example_interp1d |}.

(* ================================================================= *)
(** ** Vocabulary of the statements, and the files of the examples *)
(* ================================================================= *)

(** The table under the header, as an array: one row per emission
    wavelength, one column per excitation wavelength, in the order of the
    file. *)
Definition raw_table `{PyFloat} (text : string) : ndarray :=
  mk_ndarray (length (table (data_lines text))) (length (header_of text))
             (map snd (table (data_lines text))).

(** The emission column of the file, in the order of the file. *)
Definition raw_emission `{PyFloat} (text : string) : list float :=
  map fst (table (data_lines text)).

(** Two excitation and three emission wavelengths. *)
Definition eem_2x3 : string :=
  text_of ["240 250"; "300 1.0 2.0"; "301 3.5 4"; "302 5 6"].

(** An emission column stored descending. *)
Definition eem_descending : string :=
  text_of ["240 250"; "302 5 6"; "301 3 4"; "300 1 2"].

(** The three lines printed when the loop of [read_eem] breaks, with the
    two numbers they show. *)
Definition mismatch_report (header_columns data_columns : nat) : trace :=
  [Printed [VStr (String.append
      "please check the consistancy of header and data dimensions:" nl)];
   Printed [VStr "number of columns suggested by your header: ";
            VInt (Z.of_nat header_columns); VStr nl];
   Printed [VStr "number of columns you have in your intensity data: ";
            VInt (Z.of_nat data_columns)]].

(** A second row with one value for two columns. *)
Definition eem_short_row : string :=
  text_of ["240 250"; "300 1.0 2.0"; "301 3.5"; "302 5 6"].

(** A row with values that are no floats, then a row with one value. *)
Definition eem_dropped_row : string :=
  text_of ["240 250"; "300 1 2"; "301 x y"; "302 1"].

(** Three values and a blank line at the end. *)
Definition reference_trailing_blank : string :=
  text_of ["DOC (mg/L)"; "1.0"; "2.5"; "4.8"; ""].

(** Splits the conjunctions of booleans among the hypotheses. *)
Ltac split_andb :=
  repeat match goal with
         | H : (_ && _)%bool = true |- _ => apply andb_true_iff in H as [? ?]
         end.

(** A model of two components with three score rows. *)
Definition parafac_example : parafac_layout :=
  {| leading_comments := ["#"; "# Fluorescence Model"; "#"];
     metadata := [tsv ["name"; "demo"]; "creator"];
     loading_comments :=
       ["#"; "# Excitation/Emission (Ex, Em), wavelength [nm], component_n [intensity]"; "#"];
     ex_rows := [tsv ["Ex"; "250"; "0.1"; "0.2"]; tsv ["Ex"; "260"; "0.3"; "0.4"]];
     em_rows := [tsv ["Em"; "300"; "0.5"; "0.6"]; tsv ["Em"; "310"; "0.7"; "0.8"];
                 tsv ["Em"; "320"; "0.9"; "1.0"]];
     score_comments := ["#"; "# timestamp, component_n [Score]"; "#"];
     score_rows := [tsv ["Score"; "2024-01-01"; "1.5"; "2.5"];
                    tsv ["Score"; "2024-01-02"; "3.5"; "4.5"];
                    tsv ["Score"; "2024-01-03"; "5.5"; "6.5"]];
     ending := ["# end #"];
     trailing := [] |}.

Definition parafac_text : string := text_of (layout_lines parafac_example).

(** Two files on one grid, in a folder with another file. *)
Definition eem_same_a : string := text_of ["240 250"; "300 1 2"; "302 3 4"; "304 5 6"].
Definition eem_same_b : string := text_of ["240 250"; "300 7 8"; "302 9 10"; "304 11 12"].
Definition same_grid_folder : directory :=
  [("a_PEM.dat", eem_same_a); ("notes.txt", "x"); ("b_PEM.dat", eem_same_b)].

(** Two files of two resolutions: intervals 10 and 2, then 20 and 4. *)
Definition eem_fine : string :=
  text_of ["240 250 260"; "300 1 2 3"; "302 4 5 6"; "304 7 8 9"].
Definition eem_coarse : string :=
  text_of ["240 260"; "300 10 20"; "304 30 40"].
Definition two_resolutions_folder : directory :=
  [("a_PEM.dat", eem_fine); ("b_PEM.dat", eem_coarse)].

(** What [read_eem] returns for them. *)
Definition fine_record : eem :=
  (mk_ndarray 3 3 [[Fin 1; Fin 4; Fin 7]; [Fin 2; Fin 5; Fin 8]; [Fin 3; Fin 6; Fin 9]],
   [240; 250; 260]%Z, [Fin 300; Fin 302; Fin 304]).
Definition coarse_record : eem :=
  (mk_ndarray 2 2 [[Fin 10; Fin 30]; [Fin 20; Fin 40]],
   [240; 260]%Z, [Fin 300; Fin 304]).

(** Two absorbance files, of intervals 10 and 20. *)
Definition abs_fine : string := text_of ["240 0.5"; "250 0.4"; "260 0.3"].
Definition abs_coarse : string := text_of ["240 0.9"; "260 0.7"].
Definition abs_folder : directory := [("a_ABS.dat", abs_fine); ("b_ABS.dat", abs_coarse)].

(* ================================================================= *)
(** ** [read_parafac_models], and more vocabulary *)
(* ================================================================= *)

(** [d[k]] of a [dict], [None] for a missing key. *)
Fixpoint dict_get (d : dict) (k : string) : option string :=
  match d with
  | [] => None
  | (k', v) :: d' => if String.eqb k' k then Some v else dict_get d' k
  end.

(** One entry of the list that [read_parafac_models] returns:
    [{'info': info_dict, 'ex': ex_df, 'em': em_df, 'score': score_df}]. *)
Record parafac_result : Type := mk_result {
  res_info : dict;
  res_ex : DataFrame;
  res_em : DataFrame;
  res_score : option DataFrame
}.

(** [for f in datlist:] of [read_parafac_models]. *)
Fixpoint read_parafac_files `{Pandas} (folder : directory) (datlist : list string)
  (parafac_results : list parafac_result) : M (list parafac_result) :=
  match datlist with
  | [] => ret parafac_results
  | f :: datlist' =>
      (text <- lift (open_file folder f) ;;
       ' (ex_df, em_df, score_df, info_dict) <- read_parafac_model text ;;
       let info_dict := dict_set info_dict "filename" f in
       let d := mk_result info_dict ex_df em_df score_df in
       read_parafac_files folder datlist' (parafac_results ++ [d]))%py
  end.

(** [read_parafac_models(datdir, kw)], [folder] being the directory at
    [datdir]. *)
Definition read_parafac_models `{Pandas} (folder : directory) (kw : string)
  : M (list parafac_result) :=
  let datlist := get_filelist folder kw in
  read_parafac_files folder datlist [].

(** What a line of the metadata block does to [info_dict]: the first
    field is the key, the second the value, the empty string when the line
    has one field. *)
Definition info_step (info_dict : dict) (line : string) : dict :=
  let phrase := split_sep TAB line in
  if 1 <? length phrase
  then dict_set info_dict (nth 0 phrase EmptyString) (nth 1 phrase EmptyString)
  else dict_set info_dict (nth 0 phrase EmptyString) EmptyString.

(** The key and the value of a line of the metadata block. *)
Definition info_key (line : string) : string :=
  nth 0 (split_sep TAB line) EmptyString.

Definition info_value (line : string) : string :=
  nth 1 (split_sep TAB line) EmptyString.

(** The value of the last of the lines with the key [k]. *)
Definition last_value (lines : list string) (k : string) : option string :=
  fold_left (fun v line => if String.eqb (info_key line) k then Some (info_value line) else v)
            lines None.

(** A line that the loop of [read_eem] does not skip. *)
Definition kept `{PyFloat} (line : string) : bool :=
  match classify line with
  | NotARow => false
  | _ => true
  end.

(** No slash in a file name. *)
Fixpoint no_slash (s : string) : bool :=
  match s with
  | EmptyString => true
  | String c s' => negb (Ascii.eqb c "/"%char) && no_slash s'
  end.

(** A line of blank characters only. *)
Fixpoint blank (s : string) : bool :=
  match s with
  | EmptyString => true
  | String c s' => is_space c && blank s'
  end.

(** What slice [n] of the stack holds after
    [try: eem_stack[n, :, :] = intensity / except ValueError: ...] on a
    slice of zeros of shape [(d1, d2)]: the array, the array broadcast, or
    the zeros the stack was created with. *)
Definition stored (d1 d2 : nat) (a : ndarray) : ndarray :=
  if (shape0 a =? d1) && (shape1 a =? d2) then a
  else if broadcastable a d1 d2 then broadcast_to a d1 d2
  else np_zeros d1 d2.

(** [print('Check data dimension: ', name)]. *)
Definition check_dimension (name : string) : event :=
  Printed [VStr "Check data dimension: "; VStr name].

(** The array of an EEM as read. *)
Definition array_of (r : eem) : ndarray := fst (fst r).

(** The error that a line raises in the loop of [read_abs], [None] for a
    line that is read. *)
Definition abs_error `{PyFloat} (line : string) : option exn :=
  match split line with
  | [] => Some IndexError
  | w :: rest =>
      match py_float w, rest with
      | None, _ => Some ValueError
      | Some _, [] => None
      | Some _, v :: _ =>
          match py_float v with
          | None => Some ValueError
          | Some _ => None
          end
      end
  end.

(** The index of a file by its name: [name[a:b + 1]]. *)
Definition name_index (index_pos : option (nat * nat)) (name : string) : option string :=
  match index_pos with
  | Some (a, b) => Some (substring a (b + 1 - a) name)
  | None => None
  end.

(** The file [name] of the folder is read by [read_abs] as the
    absorbances and the wavelengths [r]. *)
Definition abs_reads_as `{PyFloat} (folder_path : string) (folder : directory)
  (data_format : string) (index_pos : option (nat * nat)) (name : string)
  (r : list float * list float) : Prop :=
  exists text,
    open_file folder name = Ok text /\
    read_abs (path_of folder_path name) text index_pos data_format =
      ([], Ok (fst r, snd r, index_of (path_of folder_path name) index_pos)).

(** A row that [abs_stack[n, :] = row] takes, for rows of length [len]:
    one as long, or one of a single element, which is repeated. *)
Definition fits_row (len : nat) (row : list float) : bool :=
  (length row =? len) || (length row =? 1).

Definition stored_row (len : nat) (row : list float) : list float :=
  if length row =? len then row else repeat (hd f_zero row) len.

(** Two absorbance files with as many lines. *)
Definition abs_second : string := text_of ["240 0.8"; "250 0.6"; "260 0.2"].
Definition abs_same_folder : directory :=
  [("a_ABS.dat", abs_fine); ("c_ABS.dat", abs_second)].

(** What [read_parafac_model] returns for [parafac_text] with the pandas
    of the examples, and what it prints. *)
Definition parafac_example_ex : DataFrame :=
  mk_frame (mk_index [KStr "Ex"] [KStr "250"; KStr "260"] [(0, 0); (0, 1)]
                     [LStr "type"; LStr "wavelength"])
           [LStr "component 1"; LStr "component 2"]
           [[Fin (1 # 10); Fin (1 # 5)]; [Fin (3 # 10); Fin (2 # 5)]].

Definition parafac_example_em : DataFrame :=
  mk_frame (mk_index [KStr "Em"] [KStr "300"; KStr "310"; KStr "320"]
                     [(0, 0); (0, 1); (0, 2)] [LStr "type"; LStr "wavelength"])
           [LStr "component 1"; LStr "component 2"]
           [[Fin (1 # 2); Fin (3 # 5)]; [Fin (7 # 10); Fin (4 # 5)];
            [Fin (9 # 10); Fin 1]].

Definition parafac_example_score : DataFrame :=
  mk_frame (mk_index [KStr "Score"]
                     [KTime 20240101; KTime 20240102; KTime 20240103]
                     [(0, 0); (0, 1); (0, 2)] [LStr "type"; LStr "time"])
           [LStr "component 1"; LStr "component 2"]
           [[Fin (3 # 2); Fin (5 # 2)]; [Fin (7 # 2); Fin (9 # 2)];
            [Fin (11 # 2); Fin (13 # 2)]].

Definition parafac_example_trace : trace :=
  [Printed [VStr "Reading fluorescence measurement info..."];
   Printed [VStr "Reading Ex/Em loadings..."];
   Printed [VStr "Reading component scores..."];
   Printed [VStr "Reading complete"]].

(** A folder with a model and another file. *)
Definition parafac_folder : directory :=
  [("model_a.txt", parafac_text); ("notes.md", "x")].

(** The end of [read_parafac_model], from [while "Em" in line:] on, with
    the values of the variables it reads: [f] holds the lines from the
    current one on and [line_count] is [line_count_ex]. *)
Definition parafac_tail `{Pandas} (text : string) (component_label : list label)
  (ex_df : DataFrame) (info_dict : dict) (f : list string) (line_count : nat)
  : M (DataFrame * DataFrame * option DataFrame * dict) :=
  (let line_count_ex := line_count in
   let (f, line_count) := row_block "Em" f line_count in
   let line_count_em := line_count in
   em_df <- lift (read_csv text line_count_ex (line_count_em - line_count_ex)) ;;
   em_df <- lift (set_columns em_df component_label) ;;
   let em_df := set_index_names em_df "type" "wavelength" in
   let score_df := None in
   ' (f, line_count, _) <-
     comment_block "Score" "Reading component scores..." f line_count None ;;
   let line_count_score := line_count in
   let (f, line_count) := row_block "Score" f line_count in
   score_df <- score_block text component_label line_count_score line_count f score_df ;;
   ret (ex_df, em_df, score_df, info_dict))%py.

(** The blocks of a file are well formed up to its excitation rows. *)
Definition well_formed_head (l : parafac_layout) : bool :=
  forallb (has "#") (leading_comments l) &&
  nonempty (metadata l) &&
  forallb (fun s => negb (has "#" s)) (metadata l) &&
  nonempty (loading_comments l) &&
  forallb (has "#") (loading_comments l) &&
  nonempty (ex_rows l) &&
  forallb (fun s => has "Ex" s && negb (has "#" s)) (ex_rows l) &&
  negb (has "Ex" (current (em_rows l ++ score_comments l ++ score_rows l ++
                           ending l ++ trailing l))).

(** The emission rows, and the line after them. *)
Definition well_formed_emission (l : parafac_layout) : bool :=
  forallb (has "Em") (em_rows l) &&
  negb (has "Em" (current (score_comments l ++ score_rows l ++ ending l ++ trailing l))).

(** A model whose emission loadings have a column more than its
    excitation loadings. *)
Definition parafac_unequal : parafac_layout :=
  {| leading_comments := ["#"; "# Fluorescence Model"; "#"];
     metadata := [tsv ["name"; "demo"]];
     loading_comments := ["#"];
     ex_rows := [tsv ["Ex"; "250"; "0.1"; "0.2"]];
     em_rows := [tsv ["Em"; "300"; "0.5"; "0.6"; "0.7"]];
     score_comments := [];
     score_rows := [];
     ending := [];
     trailing := [] |}.

(** The model of [parafac_example] with a line ['#'] over the line that
    closes the file. *)
Definition parafac_open_end : parafac_layout :=
  {| leading_comments := leading_comments parafac_example;
     metadata := metadata parafac_example;
     loading_comments := loading_comments parafac_example;
     ex_rows := ex_rows parafac_example;
     em_rows := em_rows parafac_example;
     score_comments := score_comments parafac_example;
     score_rows := score_rows parafac_example;
     ending := ["#"; "# end #"];
     trailing := [] |}.

(** No blank character in a string. *)
Fixpoint no_blank (s : string) : bool :=
  match s with
  | EmptyString => true
  | String c s' => negb (is_space c) && no_blank s'
  end.

(** What follows a token in a line: nothing, or a blank character and
    the rest of the line. *)
Definition after_token (s : string) : bool :=
  match s with
  | EmptyString => true
  | String c _ => is_space c
  end.

(** ** Literals read as doubles, and grids whose intervals tie in binary64

    The builtin [float] on a decimal literal gives the double nearest to
    the number written. *)
Definition binary64_float (s : string) : option float :=
  option_map (fun x => match x with Fin q => binary64 q | other => other end)
             (decimal_float s).

Definition binary64_decimal : PyFloat := {| py_float := binary64_float |}.

(** Emission grids of 20 and of 21 points, half a nanometre apart. *)
Definition eem_20_points : string :=
  text_of ("240 250" ::
    ["250.1 1 2"; "250.6 1 2"; "251.1 1 2"; "251.6 1 2"; "252.1 1 2"; "252.6 1 2";
     "253.1 1 2"; "253.6 1 2"; "254.1 1 2"; "254.6 1 2"; "255.1 1 2"; "255.6 1 2";
     "256.1 1 2"; "256.6 1 2"; "257.1 1 2"; "257.6 1 2"; "258.1 1 2"; "258.6 1 2";
     "259.1 1 2"; "259.6 1 2"]).
Definition eem_21_points : string :=
  text_of ("240 250" ::
    ["250.1 3 4"; "250.6 3 4"; "251.1 3 4"; "251.6 3 4"; "252.1 3 4"; "252.6 3 4";
     "253.1 3 4"; "253.6 3 4"; "254.1 3 4"; "254.6 3 4"; "255.1 3 4"; "255.6 3 4";
     "256.1 3 4"; "256.6 3 4"; "257.1 3 4"; "257.6 3 4"; "258.1 3 4"; "258.6 3 4";
     "259.1 3 4"; "259.6 3 4"; "260.1 3 4"]).
Definition tie_folder : directory :=
  [("a_PEM.dat", eem_20_points); ("b_PEM.dat", eem_21_points)].

(** Absorbance grids of 10 and of 11 points, a tenth apart. *)
Definition abs_10_points : string :=
  text_of ["0.1 1"; "0.2 1"; "0.3 1"; "0.4 1"; "0.5 1"; "0.6 1"; "0.7 1"; "0.8 1";
           "0.9 1"; "1.0 1"].
Definition abs_11_points : string :=
  text_of ["0.1 2"; "0.2 2"; "0.3 2"; "0.4 2"; "0.5 2"; "0.6 2"; "0.7 2"; "0.8 2";
           "0.9 2"; "1.0 2"; "1.1 2"].
Definition abs_tie_folder : directory :=
  [("a_ABS.dat", abs_10_points); ("b_ABS.dat", abs_11_points)].


(* ================================================================= *)
(** * Part II: properties *)
(* ================================================================= *)

(** ** The monad *)

Lemma bind_ret_l {A B : Type} (a : A) (k : A -> M B) : bind (ret a) k = k a.
Proof. unfold bind, ret. destruct (k a). reflexivity. Qed.

Lemma bind_ok {A B : Type} (m : M A) (k : A -> M B) (t : trace) (b : B) :
  bind m k = (t, Ok b) ->
  exists t1 a t2, m = (t1, Ok a) /\ k a = (t2, Ok b) /\ t = t1 ++ t2.
Proof.
  unfold bind. destruct m as [t1 [a | e | ]]; try discriminate.
  destruct (k a) as [t2 r] eqn:E. intros H. inversion H; subst.
  exists t1, a, t2. auto.
Qed.

Lemma lift_ok {A : Type} (r : result A) (t : trace) (a : A) :
  lift r = (t, Ok a) -> r = Ok a /\ t = [].
Proof. unfold lift. intros H. inversion H. auto. Qed.

(** ** Text *)

Lemma split_empty : split EmptyString = [].
Proof. reflexivity. Qed.

Lemma classify_empty `{PyFloat} (line : string) :
  is_empty line = true -> classify line = NoToken.
Proof. destruct line; [reflexivity | discriminate]. Qed.

(** ** [read_eem]: the loop *)

Lemma extend_extend (a : ndarray) (r : list float) (rs : list (list float)) :
  extend (extend a [r]) rs = extend a (r :: rs).
Proof.
  unfold extend; simpl. f_equal.
  - rewrite <- Nat.add_assoc. reflexivity.
  - rewrite <- app_assoc. reflexivity.
Qed.

Lemma extend_nil (a : ndarray) : extend a [] = a.
Proof.
  destruct a; unfold extend; simpl. rewrite Nat.add_0_r, app_nil_r. reflexivity.
Qed.

(** The loop runs through lines that pass: their first floats join [idx],
    their rows join [data]. *)
Lemma read_eem_rows_passes `{PyFloat} (pre rest : list string) :
  forall (idx : list float) (data : ndarray),
    forallb (passes (shape1 data)) pre = true ->
    read_eem_rows (pre ++ rest) idx data =
    read_eem_rows rest (idx ++ emissions pre) (extend data (map snd (table pre))).
Proof.
  induction pre as [| line pre IH]; intros idx data Hp.
  - simpl. rewrite app_nil_r, extend_nil. reflexivity.
  - simpl in Hp. apply andb_true_iff in Hp as [Hl Hp].
    unfold passes in Hl.
    cbn [app read_eem_rows].
    destruct (is_empty line) eqn:El.
    { rewrite (classify_empty _ El) in Hl. discriminate. }
    unfold emissions, table. cbn [flat_map].
    fold (emissions pre). fold (table pre).
    unfold classify in *.
    destruct (split line) as [| t0 tokens]; [discriminate |].
    destruct (py_float t0) as [e |].
    + destruct (map_float tokens) as [values |].
      * apply Nat.eqb_eq in Hl.
        unfold np_concatenate. cbn [np_array_row shape1].
        rewrite Hl, Nat.eqb_refl.
        rewrite IH by (cbn [shape1]; exact Hp).
        cbn [app map snd]. rewrite <- app_assoc. cbn [app].
        f_equal.
        change (mk_ndarray (shape0 data + 1) (shape1 data) (rows data ++ [values]))
          with (extend data [values]).
        apply extend_extend.
      * rewrite IH by exact Hp. cbn [app map]. rewrite <- app_assoc. reflexivity.
    + rewrite IH by exact Hp. reflexivity.
Qed.

(** The loop breaks on a row whose number of values is not that of the
    rows before it: its first float has joined [idx], [data] is as it was,
    and three lines are printed. *)
Lemma read_eem_rows_mismatch `{PyFloat} (line : string) (post : list string)
  (idx : list float) (data : ndarray) (e : float) (values : list float) :
  classify line = Row e values ->
  length values <> shape1 data ->
  read_eem_rows (line :: post) idx data =
  ([Printed [VStr (String.append
       "please check the consistancy of header and data dimensions:" nl)];
    Printed [VStr "number of columns suggested by your header: ";
             VInt (Z.of_nat (np_size data)); VStr nl];
    Printed [VStr "number of columns you have in your intensity data: ";
             VInt (Z.of_nat (length values))]],
   Ok (idx ++ [e], data)).
Proof.
  intros Hc Hn. cbn [read_eem_rows].
  destruct (is_empty line) eqn:El.
  { rewrite (classify_empty _ El) in Hc. discriminate. }
  unfold classify in Hc.
  destruct (split line) as [| t0 tokens]; [discriminate |].
  destruct (py_float t0) as [e' |]; [| discriminate].
  destruct (map_float tokens) as [values' |]; [| discriminate].
  inversion Hc; subst e' values'.
  unfold np_concatenate. cbn [np_array_row shape1].
  destruct (Nat.eqb_spec (shape1 data) (length values)) as [E | _].
  - exfalso. apply Hn. symmetry. exact E.
  - unfold np_size at 2. cbn. rewrite Nat.add_0_r. reflexivity.
Qed.

(** [read_eem] on an aqualog file: the loop over the lines under the
    header, then the transposition and the two grids. *)
Lemma read_eem_aqualog `{PyFloat} (file_path text : string) (index_pos : option (nat * nat)) :
  read_eem file_path text index_pos aqualog =
  bind (read_eem_rows (data_lines text) [] (np_zeros 1 (length (header_of text))))
       (fun r =>
          bind (lift (ascending_em (fst r)))
               (fun em_range =>
                  bind (lift (ascending_ex (header_of text)))
                       (fun ex_range =>
                          ret (transpose (drop_first_row (snd r)), ex_range, em_range,
                               index_of file_path index_pos)))).
Proof.
  unfold read_eem, header_of, data_lines.
  change (String.eqb aqualog aqualog) with true. cbv iota.
  destruct (readline (readlines text)) as [firstline f]. cbn [fst snd].
  destruct (read_eem_rows f [] _) as [t [[idx data] | e | ]]; cbn [bind ret fst snd].
  - rewrite app_nil_r.
    destruct (ascending_em idx); cbn; reflexivity.
  - reflexivity.
  - reflexivity.
Qed.

Lemma drop_first_row_extend (n : nat) (rs : list (list float)) :
  drop_first_row (extend (np_zeros 1 n) rs) = mk_ndarray (length rs) n rs.
Proof. unfold drop_first_row, extend; cbn. rewrite Nat.sub_0_r. reflexivity. Qed.

Lemma emissions_well_formed `{PyFloat} (n : nat) (lines : list string) :
  forallb (well_formed_line n) lines = true ->
  emissions lines = map fst (table lines) /\ dropped_rows lines = 0 /\
  forallb (passes n) lines = true /\
  Forall (fun r => length (snd r) = n) (table lines).
Proof.
  unfold emissions, table, dropped_rows.
  induction lines as [| l lines IH]; intros Hw.
  - cbn. auto.
  - cbn [forallb] in Hw. apply andb_true_iff in Hw as [Hl Hw].
    destruct (IH Hw) as (IH1 & IH2 & IH3 & IH4).
    cbn [flat_map forallb filter]. unfold well_formed_line in Hl. unfold passes at 1.
    destruct (classify l) as [ | | e | e v]; try discriminate; cbn [app map fst length].
    + auto.
    + rewrite IH1, Hl. repeat split; auto.
      constructor; [apply Nat.eqb_eq; exact Hl | exact IH4].
Qed.

(** ** Transposition *)

Lemma nth_nil {A : Type} (i : nat) (d : A) : nth i [] d = d.
Proof. destruct i; reflexivity. Qed.

Lemma item_transpose (a : ndarray) (i j : nat) :
  i < shape1 a -> item (transpose a) i j = item a j i.
Proof.
  intros Hi. unfold item, transpose; cbn [rows].
  rewrite (nth_indep _ [] (column 0 a)) by (rewrite length_map, length_seq; exact Hi).
  rewrite (map_nth (fun j => column j a)), seq_nth by exact Hi.
  cbn [Nat.add]. unfold column.
  rewrite <- (nth_nil i f_zero) at 1.
  apply (map_nth (fun r => nth i r f_zero)).
Qed.

Lemma well_shaped_transpose (a : ndarray) :
  length (rows a) = shape0 a -> well_shaped (transpose a).
Proof.
  intros Hr. unfold well_shaped, transpose; cbn [rows shape0 shape1]. split.
  - rewrite length_map, length_seq. reflexivity.
  - apply Forall_forall. intros r Hin. apply in_map_iff in Hin as (j & <- & _).
    unfold column. rewrite length_map. exact Hr.
Qed.

(** ** Ascending and descending grids *)

Lemma ascending_app (l1 l2 : list float) (x : float) :
  ascending (l1 ++ [x]) -> ascending (x :: l2) -> ascending (l1 ++ x :: l2).
Proof.
  induction l1 as [| a l1 IH]; intros H1 H2.
  - exact H2.
  - destruct l1 as [| b l1].
    + cbn in H1. cbn [app]. destruct H1 as [H1 _]. cbn. split; assumption.
    + cbn [app] in *. cbn in H1. destruct H1 as [Hab H1]. split; [exact Hab |].
      apply IH; assumption.
Qed.

Lemma descending_rev (g : list float) : descending g -> ascending (rev g).
Proof.
  induction g as [| a g IH]; intros Hd; [exact I |].
  destruct g as [| b g]; [exact I |].
  cbn in Hd. destruct Hd as [Hab Hd].
  specialize (IH Hd). cbn [rev] in *.
  rewrite <- app_assoc. cbn [app].
  apply ascending_app; [exact IH |].
  cbn. split; [exact Hab | exact I].
Qed.

(** ** [read_eem] on a well-formed file *)

Lemma read_eem_well_formed `{PyFloat} (file_path text : string)
  (index_pos : option (nat * nat)) :
  well_formed_eem text = true ->
  read_eem file_path text index_pos aqualog =
  bind (lift (ascending_em (raw_emission text)))
       (fun em_range =>
          bind (lift (ascending_ex (header_of text)))
               (fun ex_range =>
                  ret (transpose (raw_table text), ex_range, em_range,
                       index_of file_path index_pos))).
Proof.
  intros Hw. unfold well_formed_eem in Hw.
  destruct (emissions_well_formed _ _ Hw) as (He & _ & Hp & _).
  rewrite read_eem_aqualog.
  rewrite <- (app_nil_r (data_lines text)) at 1.
  rewrite read_eem_rows_passes by exact Hp.
  cbn [read_eem_rows app]. rewrite bind_ret_l. cbn [fst snd].
  rewrite He, drop_first_row_extend, length_map. reflexivity.
Qed.

Lemma raw_table_well_shaped `{PyFloat} (text : string) :
  well_formed_eem text = true -> well_shaped (raw_table text).
Proof.
  intros Hw. destruct (emissions_well_formed _ _ Hw) as (_ & _ & _ & Hl).
  unfold well_shaped, raw_table; cbn [rows shape0 shape1]. split.
  - apply length_map.
  - apply Forall_forall. intros r Hin. apply in_map_iff in Hin as (x & <- & Hx).
    rewrite Forall_forall in Hl. apply Hl. exact Hx.
Qed.

Lemma length_flipud {A : Type} (l : list A) : length (np_flipud l) = length l.
Proof. apply length_rev. Qed.

Lemma ascending_em_length (g g' : list float) :
  ascending_em g = Ok g' -> length g' = length g /\ 2 <= length g.
Proof.
  unfold ascending_em. destruct g as [| a [| b g]]; try discriminate.
  intros E. injection E as <-.
  destruct (f_gtb a b); rewrite ?length_flipud; cbn [length]; lia.
Qed.

Lemma ascending_ex_length (g g' : list Z) :
  ascending_ex g = Ok g' -> length g' = length g /\ 2 <= length g.
Proof.
  unfold ascending_ex. destruct g as [| a [| b g]]; try discriminate.
  intros E. injection E as <-.
  destruct (b <? a)%Z; rewrite ?length_flipud; cbn [length]; lia.
Qed.

Lemma ascending_em_total (g : list float) :
  2 <= length g -> exists g', ascending_em g = Ok g'.
Proof.
  destruct g as [| a [| b g]]; cbn; try lia. intros _. eauto.
Qed.

Lemma ascending_ex_total (g : list Z) :
  2 <= length g -> exists g', ascending_ex g = Ok g'.
Proof.
  destruct g as [| a [| b g]]; cbn; try lia. intros _. eauto.
Qed.

(** C3, as amended. For a well-formed EEM file with at least two
    excitation and two emission wavelengths, [read_eem] returns an
    intensity array of shape [(len(ex_range), len(em_range))]: its rows are
    indexed by excitation and its columns by emission, and its entry
    [(i, j)] is the [i]th value of the [j]th row of the table of the
    file. *)
Theorem read_eem_shape `{PyFloat} (file_path text : string)
  (index_pos : option (nat * nat)) :
  well_formed_eem text = true ->
  2 <= length (header_of text) ->
  2 <= length (raw_emission text) ->
  exists intensity ex_range em_range,
    read_eem file_path text index_pos aqualog =
      ([], Ok (intensity, ex_range, em_range, index_of file_path index_pos)) /\
    shape intensity = (length ex_range, length em_range) /\
    well_shaped intensity /\
    length ex_range = length (header_of text) /\
    length em_range = length (raw_emission text) /\
    intensity = transpose (raw_table text) /\
    forall i j, i < length ex_range ->
      item intensity i j = item (raw_table text) j i.
Proof.
  intros Hw Hex Hem.
  destruct (ascending_em_total _ Hem) as [em E1].
  destruct (ascending_ex_total _ Hex) as [ex E2].
  exists (transpose (raw_table text)), ex, em.
  rewrite read_eem_well_formed by exact Hw.
  rewrite E1, E2. cbn [bind lift ret app].
  apply ascending_em_length in E1 as [L1 _].
  apply ascending_ex_length in E2 as [L2 _].
  repeat split.
  - unfold shape, transpose, raw_table; cbn [shape0 shape1].
    rewrite L1, L2. unfold raw_emission. rewrite length_map. reflexivity.
  - unfold transpose; cbn. rewrite length_map, length_seq. reflexivity.
  - destruct (well_shaped_transpose (raw_table text)) as [_ Hr].
    + apply raw_table_well_shaped. exact Hw.
    + exact Hr.
  - exact L2.
  - exact L1.
  - intros i j Hi. apply item_transpose. unfold raw_table; cbn [shape1].
    rewrite <- L2. exact Hi.
Qed.

Lemma read_eem_shape_witness :
  exists intensity ex_range em_range,
    @read_eem decimal "EEM_2024_01_01_PEM.dat" eem_2x3 (Some (4, 13)) aqualog =
      ([], Ok (intensity, ex_range, em_range, Some "2024_01_01")) /\
    shape intensity = (length ex_range, length em_range) /\
    well_shaped intensity /\
    length ex_range = 2 /\
    length em_range = 3 /\
    intensity = transpose (@raw_table decimal eem_2x3) /\
    forall i j, i < length ex_range ->
      item intensity i j = item (@raw_table decimal eem_2x3) j i.
Proof.
  apply (@read_eem_shape decimal "EEM_2024_01_01_PEM.dat" eem_2x3 (Some (4, 13))).
  - reflexivity.
  - vm_compute. lia.
  - vm_compute. lia.
Defined.

(** C3, as stated, fails: the file has two excitation and three emission
    wavelengths, and the array returned has two rows and three columns. *)
Lemma read_eem_shape_counterexample :
  @well_formed_eem decimal eem_2x3 = true /\
  exists intensity ex_range em_range index,
    @read_eem decimal "EEM.dat" eem_2x3 None aqualog =
      ([], Ok (intensity, ex_range, em_range, index)) /\
    shape intensity = (2, 3) /\
    (length em_range, length ex_range) = (3, 2) /\
    shape intensity <> (length em_range, length ex_range).
Proof.
  split; [reflexivity |].
  eexists _, _, _, _. split; [vm_compute; reflexivity |].
  repeat split. cbn. discriminate.
Qed.

(** C2, as amended. For a well-formed EEM file whose emission column is
    stored descending (its first value exceeds its second), [read_eem]
    returns the emission grid reversed, which is strictly ascending when
    the column is strictly descending; the intensity array is the
    transposed table of the file in the order of the file, the same array
    as for an ascending column; and an excitation grid that is not
    descending is returned as the header gives it. *)
Theorem read_eem_descending_emission `{PyFloat} (file_path text : string)
  (index_pos : option (nat * nat)) (e0 e1 : float) (rest : list float) :
  well_formed_eem text = true ->
  2 <= length (header_of text) ->
  raw_emission text = e0 :: e1 :: rest ->
  f_gtb e0 e1 = true ->
  exists intensity ex_range em_range,
    read_eem file_path text index_pos aqualog =
      ([], Ok (intensity, ex_range, em_range, index_of file_path index_pos)) /\
    em_range = rev (raw_emission text) /\
    (descending (raw_emission text) -> ascending em_range) /\
    intensity = transpose (raw_table text) /\
    (forall h0 h1 hs, header_of text = h0 :: h1 :: hs -> (h0 <= h1)%Z ->
       ex_range = header_of text).
Proof.
  intros Hw Hex Hem Hgt.
  destruct (ascending_ex_total _ Hex) as [ex E2].
  exists (transpose (raw_table text)), ex, (rev (raw_emission text)).
  rewrite read_eem_well_formed by exact Hw.
  assert (E1 : ascending_em (raw_emission text) = Ok (rev (raw_emission text))).
  { rewrite Hem. unfold ascending_em. rewrite Hgt. reflexivity. }
  rewrite E1, E2. cbn [bind lift ret app].
  repeat split.
  - apply descending_rev.
  - intros h0 h1 hs Hh Hle. rewrite Hh in E2. unfold ascending_ex in E2.
    apply Z.ltb_ge in Hle. rewrite Hle in E2. injection E2 as <-. symmetry. exact Hh.
Qed.

Lemma read_eem_descending_emission_witness :
  exists intensity ex_range em_range,
    @read_eem decimal "EEM.dat" eem_descending None aqualog =
      ([], Ok (intensity, ex_range, em_range, None)) /\
    em_range = rev (@raw_emission decimal eem_descending) /\
    (descending (@raw_emission decimal eem_descending) -> ascending em_range) /\
    intensity = transpose (@raw_table decimal eem_descending) /\
    (forall h0 h1 hs, header_of eem_descending = h0 :: h1 :: hs -> (h0 <= h1)%Z ->
       ex_range = header_of eem_descending).
Proof.
  apply (@read_eem_descending_emission decimal "EEM.dat" eem_descending None
           (Fin 302) (Fin 301) [Fin 300]).
  - reflexivity.
  - vm_compute. lia.
  - reflexivity.
  - reflexivity.
Defined.

(** C2, as stated, fails: the emission column 302, 301, 300 is returned
    as 300, 301, 302, and the intensities are left in the order of the
    file, so that the value read at 302 nm stands at 300 nm. *)
Lemma read_eem_descending_emission_counterexample :
  @well_formed_eem decimal eem_descending = true /\
  exists intensity ex_range em_range index,
    @read_eem decimal "EEM.dat" eem_descending None aqualog =
      ([], Ok (intensity, ex_range, em_range, index)) /\
    em_range = [Fin 300; Fin 301; Fin 302] /\
    ex_range = [240; 250]%Z /\
    rows intensity = [[Fin 5; Fin 3; Fin 1]; [Fin 6; Fin 4; Fin 2]] /\
    rows intensity = rows (transpose (@raw_table decimal eem_descending)) /\
    rows intensity <> map (@rev float) (rows (transpose (@raw_table decimal eem_descending))).
Proof.
  split; [reflexivity |].
  eexists _, _, _, _. split; [vm_compute; reflexivity |].
  repeat split. vm_compute. discriminate.
Qed.

(** ** [read_eem] on a file with a row of another length *)

Lemma length_emissions `{PyFloat} (lines : list string) :
  length (emissions lines) = length (table lines) + dropped_rows lines.
Proof.
  unfold emissions, table, dropped_rows.
  induction lines as [| l lines IH]; [reflexivity |].
  cbn [flat_map filter]. destruct (classify l); cbn [app length]; lia.
Qed.

(** [read_eem] on a file whose lines pass up to a row with a number of
    values that is not the number of columns of the header. *)
Lemma read_eem_mismatch `{PyFloat} (file_path text : string)
  (index_pos : option (nat * nat)) (pre post : list string) (line : string)
  (e : float) (values : list float) :
  data_lines text = pre ++ line :: post ->
  forallb (passes (length (header_of text))) pre = true ->
  classify line = Row e values ->
  length values <> length (header_of text) ->
  read_eem file_path text index_pos aqualog =
  bind (mismatch_report ((1 + length (table pre)) * length (header_of text))
                        (length values), Ok tt)
       (fun _ =>
          bind (lift (ascending_em (emissions pre ++ [e])))
               (fun em_range =>
                  bind (lift (ascending_ex (header_of text)))
                       (fun ex_range =>
                          ret (transpose (mk_ndarray (length (table pre))
                                                     (length (header_of text))
                                                     (map snd (table pre))),
                               ex_range, em_range, index_of file_path index_pos)))).
Proof.
  intros Hd Hp Hc Hn.
  rewrite read_eem_aqualog, Hd.
  rewrite read_eem_rows_passes by exact Hp.
  rewrite (read_eem_rows_mismatch line post _ _ e values Hc) by exact Hn.
  assert (Hs : np_size (extend (np_zeros 1 (length (header_of text)))
                              (map snd (table pre))) =
               (1 + length (table pre)) * length (header_of text)).
  { unfold np_size, extend; cbn [shape0 shape1 np_zeros].
    rewrite length_map. reflexivity. }
  rewrite Hs. unfold mismatch_report.
  cbn [bind fst snd]. rewrite drop_first_row_extend, length_map. reflexivity.
Qed.

Lemma mismatch_inv `{PyFloat} (n : nat) (line : string) :
  mismatch n line = true ->
  exists e values, classify line = Row e values /\ length values <> n.
Proof.
  unfold mismatch. destruct (classify line) as [ | | e | e values]; try discriminate.
  intros Hm. exists e, values. split; [reflexivity |].
  apply negb_true_iff, Nat.eqb_neq in Hm. exact Hm.
Qed.

(** C10, as amended. When the loop of [read_eem] breaks on a row with a
    number of values that is not the number of columns, and [read_eem]
    returns (the header has two columns and a wavelength was read before
    the row), the wavelength of the row is the last of the emission list,
    and the emission grid returned is longer than the emission axis of the
    intensity array by one plus the number of earlier rows dropped for a
    value that is no float: by exactly one when there is no such row. *)
Theorem read_eem_mismatch_shape `{PyFloat} (file_path text : string)
  (index_pos : option (nat * nat)) (pre post : list string) (line : string) :
  data_lines text = pre ++ line :: post ->
  forallb (passes (length (header_of text))) pre = true ->
  mismatch (length (header_of text)) line = true ->
  2 <= length (header_of text) ->
  1 <= length (emissions pre) ->
  exists t intensity ex_range em_range e values,
    classify line = Row e values /\
    read_eem file_path text index_pos aqualog =
      (t, Ok (intensity, ex_range, em_range, index_of file_path index_pos)) /\
    t = mismatch_report ((1 + length (table pre)) * length (header_of text))
                        (length values) /\
    (em_range = emissions pre ++ [e] \/ em_range = rev (emissions pre ++ [e])) /\
    shape intensity = (length ex_range, length (table pre)) /\
    length em_range = S (shape1 intensity + dropped_rows pre) /\
    (dropped_rows pre = 0 -> length em_range = S (shape1 intensity)).
Proof.
  intros Hd Hp Hm Hex Hem.
  destruct (mismatch_inv _ _ Hm) as (e & values & Hc & Hn).
  assert (Hl : 2 <= length (emissions pre ++ [e])).
  { rewrite length_app. cbn [length]. lia. }
  destruct (ascending_em_total _ Hl) as [em E1].
  destruct (ascending_ex_total _ Hex) as [ex E2].
  exists (mismatch_report ((1 + length (table pre)) * length (header_of text))
                          (length values)),
    (transpose (mk_ndarray (length (table pre)) (length (header_of text))
                           (map snd (table pre)))), ex, em, e, values.
  rewrite (read_eem_mismatch file_path text index_pos pre post line e values Hd Hp Hc Hn).
  rewrite E1, E2. cbn [bind lift ret app]. rewrite !app_nil_r.
  assert (Lem : length em = S (length (table pre) + dropped_rows pre)).
  { apply ascending_em_length in E1 as [L1 _]. rewrite L1, length_app, length_emissions.
    cbn [length]. lia. }
  apply ascending_ex_length in E2 as [L2 _].
  split; [exact Hc |]. split; [reflexivity |]. split; [reflexivity |].
  split; [| split; [| split]].
  - unfold ascending_em in E1.
    destruct (emissions pre ++ [e]) as [| a [| b g]]; try discriminate.
    injection E1 as <-. destruct (f_gtb a b); [right | left]; reflexivity.
  - unfold shape, transpose; cbn [shape0 shape1]. rewrite L2. reflexivity.
  - cbn [transpose shape1 shape0]. exact Lem.
  - intros Hz. cbn [transpose shape1 shape0]. rewrite Lem, Hz. lia.
Qed.

Lemma read_eem_mismatch_shape_witness :
  exists t intensity ex_range em_range e values,
    @classify decimal "301 3.5" = Row e values /\
    @read_eem decimal "EEM.dat" eem_short_row None aqualog =
      (t, Ok (intensity, ex_range, em_range, None)) /\
    t = mismatch_report 4 (length values) /\
    (em_range = [Fin 300] ++ [e] \/ em_range = rev ([Fin 300] ++ [e])) /\
    shape intensity = (length ex_range, 1) /\
    length em_range = S (shape1 intensity + 0) /\
    (0 = 0 -> length em_range = S (shape1 intensity)).
Proof.
  apply (@read_eem_mismatch_shape decimal "EEM.dat" eem_short_row None
           [String.append "300 1.0 2.0" nl] [String.append "302 5 6" nl]
           (String.append "301 3.5" nl)).
  - reflexivity.
  - reflexivity.
  - reflexivity.
  - vm_compute. lia.
  - vm_compute. lia.
Defined.

(** C10, as stated, fails: the loop breaks on the row of 302 nm, after the
    row of 301 nm was dropped for its values; the emission grid has three
    entries and the intensity array one column. *)
Lemma read_eem_mismatch_shape_counterexample :
  exists intensity ex_range em_range index,
    @read_eem decimal "EEM.dat" eem_dropped_row None aqualog =
      (mismatch_report 4 1, Ok (intensity, ex_range, em_range, index)) /\
    @mismatch decimal 2 (String.append "302 1" nl) = true /\
    em_range = [Fin 300; Fin 301; Fin 302] /\
    shape intensity = (2, 1) /\
    length em_range <> S (shape1 intensity).
Proof.
  eexists _, _, _, _. split; [vm_compute; reflexivity |].
  repeat split. cbn. discriminate.
Qed.

Lemma trace_of_grids {A : Type} (em : result (list float)) (ex : result (list Z))
  (k : list Z -> list float -> A) :
  fst (bind (lift em) (fun em_range =>
         bind (lift ex) (fun ex_range => ret (k ex_range em_range)))) = [].
Proof. destruct em, ex; reflexivity. Qed.

(** C4: what the code does. When the loop breaks on a row with a number
    of values that is not the number of columns of the header, the number
    printed as the one the header suggests is the number of elements of
    the array accumulated so far, its seed row of zeros included: the
    number of columns times one more than the number of rows read. And
    when no wavelength was read before that row, the emission list has one
    entry and [read_eem] raises [IndexError] on [em_range[1]]. *)
Theorem read_eem_mismatch_report `{PyFloat} (file_path text : string)
  (index_pos : option (nat * nat)) (pre post : list string) (line : string)
  (e : float) (values : list float) :
  data_lines text = pre ++ line :: post ->
  forallb (passes (length (header_of text))) pre = true ->
  classify line = Row e values ->
  length values <> length (header_of text) ->
  fst (read_eem file_path text index_pos aqualog) =
    mismatch_report ((1 + length (table pre)) * length (header_of text))
                    (length values) /\
  (emissions pre = [] ->
   snd (read_eem file_path text index_pos aqualog) = Raise IndexError).
Proof.
  intros Hd Hp Hc Hn.
  rewrite (read_eem_mismatch file_path text index_pos pre post line e values Hd Hp Hc Hn).
  split.
  - unfold bind at 1.
    pose proof (trace_of_grids (ascending_em (emissions pre ++ [e]))
                  (ascending_ex (header_of text))
                  (fun ex_range em_range =>
                     (transpose (mk_ndarray (length (table pre)) (length (header_of text))
                                            (map snd (table pre))),
                      ex_range, em_range, index_of file_path index_pos))) as Ht.
    cbv beta in Ht.
    destruct (bind (lift (ascending_em (emissions pre ++ [e]))) _) as [t r].
    cbn [fst] in *. subst t. apply app_nil_r.
  - intros He. rewrite He. reflexivity.
Qed.

Lemma read_eem_mismatch_report_witness :
  fst (@read_eem decimal "EEM.dat" eem_short_row None aqualog) = mismatch_report 4 1 /\
  length (header_of eem_short_row) = 2.
Proof.
  split; [| reflexivity].
  apply (@read_eem_mismatch_report decimal "EEM.dat" eem_short_row None
           [String.append "300 1.0 2.0" nl] [String.append "302 5 6" nl]
           (String.append "301 3.5" nl) (Fin 301) [Fin (7 # 2)]).
  - reflexivity.
  - reflexivity.
  - reflexivity.
  - vm_compute. discriminate.
Defined.

(** A row of another length right under the header: the report, then
    [IndexError]. *)
Example read_eem_mismatch_first_row :
  @read_eem decimal "EEM.dat" (text_of ["240 250"; "300 1.0"; "301 1 2"]) None aqualog =
  (mismatch_report 2 1, Raise IndexError).
Proof. vm_compute. reflexivity. Qed.

(** ** Unsupported formats *)

(** C6: what the code does. With a format tag other than ['aqualog'],
    [read_eem] and [read_abs] raise [UnboundLocalError]: the names bound in
    the aqualog branch are read after it. No warning is issued and nothing
    is returned. *)
Theorem unsupported_format_raises `{PyFloat} (file_path text : string)
  (index_pos : option (nat * nat)) (data_format : string) :
  String.eqb data_format aqualog = false ->
  read_eem file_path text index_pos data_format = ([], Raise UnboundLocalError) /\
  read_abs file_path text index_pos data_format = ([], Raise UnboundLocalError).
Proof.
  intros Hf. unfold read_eem, read_abs. rewrite Hf. split; reflexivity.
Qed.

Lemma unsupported_format_raises_witness :
  @read_eem decimal "EEM.dat" eem_2x3 None "csv" = ([], Raise UnboundLocalError) /\
  @read_abs decimal "ABS.dat" (text_of ["240 0.5"; "250 0.4"]) None "csv" =
    ([], Raise UnboundLocalError).
Proof.
  split.
  - apply (@unsupported_format_raises decimal "EEM.dat" eem_2x3 None "csv"). reflexivity.
  - apply (@unsupported_format_raises decimal "ABS.dat" (text_of ["240 0.5"; "250 0.4"])
             None "csv"). reflexivity.
Defined.

(** ** [read_abs] *)

Lemma read_abs_rows_lines `{PyFloat} (lines : list string) (entries : list (float * float)) :
  Forall2 abs_line lines entries ->
  forall idx data,
    read_abs_rows lines idx data = Ok (idx ++ map fst entries, data ++ map snd entries).
Proof.
  induction 1 as [| line entry lines entries Hl _ IH]; intros idx data.
  - cbn. rewrite !app_nil_r. reflexivity.
  - cbn [read_abs_rows map].
    destruct Hl as [(w & Hs & Hw & Hv) | (w & v & rest & Hs & Hw & Hv)].
    + destruct (is_empty line) eqn:El.
      { destruct line; [discriminate Hs | discriminate El]. }
      rewrite Hs, Hw, IH, Hv, <- !app_assoc. reflexivity.
    + destruct (is_empty line) eqn:El.
      { destruct line; [discriminate Hs | discriminate El]. }
      rewrite Hs, Hw, Hv, IH, <- !app_assoc. reflexivity.
Qed.

(** C7. For an absorbance file each of whose lines holds a wavelength
    alone or a wavelength and a value, [read_abs] returns the wavelengths
    and the absorbances of the lines, NaN where the value is missing, both
    in the reverse of the order of the file. *)
Theorem read_abs_reversed `{PyFloat} (file_path text : string)
  (index_pos : option (nat * nat)) (entries : list (float * float)) :
  Forall2 abs_line (readlines text) entries ->
  read_abs file_path text index_pos aqualog =
  ([], Ok (rev (map snd entries), rev (map fst entries), index_of file_path index_pos)).
Proof.
  intros Hl. unfold read_abs.
  change (String.eqb aqualog aqualog) with true. cbv iota.
  rewrite (read_abs_rows_lines _ _ Hl). reflexivity.
Qed.

Lemma read_abs_reversed_witness :
  @read_abs decimal "ABS.dat" (text_of ["540.0 0.30"; "550.0"; "560.0 0.32"]) None aqualog =
  ([], Ok ([Fin (8 # 25); NaN; Fin (3 # 10)], [Fin 560; Fin 550; Fin 540], None)).
Proof.
  apply (@read_abs_reversed decimal "ABS.dat"
           (text_of ["540.0 0.30"; "550.0"; "560.0 0.32"]) None
           [(Fin 540, Fin (3 # 10)); (Fin 550, NaN); (Fin 560, Fin (8 # 25))]).
  apply Forall2_cons; [| apply Forall2_cons; [| apply Forall2_cons; [| apply Forall2_nil]]].
  - right. exists "540.0", "0.30", []. repeat split; reflexivity.
  - left. exists "550.0". repeat split; reflexivity.
  - right. exists "560.0", "0.32", []. repeat split; reflexivity.
Defined.

(** ** [read_reference_from_text] *)

Lemma lines_from_nonempty (s cur : string) :
  Forall (fun l => is_empty l = false) (lines_from cur s).
Proof.
  revert cur. induction s as [| c s IH]; intros cur; cbn [lines_from].
  - destruct cur; cbn; constructor; [reflexivity | constructor].
  - destruct (Ascii.eqb c LF).
    + constructor; [| apply IH]. unfold snoc. destruct cur; reflexivity.
    + apply IH.
Qed.

Lemma readlines_nonempty (text : string) :
  Forall (fun l => is_empty l = false) (readlines text).
Proof. apply lines_from_nonempty. Qed.

Lemma map_float_length `{PyFloat} (tokens : list string) (values : list float) :
  map_float tokens = Some values -> length values = length tokens.
Proof.
  revert values. induction tokens as [| t ts IH]; intros values; cbn [map_float].
  - intros E. injection E as <-. reflexivity.
  - destruct (py_float t); [| discriminate].
    destruct (map_float ts) as [xs |]; [| discriminate].
    intros E. injection E as <-. cbn. rewrite (IH xs eq_refl). reflexivity.
Qed.

Lemma read_reference_rows_tokens `{PyFloat} (lines : list string) :
  Forall (fun l => is_empty l = false) lines ->
  forall reference_data,
    read_reference_rows lines reference_data =
    match map_float (first_tokens lines) with
    | Some values => Ok (reference_data ++ values)
    | None => Raise ValueError
    end.
Proof.
  unfold first_tokens.
  induction 1 as [| line lines Hl _ IH]; intros acc.
  - cbn. rewrite app_nil_r. reflexivity.
  - cbn [read_reference_rows flat_map]. rewrite Hl.
    destruct (split line) as [| t0 toks]; cbn [app].
    + apply IH.
    + cbn [map_float]. destruct (py_float t0) as [x |]; [| reflexivity].
      rewrite IH. destruct (map_float _); [| reflexivity].
      rewrite <- app_assoc. reflexivity.
Qed.

(** C8, as amended. For a reference file whose first line has a token,
    [read_reference_from_text] returns that token as the header and the
    floats of the first tokens of the lines under it that have a token,
    one per such line: a line without tokens is skipped. When the first
    token of one of these lines is no float, it raises [ValueError]. *)
Theorem read_reference_from_text_tokens `{PyFloat} (text header : string)
  (tokens : list string) :
  split (fst (readline (readlines text))) = header :: tokens ->
  read_reference_from_text text =
    match map_float (first_tokens (data_lines text)) with
    | Some values => Ok (values, header)
    | None => Raise ValueError
    end /\
  forall values header',
    read_reference_from_text text = Ok (values, header') ->
    header' = header /\ length values = length (first_tokens (data_lines text)).
Proof.
  intros Hh.
  assert (E : read_reference_from_text text =
              match map_float (first_tokens (data_lines text)) with
              | Some values => Ok (values, header)
              | None => Raise ValueError
              end).
  { unfold read_reference_from_text, data_lines.
    pose proof (readlines_nonempty text) as Hne.
    destruct (readlines text) as [| l f]; cbn [readline fst snd] in *.
    - discriminate Hh.
    - rewrite Hh. rewrite read_reference_rows_tokens by (inversion Hne; assumption).
      destruct (map_float _); reflexivity. }
  split; [exact E |].
  intros values header' Hr. rewrite E in Hr.
  destruct (map_float _) as [v |] eqn:Em; [| discriminate].
  injection Hr as <- <-. split; [reflexivity |].
  apply map_float_length. exact Em.
Qed.

Lemma read_reference_from_text_tokens_witness :
  @read_reference_from_text decimal reference_trailing_blank =
    Ok ([Fin 1; Fin (5 # 2); Fin (24 # 5)], "DOC") /\
  forall values header',
    @read_reference_from_text decimal reference_trailing_blank = Ok (values, header') ->
    header' = "DOC" /\ length values = 3.
Proof.
  apply (@read_reference_from_text_tokens decimal reference_trailing_blank "DOC" ["(mg/L)"]).
  reflexivity.
Defined.

(** C8, as stated, fails: the third line has a token that is no float, and
    the reader raises [ValueError] where the claim has the line skipped. *)
Lemma read_reference_from_text_counterexample :
  @py_float decimal "abc" = None /\
  @read_reference_from_text decimal (text_of ["DOC (mg/L)"; "1.0"; "abc"; "2.0"]) =
    Raise ValueError.
Proof. split; reflexivity. Qed.

(** ** [read_parafac_model]: the loops *)

Lemma comment_block_run (marker message : string) (pre rest : list string) :
  forallb (has "#") pre = true ->
  has "#" (current rest) = false ->
  forall line_count last,
  exists t,
    comment_block marker message (pre ++ rest) line_count last =
    (t, Ok (rest, line_count + length pre,
            match pre with [] => last | _ => Some (line_count + length pre - 1) end)).
Proof.
  intros Hp Hr. induction pre as [| line pre IH]; intros lc last.
  - exists []. cbn [app length]. rewrite Nat.add_0_r.
    destruct rest as [| x rest]; [reflexivity |].
    cbn [comment_block]. unfold has, current in Hr. cbn [hd] in Hr. rewrite Hr. reflexivity.
  - cbn [forallb] in Hp. apply andb_true_iff in Hp as [Hl Hp].
    destruct (IH Hp (S lc) (Some lc)) as [t Ht].
    assert (E : match pre with [] => Some lc | _ => Some (S lc + length pre - 1) end =
                Some (lc + length (line :: pre) - 1)).
    { destruct pre; cbn [length]; f_equal; lia. }
    rewrite E in Ht.
    replace (S lc + length pre) with (lc + length (line :: pre)) in Ht by (cbn [length]; lia).
    cbn [app comment_block]. unfold has in Hl. rewrite Hl.
    exists ((if str_in marker line then [Printed [VStr message]] else []) ++ t).
    destruct (str_in marker line); cbn [bind print ret]; rewrite Ht; reflexivity.
Qed.

Lemma info_block_run (pre rest : list string) :
  forallb (fun s => negb (has "#" s)) pre = true ->
  has "#" (current rest) = true ->
  forall line_count info_dict,
  exists info_dict',
    info_block (pre ++ rest) line_count info_dict =
    Ok (rest, line_count + length pre, info_dict').
Proof.
  intros Hp Hr. induction pre as [| line pre IH]; intros lc d.
  - exists d. cbn [app length]. rewrite Nat.add_0_r.
    destruct rest as [| x rest]; [discriminate Hr |].
    cbn [info_block]. unfold has, current in Hr. cbn [hd] in Hr. rewrite Hr. reflexivity.
  - cbn [forallb] in Hp. apply andb_true_iff in Hp as [Hl Hp].
    cbn [app info_block]. unfold has in Hl. rewrite Hl.
    match goal with |- context [info_block _ _ ?d'] => destruct (IH Hp (S lc) d') as [d2 Hd] end.
    exists d2. rewrite Hd. cbn [length].
    replace (lc + S (length pre)) with (S lc + length pre) by lia. reflexivity.
Qed.

Lemma row_block_run (word : string) (pre rest : list string) :
  forallb (has word) pre = true ->
  has word (current rest) = false ->
  forall line_count,
    row_block word (pre ++ rest) line_count = (rest, line_count + length pre).
Proof.
  intros Hp Hr. induction pre as [| line pre IH]; intros lc.
  - cbn [app length]. rewrite Nat.add_0_r.
    destruct rest as [| x rest]; [reflexivity |].
    cbn [row_block]. unfold has, current in Hr. cbn [hd] in Hr. rewrite Hr. reflexivity.
  - cbn [forallb] in Hp. apply andb_true_iff in Hp as [Hl Hp].
    cbn [app row_block]. unfold has in Hl. rewrite Hl, IH by exact Hp.
    cbn [length]. f_equal. lia.
Qed.

Lemma score_block_run `{Pandas} (text : string) (labels : list label)
  (line_count_score line_count : nat) (raw : DataFrame) (times : list Z)
  (closing rest : list string) :
  forallb (fun s => has "#" s && has "end" s) closing = true ->
  has "#" (current rest) = false ->
  read_csv text line_count_score (line_count - line_count_score) = Ok raw ->
  to_datetime (levels1 (index raw)) = Ok times ->
  distinct times = true ->
  forallb (fun c => snd c <? length times) (codes (index raw)) = true ->
  length labels = width raw ->
  forall score_df,
  exists t,
    score_block text labels line_count_score line_count (closing ++ rest) score_df =
    (t, Ok (match closing with
            | [] => score_df
            | _ => Some (set_index_names
                           (mk_frame (mk_index (levels0 (index raw)) (map KTime times)
                                               (codes (index raw)) (names (index raw)))
                                     labels (cells raw))
                           "type" "time")
            end)).
Proof.
  intros Hc Hr Hcsv Htime Hd Hcodes Hw.
  induction closing as [| line closing IH]; intros score_df.
  - exists []. cbn [app].
    destruct rest as [| x rest]; [reflexivity |].
    cbn [score_block]. unfold has, current in Hr. cbn [hd] in Hr. rewrite Hr. reflexivity.
  - cbn [forallb] in Hc. apply andb_true_iff in Hc as [Hl Hc].
    apply andb_true_iff in Hl as [Hl1 Hl2]. unfold has in Hl1, Hl2.
    cbn [app score_block]. rewrite Hl1, Hl2, Hcsv. cbn [lift bind].
    rewrite Htime. cbn [lift bind].
    unfold set_levels_time. rewrite Hd, Hcodes. cbn [andb lift bind].
    unfold set_columns. unfold width at 1. cbn [columns]. fold (width raw).
    rewrite Hw, Nat.eqb_refl. cbn [lift bind print ret app index columns cells].
    match goal with |- context [score_block _ _ _ _ _ (Some ?d)] =>
      destruct (IH Hc (Some d)) as [t Ht] end.
    rewrite Ht. exists (Printed [VStr "Reading complete"] :: t).
    destruct closing; reflexivity.
Qed.

Lemma score_block_none `{Pandas} (text : string) (labels : list label)
  (line_count_score line_count : nat) (rest : list string) (score_df : option DataFrame) :
  has "#" (current rest) = false ->
  score_block text labels line_count_score line_count rest score_df = ([], Ok score_df).
Proof.
  intros Hr. destruct rest as [| x rest]; [reflexivity |].
  cbn [score_block]. unfold has, current in Hr. cbn [hd] in Hr. rewrite Hr. reflexivity.
Qed.

Lemma current_app (a b : list string) :
  nonempty a = true -> current (a ++ b) = current a.
Proof. destruct a; [discriminate | reflexivity]. Qed.

Lemma forallb_current (p : string -> bool) (a : list string) :
  nonempty a = true -> forallb p a = true -> p (current a) = true.
Proof.
  destruct a as [| x a]; [discriminate |]. intros _ Hp.
  cbn [forallb] in Hp. apply andb_true_iff in Hp as [Hx _]. exact Hx.
Qed.

Lemma forallb_weaken {A : Type} (p q : A -> bool) (l : list A) :
  (forall x, p x = true -> q x = true) -> forallb p l = true -> forallb q l = true.
Proof.
  intros Hpq Hp. rewrite forallb_forall in *. intros x Hx. apply Hpq, Hp, Hx.
Qed.

Lemma length_component_labels (n : nat) : length (component_labels n) = n.
Proof. unfold component_labels. rewrite length_map, length_seq. reflexivity. Qed.

(** C9. For a well-formed OpenFluor file whose tables of loadings are
    read by pandas with [N] columns each, [read_parafac_model] returns the
    excitation and the emission loadings with the columns ['component 1']
    to ['component N']. When the file has score rows, read by pandas with
    [N] columns and with times for the second level of their index, the
    scores returned have the same columns and these times as second
    level; when it has none, the scores returned are [None]. The tables
    are read from the rows of their blocks. *)
Theorem read_parafac_model_components `{Pandas} (text : string) (l : parafac_layout)
  (ex_raw em_raw : DataFrame) :
  map strip (readlines text) = layout_lines l ->
  well_formed_parafac l = true ->
  read_csv text (first_ex_row l) (length (ex_rows l)) = Ok ex_raw ->
  read_csv text (first_em_row l) (length (em_rows l)) = Ok em_raw ->
  width em_raw = width ex_raw ->
  (score_rows l <> [] ->
   exists score_raw times, scores_read text l (width ex_raw) score_raw times) ->
  exists t ex_df em_df score_df info_dict,
    read_parafac_model text = (t, Ok (ex_df, em_df, score_df, info_dict)) /\
    ex_df = loadings ex_raw (width ex_raw) /\
    em_df = loadings em_raw (width ex_raw) /\
    columns ex_df = component_labels (width ex_raw) /\
    columns em_df = component_labels (width ex_raw) /\
    (score_rows l = [] -> score_df = None) /\
    (score_rows l <> [] ->
     exists score_raw times,
       scores_read text l (width ex_raw) score_raw times /\
       score_df = Some (scores score_raw times (width ex_raw)) /\
       columns (scores score_raw times (width ex_raw)) = component_labels (width ex_raw) /\
       levels1 (index (scores score_raw times (width ex_raw))) = map KTime times).
Proof.
  intros Hlines Hwf Hex Hem Hw Hscore.
  unfold well_formed_parafac in Hwf. split_andb.
  match goal with H : (if nonempty (score_rows l) then _ else _) = true |- _ =>
    rename H into Hend end.
  unfold read_parafac_model. rewrite Hlines. unfold layout_lines.
  (* the leading comments *)
  destruct (comment_block_run "Fluorescence" "Reading fluorescence measurement info..."
              (leading_comments l)
              (metadata l ++ loading_comments l ++ ex_rows l ++ em_rows l ++
               score_comments l ++ score_rows l ++ ending l ++ trailing l))
    with (line_count := 0) (last := @None nat) as [t1 E1]; [assumption | |].
  { rewrite current_app by assumption.
    apply negb_true_iff.
    apply (forallb_current (fun s => negb (has "#" s))); assumption. }
  rewrite E1. cbn [bind]. clear E1.
  (* the metadata *)
  destruct (info_block_run (metadata l)
              (loading_comments l ++ ex_rows l ++ em_rows l ++
               score_comments l ++ score_rows l ++ ending l ++ trailing l))
    with (line_count := 0 + length (leading_comments l)) (info_dict := @nil (string * string))
    as [info E2]; [assumption | |].
  { rewrite current_app by assumption. apply forallb_current; assumption. }
  rewrite E2. cbn [lift bind]. clear E2.
  (* the comments over the loadings *)
  destruct (comment_block_run "Excitation" "Reading Ex/Em loadings..."
              (loading_comments l)
              (ex_rows l ++ em_rows l ++
               score_comments l ++ score_rows l ++ ending l ++ trailing l))
    with (line_count := 0 + length (leading_comments l) + length (metadata l))
         (last := @None nat) as [t3 E3]; [assumption | |].
  { rewrite current_app by assumption.
    apply negb_true_iff.
    apply (forallb_current (fun s => negb (has "#" s))); [assumption |].
    eapply forallb_weaken; [| eassumption].
    intros x Hx. apply andb_true_iff in Hx as [_ Hx]. exact Hx. }
  rewrite E3. cbn [bind]. clear E3.
  destruct (loading_comments l) as [| c0 cs] eqn:Ecs; [discriminate |].
  rewrite <- Ecs.
  (* the excitation rows *)
  rewrite (row_block_run "Ex" (ex_rows l)).
  2: { eapply forallb_weaken; [| eassumption].
       intros x Hx. apply andb_true_iff in Hx as [Hx _]. exact Hx. }
  2: { rewrite current_app by assumption.
       apply negb_true_iff.
       apply (forallb_current (fun s => negb (has "Ex" s))); [assumption |].
       eapply forallb_weaken; [| eassumption].
       intros x Hx. apply andb_true_iff in Hx as [Hx _].
       apply andb_true_iff in Hx as [_ Hx]. exact Hx. }
  replace (0 + length (leading_comments l) + length (metadata l) +
           length (loading_comments l) - 1 + 1) with (first_ex_row l)
    by (unfold first_ex_row; rewrite Ecs; cbn [length]; lia).
  replace (0 + length (leading_comments l) + length (metadata l) +
           length (loading_comments l) + length (ex_rows l) -
           (0 + length (leading_comments l) + length (metadata l) +
            length (loading_comments l) - 1) - 1) with (length (ex_rows l))
    by (rewrite Ecs; cbn [length]; lia).
  rewrite Hex. cbn [lift bind].
  unfold set_columns at 1. rewrite length_component_labels, Nat.eqb_refl. cbn [lift bind].
  (* the emission rows *)
  rewrite (row_block_run "Em" (em_rows l)).
  2: { eapply forallb_weaken; [| eassumption].
       intros x Hx. apply andb_true_iff in Hx as [Hx _].
       apply andb_true_iff in Hx as [Hx _]. exact Hx. }
  2: { apply negb_true_iff. assumption. }
  replace (0 + length (leading_comments l) + length (metadata l) +
           length (loading_comments l) + length (ex_rows l)) with (first_em_row l)
    by (unfold first_em_row, first_ex_row; lia).
  replace (first_em_row l + length (em_rows l) - first_em_row l)
    with (length (em_rows l)) by lia.
  rewrite Hem. cbn [lift bind].
  unfold set_columns at 1. rewrite length_component_labels, Hw, Nat.eqb_refl.
  cbn [lift bind].
  (* the comments over the scores *)
  destruct (comment_block_run "Score" "Reading component scores..."
              (score_comments l) (score_rows l ++ ending l ++ trailing l))
    with (line_count := first_em_row l + length (em_rows l)) (last := @None nat)
    as [t6 E6]; [assumption | |].
  { destruct (score_rows l) as [| s0 ss] eqn:Ess.
    - cbn [nonempty] in Hend. destruct (ending l); [| discriminate].
      cbn [app]. apply negb_true_iff. assumption.
    - cbn [app current hd].
      match goal with H : forallb _ (s0 :: ss) = true |- _ =>
        cbn [forallb] in H; apply andb_true_iff in H as [Hs _];
        apply andb_true_iff in Hs as [_ Hs]; apply negb_true_iff in Hs; exact Hs end. }
  rewrite E6. cbn [bind]. clear E6.
  (* the score rows *)
  rewrite (row_block_run "Score" (score_rows l)).
  2: { eapply forallb_weaken; [| eassumption].
       intros x Hx. apply andb_true_iff in Hx as [Hx _]. exact Hx. }
  2: { apply negb_true_iff. assumption. }
  fold (first_score_row l).
  destruct (score_rows l) as [| s0 ss] eqn:Ess.
  - (* no scores *)
    cbn [nonempty] in Hend. destruct (ending l) eqn:Een; [| discriminate].
    cbn [app]. rewrite score_block_none by (apply negb_true_iff; assumption).
    cbn [bind ret].
    eexists _, _, _, _, _. split; [reflexivity |].
    repeat split; try reflexivity. intros Hne. exfalso. apply Hne. reflexivity.
  - (* scores *)
    destruct Hscore as (score_raw & times & Hs); [discriminate |].
    pose proof Hs as (Hcsv & Hws & Htime & Hd & Hcodes).
    cbn [nonempty] in Hend.
    destruct (score_block_run text (component_labels (width ex_raw))
                (first_score_row l) (first_score_row l + length (s0 :: ss))
                score_raw times (ending l) (trailing l))
      with (score_df := @None DataFrame) as [t8 E8]; try assumption.
    { apply negb_true_iff. assumption. }
    { replace (first_score_row l + length (s0 :: ss) - first_score_row l)
        with (length (s0 :: ss)) by lia. rewrite <- Ess. exact Hcsv. }
    { rewrite length_component_labels. symmetry. exact Hws. }
    rewrite E8. cbn [bind ret].
    destruct (ending l) as [| e0 es]; [discriminate |].
    eexists _, _, _, _, _. split; [reflexivity |].
    repeat split; try reflexivity; try discriminate.
    intros _. exists score_raw, times. repeat split; assumption.
Qed.

Lemma read_parafac_model_components_witness :
  exists t ex_df em_df score_df info_dict,
    @read_parafac_model example_pandas parafac_text =
      (t, Ok (ex_df, em_df, Some score_df, info_dict)) /\
    columns ex_df = [LStr "component 1"; LStr "component 2"] /\
    columns em_df = [LStr "component 1"; LStr "component 2"] /\
    columns score_df = [LStr "component 1"; LStr "component 2"] /\
    levels1 (index score_df) = [KTime 20240101; KTime 20240102; KTime 20240103].
Proof.
  destruct (@read_parafac_model_components example_pandas parafac_text parafac_example
              (the_frame (example_read_csv parafac_text 8 2))
              (the_frame (example_read_csv parafac_text 10 3)))
    as (t & ex_df & em_df & score_df & info & E & Hex & Hem & Cex & Cem & _ & Hs).
  - vm_compute. reflexivity.
  - vm_compute. reflexivity.
  - vm_compute. reflexivity.
  - vm_compute. reflexivity.
  - vm_compute. reflexivity.
  - intros _.
    exists (the_frame (example_read_csv parafac_text 16 3)),
           (the_times (example_to_datetime
                         (levels1 (index (the_frame (example_read_csv parafac_text 16 3)))))).
    unfold scores_read.
    split; [vm_compute; reflexivity |]. split; [vm_compute; reflexivity |].
    split; [vm_compute; reflexivity |]. split; vm_compute; reflexivity.
  - destruct Hs as (score_raw & times & (Hcsv & _ & Htime & _) & Es & Cs & Ls);
      [vm_compute; discriminate |].
    vm_compute in Hcsv. injection Hcsv as <-.
    vm_compute in Htime. injection Htime as <-.
    exists t, ex_df, em_df,
      (scores (the_frame (example_read_csv parafac_text 16 3))
              [20240101; 20240102; 20240103]%Z 2), info.
    split; [rewrite E; f_equal; f_equal; f_equal; f_equal; rewrite Es; vm_compute; reflexivity |].
    split; [rewrite Cex; vm_compute; reflexivity |].
    split; [rewrite Cem; vm_compute; reflexivity |].
    split; vm_compute; reflexivity.
Defined.

(** ** [read_eem_dataset] *)

Lemma read_eem_index_pos `{PyFloat} (file_path text : string)
  (index_pos : option (nat * nat)) (data_format : string) :
  read_eem file_path text index_pos data_format =
  (fst (read_eem file_path text None data_format),
   match snd (read_eem file_path text None data_format) with
   | Ok (intensity, ex_range, em_range, _) =>
       Ok (intensity, ex_range, em_range, index_of file_path index_pos)
   | Raise e => Raise e
   | Diverges => Diverges
   end).
Proof.
  unfold read_eem. destruct (String.eqb data_format aqualog); [| reflexivity].
  destruct (readline (readlines text)) as [firstline f].
  destruct (read_eem_rows f [] _) as [t [[idx data] | e | ]]; cbn; try reflexivity.
  destruct (ascending_em idx); cbn; try reflexivity.
  destruct (ascending_ex _); cbn; reflexivity.
Qed.

Lemma calls_of_app (a b : trace) : calls_of (a ++ b) = calls_of a ++ calls_of b.
Proof. apply flat_map_app. Qed.

Lemma read_eem_rows_no_calls `{PyFloat} (f : list string) :
  forall idx data, calls_of (fst (read_eem_rows f idx data)) = [].
Proof.
  induction f as [| line f IH]; intros idx data; [reflexivity |].
  cbn [read_eem_rows].
  destruct (is_empty line); [reflexivity |].
  destruct (split line) as [| t0 tokens]; [reflexivity |].
  destruct (py_float t0); [| apply IH].
  destruct (map_float tokens); [| apply IH].
  destruct (np_concatenate data _); [apply IH | reflexivity | reflexivity].
Qed.

Lemma read_eem_no_calls `{PyFloat} (file_path text : string)
  (index_pos : option (nat * nat)) (data_format : string) :
  calls_of (fst (read_eem file_path text index_pos data_format)) = [].
Proof.
  unfold read_eem. destruct (String.eqb data_format aqualog); [| reflexivity].
  destruct (readline (readlines text)) as [firstline f].
  pose proof (read_eem_rows_no_calls f [] (np_zeros 1 (length (map py_int (findall_digits firstline))))) as Hc.
  destruct (read_eem_rows f [] _) as [t [[idx data] | e | ]]; cbn [fst] in Hc; cbn;
    rewrite ?app_nil_r; try exact Hc.
  destruct (ascending_em idx); cbn; rewrite ?app_nil_r; try exact Hc.
  destruct (ascending_ex _); cbn; rewrite ?app_nil_r; exact Hc.
Qed.

(** What [read_eem] returns has grids of two points at least. *)
Lemma read_eem_grids `{PyFloat} (file_path text : string)
  (index_pos : option (nat * nat)) (data_format : string) (t : trace)
  (intensity : ndarray) (ex_range : list Z) (em_range : list float)
  (index : option string) :
  read_eem file_path text index_pos data_format =
    (t, Ok (intensity, ex_range, em_range, index)) ->
  2 <= length ex_range /\ 2 <= length em_range.
Proof.
  unfold read_eem. destruct (String.eqb data_format aqualog); [| discriminate].
  destruct (readline (readlines text)) as [firstline f].
  destruct (read_eem_rows f [] _) as [t' [[idx data] | e | ]]; cbn; try discriminate.
  destruct (ascending_em idx) as [em | |] eqn:E1; cbn; try discriminate.
  destruct (ascending_ex _) as [ex | |] eqn:E2; cbn; try discriminate.
  intros E. injection E as _ _ <- <- _.
  apply ascending_em_length in E1 as [L1 L1'].
  apply ascending_ex_length in E2 as [L2 L2'].
  rewrite L1, L2. split; assumption.
Qed.

(** ** Intervals *)

Lemma Qltb_irrefl (p : Q) : Qltb p p = false.
Proof.
  unfold Qltb. rewrite (proj1 (Qeq_alt p p) (Qeq_refl p)). reflexivity.
Qed.

Lemma f_ltb_irrefl (a : float) : f_ltb a a = false.
Proof. destruct a; cbn; [apply Qltb_irrefl | reflexivity ..]. Qed.

Lemma interval_total (g : list float) :
  1 <= length g -> exists i, interval g = Ok i.
Proof.
  destruct g as [| a g]; cbn [length]; [lia |]. intros _.
  unfold interval, np_max, np_min. eauto.
Qed.

Lemma interval_ex_total (g : list Z) :
  1 <= length g -> exists i, interval_ex g = Ok i.
Proof.
  intros Hl. apply interval_total. rewrite length_map. exact Hl.
Qed.

(** On a file with the grids of the files before it, the alignment calls
    nothing and changes nothing. *)
Lemma align_same_grid `{EemProcessing} (interpolation_method : string)
  (stack : eem_stack) (intensity : ndarray) (ex_range : list Z) (em_range : list float) :
  1 <= length ex_range -> 1 <= length em_range ->
  align interpolation_method stack em_range ex_range intensity ex_range em_range =
  ([], Ok (stack, intensity, ex_range, em_range)).
Proof.
  intros Hex Hem.
  destruct (interval_total _ Hem) as [i Ei].
  destruct (interval_ex_total _ Hex) as [j Ej].
  unfold align. rewrite Ei, Ej. cbn [lift bind app].
  unfold f_gtb. rewrite !f_ltb_irrefl. reflexivity.
Qed.

Lemma replace_nth_app {A : Type} (done rest : list A) (x y : A) :
  replace_nth (length done) x (done ++ y :: rest) = done ++ x :: rest.
Proof.
  induction done as [| d done IH]; [reflexivity |].
  cbn [length app replace_nth]. rewrite IH. reflexivity.
Qed.

Lemma set_slice_next (d1 d2 : nat) (done rest : list ndarray) (z a : ndarray) :
  shape a = (d1, d2) ->
  set_slice (mk_stack d1 d2 (done ++ z :: rest)) (length done) a =
  Ok (mk_stack d1 d2 (done ++ a :: rest)).
Proof.
  unfold shape. intros Hs. injection Hs as H0 H1.
  unfold set_slice; cbn [slices dim1 dim2].
  destruct (Nat.leb_spec (length (done ++ z :: rest)) (length done)) as [Hle | _].
  { rewrite length_app in Hle. cbn [length] in Hle. lia. }
  rewrite H0, H1, !Nat.eqb_refl. cbn [andb]. rewrite replace_nth_app. reflexivity.
Qed.

(** The rounds of the loop over files that all have the grids of the
    first one and arrays of the shape of the first one: each array takes
    its slice, nothing is called. *)
Lemma dataset_loop_same_grid `{PyFloat} `{EemProcessing} (folder_path : string)
  (folder : directory) (data_format interpolation_method : string)
  (ex_range : list Z) (em_range : list float) (d1 d2 : nat) :
  1 <= length ex_range -> 1 <= length em_range ->
  forall (filenames : list string) (arrays done : list ndarray)
         (indexes : list (option string)),
    Forall2 (fun name a =>
               reads_as folder_path folder data_format name (a, ex_range, em_range) /\
               shape a = (d1, d2)) filenames arrays ->
    exists t indexes',
      dataset_loop folder_path folder data_format true interpolation_method
                   filenames (length done)
                   (mk_state (mk_stack d1 d2 (done ++ repeat (np_zeros d1 d2) (length filenames)))
                             indexes em_range ex_range) =
      (t, Ok (mk_state (mk_stack d1 d2 (done ++ arrays)) indexes' em_range ex_range)) /\
      calls_of t = [].
Proof.
  intros Hex Hem filenames arrays done indexes Hall. revert done indexes.
  induction Hall as [| name a filenames arrays [Hr Hs] _ IH]; intros done indexes.
  - exists [], indexes. cbn. rewrite app_nil_r. split; reflexivity.
  - destruct Hr as (text & t0 & Hopen & Hread).
    cbn [dataset_loop length repeat]. unfold dataset_round.
    rewrite Hopen. cbn [lift bind]. rewrite Hread. cbn [bind st_stack em_range_old ex_range_old st_indexes].
    rewrite (align_same_grid interpolation_method _ a ex_range em_range Hex Hem).
    cbn [bind]. unfold insert_slice. rewrite (set_slice_next d1 d2 done _ _ a Hs).
    cbn [bind ret].
    destruct (IH (done ++ [a]) (indexes ++ [None])) as (t & indexes' & E & Hc).
    rewrite length_app in E. cbn [length] in E. rewrite Nat.add_1_r in E.
    rewrite <- !app_assoc in E. cbn [app] in E. rewrite E.
    eexists _, indexes'. split; [reflexivity |].
    rewrite !calls_of_app, Hc.
    pose proof (read_eem_no_calls (path_of folder_path name) text None data_format) as Hn.
    rewrite Hread in Hn. cbn [fst] in Hn. rewrite Hn. reflexivity.
Qed.

(** Files with one excitation grid, one emission grid and arrays of one
    shape: nothing is called, and the stack holds the arrays as read. *)
Lemma read_eem_dataset_same_shape `{PyFloat} `{EemProcessing} (folder_path : string)
  (folder : directory) (kw data_format : string) (index_pos : option (nat * nat))
  (custom_filename_list : option (list string)) (interpolation_method : string)
  (filename : string) (filenames : list string)
  (ex_range : list Z) (em_range : list float)
  (intensity : ndarray) (arrays : list ndarray) :
  filename_list_of folder kw custom_filename_list = filename :: filenames ->
  reads_as folder_path folder data_format filename (intensity, ex_range, em_range) ->
  Forall2 (fun name a =>
             reads_as folder_path folder data_format name (a, ex_range, em_range) /\
             shape a = shape intensity) filenames arrays ->
  exists t indexes,
    read_eem_dataset folder_path folder kw data_format index_pos custom_filename_list
                     true interpolation_method =
      (t, Ok (mk_stack (shape0 intensity) (shape1 intensity) (intensity :: arrays),
              ex_range, em_range, indexes)) /\
    calls_of t = [].
Proof.
  intros Hlist (text & t0 & Hopen & Hread) Hall.
  destruct (read_eem_grids _ _ _ _ _ _ _ _ _ Hread) as [Hex Hem].
  unfold read_eem_dataset. rewrite Hlist, Hopen. cbn [lift bind].
  rewrite read_eem_index_pos, Hread. cbn [fst snd bind].
  unfold stack_zeros. cbn [length repeat].
  pose proof (set_slice_next (shape0 intensity) (shape1 intensity) []
                (repeat (np_zeros (shape0 intensity) (shape1 intensity)) (length filenames))
                (np_zeros (shape0 intensity) (shape1 intensity)) intensity eq_refl) as Hs0.
  cbn [app length] in Hs0. rewrite Hs0. cbn [bind app].
  destruct (dataset_loop_same_grid folder_path folder data_format interpolation_method
              ex_range em_range (shape0 intensity) (shape1 intensity)
              ltac:(lia) ltac:(lia) filenames arrays [intensity]
              [index_of (path_of folder_path filename) index_pos] Hall)
    as (t & indexes & E & Hc).
  cbn [length app] in E. rewrite E. cbn [bind ret st_stack ex_range_old em_range_old st_indexes].
  eexists _, indexes. split; [reflexivity |].
  rewrite !calls_of_app, Hc, app_nil_r.
  pose proof (read_eem_no_calls (path_of folder_path filename) text None data_format) as Hn.
  rewrite Hread in Hn. cbn [fst] in Hn. rewrite Hn. reflexivity.
Qed.

Lemma read_eem_well_formed_shape `{PyFloat} (file_path text : string)
  (index_pos : option (nat * nat)) (data_format : string) (t : trace)
  (intensity : ndarray) (ex_range : list Z) (em_range : list float)
  (index : option string) :
  well_formed_eem text = true ->
  read_eem file_path text index_pos data_format =
    (t, Ok (intensity, ex_range, em_range, index)) ->
  shape intensity = (length ex_range, length em_range).
Proof.
  intros Hw Hread.
  destruct (String.eqb data_format aqualog) eqn:Ef.
  - apply String.eqb_eq in Ef. subst data_format.
    rewrite read_eem_well_formed in Hread by exact Hw.
    destruct (ascending_em (raw_emission text)) as [em | |] eqn:E1; try discriminate.
    destruct (ascending_ex (header_of text)) as [ex | |] eqn:E2; try discriminate.
    cbn in Hread. injection Hread as _ <- <- <- _.
    apply ascending_em_length in E1 as [L1 _].
    apply ascending_ex_length in E2 as [L2 _].
    unfold shape, transpose, raw_table; cbn [shape0 shape1].
    rewrite L1, L2. unfold raw_emission. rewrite length_map. reflexivity.
  - unfold read_eem in Hread. rewrite Ef in Hread. discriminate.
Qed.

(** C5. When the files of the list are well-formed EEM files that all
    have one excitation grid and one emission grid, [read_eem_dataset]
    with [wavelength_alignment] calls no interpolation routine, and the
    stack it returns holds the arrays of the files as they were read, in
    the order of the list, with the grids of the files. *)
Theorem read_eem_dataset_same_grid `{PyFloat} `{EemProcessing} (folder_path : string)
  (folder : directory) (kw data_format : string) (index_pos : option (nat * nat))
  (custom_filename_list : option (list string)) (interpolation_method : string)
  (filename : string) (filenames : list string)
  (ex_range : list Z) (em_range : list float)
  (intensity : ndarray) (arrays : list ndarray) :
  filename_list_of folder kw custom_filename_list = filename :: filenames ->
  Forall2 (fun name a =>
             reads_well_formed folder_path folder data_format name (a, ex_range, em_range))
          (filename :: filenames) (intensity :: arrays) ->
  exists t indexes,
    read_eem_dataset folder_path folder kw data_format index_pos custom_filename_list
                     true interpolation_method =
      (t, Ok (mk_stack (length ex_range) (length em_range) (intensity :: arrays),
              ex_range, em_range, indexes)) /\
    calls_of t = [].
Proof.
  intros Hlist Hall. inversion Hall as [| ? ? ? ? Hfirst Hrest]; subst.
  assert (Hshape : forall name a,
             reads_well_formed folder_path folder data_format name (a, ex_range, em_range) ->
             reads_as folder_path folder data_format name (a, ex_range, em_range) /\
             shape a = (length ex_range, length em_range)).
  { intros name a (text & Hopen & Hw & Hread). split.
    - exists text, []. split; assumption.
    - eapply read_eem_well_formed_shape; eassumption. }
  destruct (Hshape _ _ Hfirst) as [Hr0 Hs0].
  assert (E0 : shape0 intensity = length ex_range /\ shape1 intensity = length em_range).
  { unfold shape in Hs0. injection Hs0 as -> ->. split; reflexivity. }
  destruct E0 as [<- <-].
  apply (read_eem_dataset_same_shape folder_path folder kw data_format index_pos
           custom_filename_list interpolation_method filename filenames
           ex_range em_range intensity arrays Hlist Hr0).
  clear - Hrest Hshape Hs0.
  induction Hrest as [| name a names arrays' Hn _ IH]; constructor.
  - destruct (Hshape _ _ Hn) as [Hr Hs]. split; [exact Hr |]. rewrite Hs, Hs0. reflexivity.
  - exact IH.
Qed.

Lemma read_eem_dataset_same_grid_witness :
  exists t indexes,
    @read_eem_dataset decimal example_processing "data" same_grid_folder "PEM.dat" aqualog
                      (Some (0, 0)) None true "linear" =
      (t, Ok (mk_stack 2 3
                [mk_ndarray 2 3 [[Fin 1; Fin 3; Fin 5]; [Fin 2; Fin 4; Fin 6]];
                 mk_ndarray 2 3 [[Fin 7; Fin 9; Fin 11]; [Fin 8; Fin 10; Fin 12]]],
              [240; 250]%Z, [Fin 300; Fin 302; Fin 304], indexes)) /\
    calls_of t = [].
Proof.
  apply (@read_eem_dataset_same_grid decimal example_processing "data" same_grid_folder
           "PEM.dat" aqualog (Some (0, 0)) None "linear" "a_PEM.dat" ["b_PEM.dat"]
           [240; 250]%Z [Fin 300; Fin 302; Fin 304]
           (mk_ndarray 2 3 [[Fin 1; Fin 3; Fin 5]; [Fin 2; Fin 4; Fin 6]])
           [mk_ndarray 2 3 [[Fin 7; Fin 9; Fin 11]; [Fin 8; Fin 10; Fin 12]]]).
  - vm_compute. reflexivity.
  - apply Forall2_cons; [| apply Forall2_cons; [| apply Forall2_nil]].
    + exists eem_same_a. split; [| split]; vm_compute; reflexivity.
    + exists eem_same_b. split; [| split]; vm_compute; reflexivity.
Defined.

(** ** The order of intervals *)

Lemma Qltb_lt (p q : Q) : Qltb p q = true <-> (p < q)%Q.
Proof.
  unfold Qltb. rewrite Qlt_alt. destruct (p ?= q)%Q; split; congruence.
Qed.

Lemma Qltb_ge (p q : Q) : Qltb p q = false <-> (q <= p)%Q.
Proof.
  rewrite <- not_true_iff_false, Qltb_lt. split; [apply Qnot_lt_le | apply Qle_not_lt].
Qed.

Lemma fold_f_max_fin (l : list float) :
  forallb is_fin l = true -> forall p, exists q, fold_left f_max l (Fin p) = Fin q.
Proof.
  induction l as [| a l IH]; intros Hl p; [exists p; reflexivity |].
  cbn [forallb] in Hl. apply andb_true_iff in Hl as [Ha Hl].
  destruct a as [q | | |]; try discriminate.
  cbn [fold_left]. unfold f_max; cbn [is_nan f_ltb]. destruct (Qltb p q); apply IH, Hl.
Qed.

Lemma fold_f_min_fin (l : list float) :
  forallb is_fin l = true -> forall p, exists q, fold_left f_min l (Fin p) = Fin q.
Proof.
  induction l as [| a l IH]; intros Hl p; [exists p; reflexivity |].
  cbn [forallb] in Hl. apply andb_true_iff in Hl as [Ha Hl].
  destruct a as [q | | |]; try discriminate.
  cbn [fold_left]. unfold f_min; cbn [is_nan f_ltb]. destruct (Qltb q p); apply IH, Hl.
Qed.

(** *** Rounding gives a number *)

Lemma binary64_pos_not_nan (q : Q) : is_nan (binary64_pos q) = false.
Proof.
  unfold binary64_pos.
  match goal with |- context [if ?c then PInf else _] => destruct c end; reflexivity.
Qed.

Lemma binary64_not_nan (q : Q) : is_nan (binary64 q) = false.
Proof.
  unfold binary64. destruct (q ?= 0)%Q.
  - reflexivity.
  - pose proof (binary64_pos_not_nan (- q)%Q) as Hn.
    destruct (binary64_pos (- q)%Q); (reflexivity || discriminate Hn).
  - apply binary64_pos_not_nan.
Qed.

Lemma f_div_nat_not_nan (x : float) (n : nat) :
  is_nan x = false -> is_nan (f_div_nat x (S n)) = false.
Proof.
  destruct x as [p | | |]; cbn [f_div_nat]; intros Hx;
    (apply binary64_not_nan || exact Hx).
Qed.

(** The interval of a grid of two numbers at least is not NaN: it is a
    number, or an infinity when the difference overflows. *)
Lemma interval_not_nan (g : list float) :
  forallb is_fin g = true -> 2 <= length g ->
  exists x, interval g = Ok x /\ is_nan x = false.
Proof.
  destruct g as [| a [| b g]]; cbn [length]; try lia. intros Hf _.
  cbn [forallb] in Hf. apply andb_true_iff in Hf as [Ha Hf].
  destruct a as [p | | |]; try discriminate.
  unfold interval, np_max, np_min.
  destruct (fold_f_max_fin (b :: g) Hf p) as [mx ->].
  destruct (fold_f_min_fin (b :: g) Hf p) as [mn ->].
  cbn [length Nat.sub f_sub]. eexists. split; [reflexivity |].
  apply f_div_nat_not_nan, binary64_not_nan.
Qed.

Lemma interval_ex_not_nan (g : list Z) :
  2 <= length g -> exists x, interval_ex g = Ok x /\ is_nan x = false.
Proof.
  intros Hl. apply interval_not_nan; [| rewrite length_map; exact Hl].
  apply forallb_forall. intros x Hx. apply in_map_iff in Hx as (z & <- & _). reflexivity.
Qed.

(** *** The order of floats that are not NaN *)

Lemma Qltb_asym (p q : Q) : Qltb p q = true -> Qltb q p = false.
Proof. rewrite Qltb_lt, Qltb_ge. apply Qlt_le_weak. Qed.

Lemma f_ltb_asym (a b : float) : f_ltb a b = true -> f_ltb b a = false.
Proof.
  destruct a, b; cbn; try reflexivity; try discriminate. apply Qltb_asym.
Qed.

(** [x >= y] and [y >= z] give [x >= z]. *)
Lemma f_ltb_neg_trans (x y z : float) :
  is_nan y = false ->
  f_ltb x y = false -> f_ltb y z = false -> f_ltb x z = false.
Proof.
  destruct x as [p | | |], y as [q | | |], z as [r | | |]; cbn;
    try reflexivity; try discriminate.
  rewrite !Qltb_ge. intros _ H1 H2. apply (Qle_trans _ q); assumption.
Qed.

(** [x < y] and [y <= z] give [x < z]. *)
Lemma f_ltb_le_trans (x y z : float) :
  is_nan z = false ->
  f_ltb x y = true -> f_ltb z y = false -> f_ltb x z = true.
Proof.
  destruct x as [p | | |], y as [q | | |], z as [r | | |]; cbn;
    try reflexivity; try discriminate.
  rewrite !Qltb_lt, Qltb_ge. intros _ H1 H2. apply (Qlt_le_trans _ q); assumption.
Qed.

(** ** One round of the alignment *)

Lemma length_replace_nth {A : Type} (n : nat) (x : A) (l : list A) :
  length (replace_nth n x l) = length l.
Proof.
  revert n. induction l as [| y l IH]; intros n; [destruct n; reflexivity |].
  destruct n; cbn [replace_nth length]; [reflexivity | rewrite IH; reflexivity].
Qed.

Lemma insert_slice_dims (stack : eem_stack) (n : nat) (intensity : ndarray)
  (filename : string) :
  n < length (slices stack) ->
  exists t stack',
    insert_slice stack n intensity filename = (t, Ok stack') /\
    calls_of t = [] /\
    dim1 stack' = dim1 stack /\ dim2 stack' = dim2 stack /\
    length (slices stack') = length (slices stack).
Proof.
  intros Hn. unfold insert_slice, set_slice.
  destruct (Nat.leb_spec (length (slices stack)) n) as [Hle | _]; [lia |].
  destruct ((shape0 intensity =? dim1 stack) && (shape1 intensity =? dim2 stack)).
  - eexists _, _. split; [reflexivity |]. cbn [dim1 dim2 slices].
    rewrite length_replace_nth. repeat split.
  - destruct (broadcastable intensity (dim1 stack) (dim2 stack)).
    + eexists _, _. split; [reflexivity |]. cbn [dim1 dim2 slices].
      rewrite length_replace_nth. repeat split.
    + eexists _, _. split; [reflexivity |]. repeat split.
Qed.

(** The alignment of a file with intervals [a] and [c] (emission,
    excitation) against running grids with intervals [b] and [d], when
    the file is not finer on one axis and coarser on the other: the
    running grids stay when the file is coarser on an axis, and become
    those of the file otherwise; the stack has the dimensions of the
    grids that come out. *)
Lemma align_round `{EemProcessing} (interpolation_method : string) (stack : eem_stack)
  (em_old : list float) (ex_old : list Z) (intensity : ndarray)
  (ex_new : list Z) (em_new : list float) (a b c d : float) :
  interpolates ->
  interval em_new = Ok a -> interval em_old = Ok b ->
  interval_ex ex_new = Ok c -> interval_ex ex_old = Ok d ->
  ~ (f_ltb b a = true /\ f_ltb c d = true) ->
  ~ (f_ltb a b = true /\ f_ltb d c = true) ->
  (f_ltb a b = false -> f_ltb b a = false ->
   f_ltb c d = false -> f_ltb d c = false ->
   length em_new = length em_old /\ length ex_new = length ex_old) ->
  dim1 stack = length ex_old -> dim2 stack = length em_old ->
  exists t stack' intensity' ex' em',
    align interpolation_method stack em_old ex_old intensity ex_new em_new =
      (t, Ok (stack', intensity', ex', em')) /\
    ((ex' = ex_old /\ em' = em_old /\ f_ltb a b = false /\ f_ltb c d = false) \/
     (ex' = ex_new /\ em' = em_new /\ f_ltb b a = false /\ f_ltb d c = false)) /\
    dim1 stack' = length ex' /\ dim2 stack' = length em' /\
    length (slices stack') = length (slices stack).
Proof.
  intros [Hinterp Hproc] Ea Eb Ec Ed Hm1 Hm2 Htie Hd1 Hd2.
  unfold align. rewrite Ea, Eb, Ec, Ed. cbn [lift bind app].
  unfold f_gtb.
  pose proof (f_ltb_asym b a) as Aba. pose proof (f_ltb_asym a b) as Aab.
  pose proof (f_ltb_asym d c) as Adc. pose proof (f_ltb_asym c d) as Acd.
  destruct (f_ltb b a) eqn:Hba; destruct (f_ltb a b) eqn:Hab;
    destruct (f_ltb d c) eqn:Hdc; destruct (f_ltb c d) eqn:Hcd;
    try (specialize (Aba eq_refl); discriminate Aba);
    try (specialize (Aab eq_refl); discriminate Aab);
    try (specialize (Adc eq_refl); discriminate Adc);
    try (specialize (Acd eq_refl); discriminate Acd);
    try (exfalso; apply Hm1; split; reflexivity);
    try (exfalso; apply Hm2; split; reflexivity);
    cbn [orb].
  all: try match goal with
           | |- context [eem_interpolation ?i ?e1 ?x1 ?e2 ?x2 ?m] =>
               destruct (Hinterp i e1 x1 e2 x2 m) as [i' ->]
           end.
  all: try match goal with
           | |- context [process_eem_stack ?s _ ?e1 ?x1 ?e2 ?x2] =>
               destruct (Hproc s e1 x1 e2 x2) as (s' & -> & P1 & P2 & P3)
           end.
  all: cbn [called lift bind ret app].
  all: eexists _, _, _, _, _; (split; [reflexivity |]).
  all: try (split; [left; repeat split; reflexivity |]; repeat split; assumption).
  all: try (split; [right; repeat split; reflexivity |];
            rewrite ?length_flipud in *; repeat split; assumption).
  (* a tie on both axes *)
  destruct Htie as [L1 L2]; try reflexivity.
  split; [right; repeat split; reflexivity |].
  rewrite L1, L2. repeat split; assumption.
Qed.

(** ** [read_eem_dataset] on files of several resolutions *)

Lemma reads_well_formed_reads `{PyFloat} (folder_path : string) (folder : directory)
  (data_format name : string) (r : eem) :
  reads_well_formed folder_path folder data_format name r ->
  reads_as folder_path folder data_format name r /\
  shape (fst (fst r)) = (length (ex_of r), length (em_of r)) /\
  2 <= length (ex_of r) /\ 2 <= length (em_of r).
Proof.
  intros (text & Hopen & Hw & Hread). destruct r as [[a ex] em].
  split; [exists text, []; split; assumption |].
  split; [eapply read_eem_well_formed_shape; eassumption |].
  eapply read_eem_grids; eassumption.
Qed.

Lemma dataset_round_aligned `{PyFloat} `{EemProcessing} (folder_path : string)
  (folder : directory) (data_format interpolation_method : string)
  (rs seen : list eem) (num n : nat) (st : dataset_state) (name : string) (r : eem) :
  interpolates ->
  (forall s, In s rs ->
     (exists x, interval (em_of s) = Ok x /\ is_nan x = false) /\
     (exists x, interval_ex (ex_of s) = Ok x /\ is_nan x = false)) ->
  consistent rs -> ties_agree rs ->
  incl seen rs -> In r rs ->
  reads_as folder_path folder data_format name r ->
  aligned seen num st -> n < num ->
  exists t st',
    dataset_round folder_path folder data_format true interpolation_method st n name =
      (t, Ok st') /\
    aligned (r :: seen) num st'.
Proof.
  intros Hint Hq Hcons Hties Hseen Hr (text & t0 & Hopen & Hread)
         ((re & Hre & Ere & Mre) & (rx & Hrx & Erx & Mrx) & D1 & D2 & Dn) Hn.
  assert (Hre' : In re rs) by (apply Hseen, Hre).
  assert (Hrx' : In rx rs) by (apply Hseen, Hrx).
  destruct (Hq _ Hr) as [(a & Ea & Na) (c & Ec & Nc)].
  destruct (Hq _ Hre') as [(b & Eb & Nb) (d' & Ed' & Nd')].
  destruct (Hq _ Hrx') as [(b' & Eb' & Nb') (d & Ed & Nd)].
  (* the running minima against the files that carry them *)
  pose proof (Mre _ Hrx) as M1. rewrite Eb', Eb in M1. cbn [lt_interval] in M1.
  pose proof (Mrx _ Hre) as M2. rewrite Ed', Ed in M2. cbn [lt_interval] in M2.
  pose proof (Hcons _ _ Hre' Hr) as C1. rewrite Ea, Eb, Ec, Ed' in C1.
  cbn [lt_interval] in C1.
  pose proof (Hcons _ _ Hr Hrx') as C2. rewrite Ea, Eb', Ec, Ed in C2.
  cbn [lt_interval] in C2.
  destruct (Hties _ _ Hr Hre') as [T1 _]. rewrite Ea, Eb in T1.
  cbn [lt_interval] in T1.
  destruct (Hties _ _ Hr Hrx') as [_ T2]. rewrite Ec, Ed in T2.
  cbn [lt_interval] in T2.
  assert (Mre' : forall s, In s seen ->
                   exists xs, interval (em_of s) = Ok xs /\ f_ltb xs b = false).
  { intros s Hs. destruct (Hq _ (Hseen _ Hs)) as [(xs & Es & _) _].
    exists xs. split; [exact Es |].
    pose proof (Mre _ Hs) as Ms. rewrite Es, Eb in Ms. exact Ms. }
  assert (Mrx' : forall s, In s seen ->
                   exists xs, interval_ex (ex_of s) = Ok xs /\ f_ltb xs d = false).
  { intros s Hs. destruct (Hq _ (Hseen _ Hs)) as [_ (xs & Es & _)].
    exists xs. split; [exact Es |].
    pose proof (Mrx _ Hs) as Ms. rewrite Es, Ed in Ms. exact Ms. }
  rewrite Ere in Eb, T1. rewrite Erx in Ed, T2.
  destruct (align_round interpolation_method (st_stack st) (em_range_old st)
              (ex_range_old st) (fst (fst r)) (ex_of r) (em_of r) a b c d Hint Ea Eb Ec Ed)
    as (t1 & stack1 & i1 & ex1 & em1 & E1 & Hcase & S1 & S2 & S3);
    try assumption.
  { intros [Hba Hcd]. apply C1. split; [exact Hba |].
    apply (f_ltb_le_trans c d d' Nd' Hcd M2). }
  { intros [Hab Hdc]. apply C2. split; [| exact Hdc].
    apply (f_ltb_le_trans a b b' Nb' Hab M1). }
  { intros Hab Hba Hcd Hdc. split; [apply T1 | apply T2]; assumption. }
  destruct (insert_slice_dims stack1 n i1 name) as (t2 & stack2 & E2 & _ & I1 & I2 & I3).
  { rewrite S3, Dn. exact Hn. }
  unfold dataset_round. rewrite Hopen. cbn [lift bind]. rewrite Hread.
  destruct r as [[intensity ex_new] em_new]. unfold em_of, ex_of in E1; cbn [fst snd] in E1.
  cbn [bind]. rewrite E1. cbn [bind]. rewrite E2. cbn [bind ret].
  eexists _, _. split; [reflexivity |].
  unfold aligned; cbn [st_stack em_range_old ex_range_old].
  rewrite I1, I2, I3, S1, S2, S3, Dn.
  destruct Hcase as [(-> & -> & Hab & Hcd) | (-> & -> & Hba & Hdc)].
  - (* the running grids stay *)
    split; [| split; [| repeat split]].
    + exists re. split; [right; exact Hre |]. split; [exact Ere |].
      intros s [<- | Hs]; [| apply Mre, Hs].
      rewrite Ea, Ere, Eb. exact Hab.
    + exists rx. split; [right; exact Hrx |]. split; [exact Erx |].
      intros s [<- | Hs]; [| apply Mrx, Hs].
      rewrite Ec, Erx, Ed. exact Hcd.
  - (* the running grids become those of the file *)
    split; [| split; [| repeat split]].
    + exists (intensity, ex_new, em_new). split; [left; reflexivity |].
      split; [reflexivity |].
      intros s [<- | Hs].
      * rewrite Ea. apply f_ltb_irrefl.
      * destruct (Mre' _ Hs) as (xs & Es & Hxs). rewrite Es, Ea.
        apply (f_ltb_neg_trans xs b a Nb Hxs Hba).
    + exists (intensity, ex_new, em_new). split; [left; reflexivity |].
      split; [reflexivity |].
      intros s [<- | Hs].
      * rewrite Ec. apply f_ltb_irrefl.
      * destruct (Mrx' _ Hs) as (xs & Es & Hxs). rewrite Es, Ec.
        apply (f_ltb_neg_trans xs d c Nd Hxs Hdc).
Qed.

Lemma dataset_loop_aligned `{PyFloat} `{EemProcessing} (folder_path : string)
  (folder : directory) (data_format interpolation_method : string)
  (rs : list eem) (num : nat) :
  interpolates ->
  (forall s, In s rs ->
     (exists x, interval (em_of s) = Ok x /\ is_nan x = false) /\
     (exists x, interval_ex (ex_of s) = Ok x /\ is_nan x = false)) ->
  consistent rs -> ties_agree rs ->
  forall (names : list string) (later seen : list eem) (n : nat) (st : dataset_state),
    Forall2 (reads_as folder_path folder data_format) names later ->
    incl later rs -> incl seen rs ->
    aligned seen num st -> n + length names <= num ->
    exists t st',
      dataset_loop folder_path folder data_format true interpolation_method names n st =
        (t, Ok st') /\
      aligned (rev later ++ seen) num st'.
Proof.
  intros Hint Hq Hcons Hties names later seen n st Hall. revert seen n st.
  induction Hall as [| name r names later Hr _ IH]; intros seen n st Hl Hs Ha Hn.
  - exists [], st. split; [reflexivity | exact Ha].
  - cbn [length] in Hn.
    destruct (dataset_round_aligned folder_path folder data_format interpolation_method
                rs seen num n st name r) as (t1 & st1 & E1 & A1); try assumption.
    { apply Hl. left. reflexivity. }
    { lia. }
    destruct (IH (r :: seen) (S n) st1) as (t2 & st2 & E2 & A2); try assumption.
    { intros x Hx. apply Hl. right. exact Hx. }
    { intros x [<- | Hx]; [apply Hl; left; reflexivity | apply Hs, Hx]. }
    { lia. }
    cbn [dataset_loop]. rewrite E1. cbn [bind]. rewrite E2.
    eexists _, st2. split; [reflexivity |].
    cbn [rev]. rewrite <- app_assoc. exact A2.
Qed.

(** C1, as amended. For well-formed EEM files with finite wavelengths,
    none of them finer than another on one axis and coarser on the other,
    and files of equal interval on an axis having as many points on it,
    [read_eem_dataset] with [wavelength_alignment] returns, on each axis,
    the grid of one of the files, and no file has a smaller interval
    [(max - min) / (n - 1)] on that axis: the common grid is the finest
    seen, its interval the minimum over the files. The slices of the
    stack have one row per excitation and one column per emission
    wavelength of the grids returned. *)
Theorem read_eem_dataset_finest_grid `{PyFloat} `{EemProcessing} (folder_path : string)
  (folder : directory) (kw data_format : string) (index_pos : option (nat * nat))
  (custom_filename_list : option (list string)) (interpolation_method : string)
  (rs : list eem) :
  interpolates ->
  Forall2 (reads_well_formed folder_path folder data_format)
          (filename_list_of folder kw custom_filename_list) rs ->
  rs <> [] ->
  Forall finite_em rs ->
  consistent rs ->
  ties_agree rs ->
  exists t stack ex_range em_range indexes,
    read_eem_dataset folder_path folder kw data_format index_pos custom_filename_list
                     true interpolation_method =
      (t, Ok (stack, ex_range, em_range, indexes)) /\
    In em_range (map em_of rs) /\
    In ex_range (map ex_of rs) /\
    (forall r, In r rs ->
       lt_interval (interval (em_of r)) (interval em_range) = false) /\
    (forall r, In r rs ->
       lt_interval (interval_ex (ex_of r)) (interval_ex ex_range) = false) /\
    dim1 stack = length ex_range /\
    dim2 stack = length em_range.
Proof.
  intros Hint Hall Hne Hfin Hcons Hties.
  unfold read_eem_dataset.
  remember (filename_list_of folder kw custom_filename_list) as names eqn:Hnames.
  clear Hnames.
  assert (Hreads : Forall2 (reads_as folder_path folder data_format) names rs).
  { clear - Hall. induction Hall as [| ? ? ? ? Hx _ IH]; constructor; [| exact IH].
    apply reads_well_formed_reads in Hx. apply Hx. }
  assert (Hq : forall s, In s rs ->
                 (exists x, interval (em_of s) = Ok x /\ is_nan x = false) /\
                 (exists x, interval_ex (ex_of s) = Ok x /\ is_nan x = false)).
  { intros s Hs. rewrite Forall_forall in Hfin.
    assert (Hlen : 2 <= length (ex_of s) /\ 2 <= length (em_of s)).
    { clear - Hall Hs. induction Hall as [| ? ? ? ? Hx _ IH]; [destruct Hs |].
      destruct Hs as [<- | Hs]; [| exact (IH Hs)].
      apply reads_well_formed_reads in Hx. apply Hx. }
    split; [apply interval_not_nan; [apply Hfin, Hs | apply Hlen] |
            apply interval_ex_not_nan, Hlen]. }
  destruct rs as [| r0 later]; [contradiction Hne; reflexivity |].
  inversion Hall as [| name ? names' ? Hfirst Hrest]; subst.
  destruct (reads_well_formed_reads _ _ _ _ _ Hfirst)
    as ((text & t0 & Hopen & Hread) & Hshape & _).
  inversion Hreads as [| ? ? ? ? _ Hlater]; subst.
  destruct r0 as [[intensity ex0] em0].
  unfold ex_of, em_of in Hshape; cbn [fst snd] in Hshape.
  unfold shape in Hshape. injection Hshape as Hs0 Hs1.
  rewrite Hopen. cbn [lift bind].
  rewrite read_eem_index_pos, Hread. cbn [fst snd bind].
  unfold stack_zeros. cbn [length repeat].
  pose proof (set_slice_next (shape0 intensity) (shape1 intensity) []
                (repeat (np_zeros (shape0 intensity) (shape1 intensity)) (length names'))
                (np_zeros (shape0 intensity) (shape1 intensity)) intensity eq_refl) as Es.
  cbn [app length] in Es. rewrite Es. cbn [bind app]. clear Es.
  destruct (dataset_loop_aligned folder_path folder data_format interpolation_method
              ((intensity, ex0, em0) :: later) (S (length names')) Hint Hq Hcons Hties
              names' later [(intensity, ex0, em0)] 1
              (mk_state (mk_stack (shape0 intensity) (shape1 intensity)
                           (intensity :: repeat (np_zeros (shape0 intensity) (shape1 intensity))
                                                (length names')))
                        [index_of (path_of folder_path name) index_pos] em0 ex0) Hlater)
    as (t & st & E & (re & Hre & Ere & Mre) & (rx & Hrx & Erx & Mrx) & D1 & D2 & _).
  { intros x Hx. right. exact Hx. }
  { intros x [<- | []]. left. reflexivity. }
  { unfold aligned; cbn [st_stack em_range_old ex_range_old dim1 dim2 slices].
    split; [| split; [| split; [| split]]].
    - exists (intensity, ex0, em0). split; [left; reflexivity |]. split; [reflexivity |].
      intros r [<- | []]. destruct (Hq (intensity, ex0, em0)) as [(x & -> & _) _];
        [left; reflexivity |]. apply f_ltb_irrefl.
    - exists (intensity, ex0, em0). split; [left; reflexivity |]. split; [reflexivity |].
      intros r [<- | []]. destruct (Hq (intensity, ex0, em0)) as [_ (x & -> & _)];
        [left; reflexivity |]. apply f_ltb_irrefl.
    - exact Hs0.
    - exact Hs1.
    - cbn [length]. rewrite repeat_length. reflexivity. }
  { cbn. lia. }
  rewrite E. cbn [bind ret].
  assert (Hin : forall x, In x (rev later ++ [(intensity, ex0, em0)]) <->
                          In x ((intensity, ex0, em0) :: later)).
  { intros x. rewrite in_app_iff, <- in_rev. cbn. tauto. }
  eexists _, _, _, _, _. split; [reflexivity |].
  split; [rewrite <- Ere; apply in_map, Hin, Hre |].
  split; [rewrite <- Erx; apply in_map, Hin, Hrx |].
  split; [intros r Hr; rewrite <- Ere; apply Mre, Hin, Hr |].
  split; [intros r Hr; rewrite <- Erx; apply Mrx, Hin, Hr |].
  split; assumption.
Qed.

Lemma map_result_total {A B : Type} (f : A -> result B) (g : A -> B) (l : list A) :
  (forall a, f a = Ok (g a)) -> map_result f l = Ok (map g l).
Proof.
  intros Hf. induction l as [| a l IH]; [reflexivity |].
  cbn [map_result map]. rewrite Hf, IH. reflexivity.
Qed.

Lemma example_processing_interpolates : @interpolates example_processing.
Proof.
  split.
  - intros. eexists. reflexivity.
  - intros stack em_old ex_old em_new ex_new.
    cbn [process_eem_stack eem_interpolation example_processing].
    unfold example_process_eem_stack.
    rewrite (map_result_total _ (fun a => resample a (length ex_new) (length em_new)))
      by reflexivity.
    eexists. split; [reflexivity |]. cbn [dim1 dim2 slices].
    rewrite length_map. repeat split.
Qed.

Lemma read_eem_dataset_finest_grid_witness :
  exists t stack ex_range em_range indexes,
    @read_eem_dataset decimal example_processing "data" two_resolutions_folder
                      "PEM.dat" aqualog None None true "linear" =
      (t, Ok (stack, ex_range, em_range, indexes)) /\
    In em_range (map em_of [fine_record; coarse_record]) /\
    In ex_range (map ex_of [fine_record; coarse_record]) /\
    (forall r, In r [fine_record; coarse_record] ->
       lt_interval (interval (em_of r)) (interval em_range) = false) /\
    (forall r, In r [fine_record; coarse_record] ->
       lt_interval (interval_ex (ex_of r)) (interval_ex ex_range) = false) /\
    dim1 stack = length ex_range /\
    dim2 stack = length em_range.
Proof.
  apply (@read_eem_dataset_finest_grid decimal example_processing "data"
           two_resolutions_folder "PEM.dat" aqualog None None "linear"
           [fine_record; coarse_record]).
  - exact example_processing_interpolates.
  - apply Forall2_cons; [| apply Forall2_cons; [| apply Forall2_nil]].
    + exists eem_fine. split; [| split]; vm_compute; reflexivity.
    + exists eem_coarse. split; [| split]; vm_compute; reflexivity.
  - discriminate.
  - apply Forall_cons; [| apply Forall_cons; [| apply Forall_nil]]; vm_compute; reflexivity.
  - intros r1 r2 [<- | [<- | []]] [<- | [<- | []]] [H1 H2];
      vm_compute in H1, H2; discriminate.
  - intros r1 r2 [<- | [<- | []]] [<- | [<- | []]]; split; intros H1 H2;
      vm_compute in H1, H2; try discriminate; reflexivity.
Defined.

(** C1, as stated, fails: of two files with emission intervals 2 and 4
    and excitation intervals 10 and 20, the grids returned are those of
    the first, with the intervals 2 and 10, the smaller ones. *)
Lemma read_eem_dataset_finest_grid_counterexample :
  exists t stack indexes,
    @read_eem_dataset decimal example_processing "data" two_resolutions_folder
                      "PEM.dat" aqualog None None true "linear" =
      (t, Ok (stack, [240; 250; 260]%Z, [Fin 300; Fin 302; Fin 304], indexes)) /\
    @reads_well_formed decimal "data" two_resolutions_folder aqualog "a_PEM.dat" fine_record /\
    @reads_well_formed decimal "data" two_resolutions_folder aqualog "b_PEM.dat" coarse_record /\
    interval [Fin 300; Fin 302; Fin 304] = Ok (Fin 2) /\
    interval (em_of coarse_record) = Ok (Fin 4) /\
    interval_ex [240; 250; 260]%Z = Ok (Fin 10) /\
    interval_ex (ex_of coarse_record) = Ok (Fin 20) /\
    lt_interval (interval [Fin 300; Fin 302; Fin 304]) (interval (em_of coarse_record)) = true /\
    lt_interval (interval_ex [240; 250; 260]%Z) (interval_ex (ex_of coarse_record)) = true.
Proof.
  eexists _, _, _. split; [vm_compute; reflexivity |].
  split; [exists eem_fine; split; [| split]; vm_compute; reflexivity |].
  split; [exists eem_coarse; split; [| split]; vm_compute; reflexivity |].
  repeat split; vm_compute; reflexivity.
Qed.

(** Where a file is finer on one axis and coarser on the other, the
    stack is interpolated onto the finer emission grid of the second file
    and the emission grid returned is that of the first: two wavelengths
    for slices of three columns. *)
Example read_eem_dataset_mixed_resolutions :
  exists t slices indexes,
    @read_eem_dataset decimal example_processing "data"
      [("a_PEM.dat", text_of ["240 250 260"; "300 1 2 3"; "304 4 5 6"]);
       ("b_PEM.dat", text_of ["240 260"; "300 1 2"; "302 3 4"; "304 5 6"])]
      "PEM.dat" aqualog None None true "linear" =
    (t, Ok (mk_stack 3 3 slices, [240; 250; 260]%Z, [Fin 300; Fin 304], indexes)).
Proof. eexists _, _, _. vm_compute. reflexivity. Qed.

(** ** [read_abs_dataset] *)

Lemma abs_round_grid `{PyFloat} `{Scipy} (folder_path : string) (folder : directory)
  (data_format : string) (index_pos : option (nat * nat)) (wavelength_alignment : bool)
  (interpolation_method : string) (num_datfile : nat) (st st' : abs_state) (n : nat)
  (filename : string) (t : trace) :
  abs_round folder_path folder data_format index_pos wavelength_alignment
            interpolation_method num_datfile st n filename = (t, Ok st') ->
  exists text t' absorbance index,
    open_file folder filename = Ok text /\
    read_abs (path_of folder_path filename) text index_pos data_format =
      (t', Ok (absorbance, abs_ex_range_old st', index)).
Proof.
  unfold abs_round.
  destruct (open_file folder filename) as [text | |]; cbn [lift bind]; try discriminate.
  destruct (read_abs _ text index_pos data_format)
    as [t1 [[[absorbance ex] index] | |]] eqn:Eread; cbn [bind]; try discriminate.
  match goal with |- context [bind ?m _] => destruct m as [t2 [[s a] | |]] end;
    cbn [bind]; try discriminate.
  destruct (set_row s n a); cbn [lift bind ret]; try discriminate.
  intros E. injection E as _ <-. cbn [abs_ex_range_old].
  exists text, t1, absorbance, index. split; [reflexivity | exact Eread].
Qed.

Lemma abs_loop_grid `{PyFloat} `{Scipy} (folder_path : string) (folder : directory)
  (data_format : string) (index_pos : option (nat * nat)) (wavelength_alignment : bool)
  (interpolation_method : string) (num_datfile : nat) (filenames : list string) :
  forall (n : nat) (st st' : abs_state) (t : trace) (first : string),
    abs_loop folder_path folder data_format index_pos wavelength_alignment
             interpolation_method num_datfile filenames n st = (t, Ok st') ->
    (filenames = [] /\ st' = st) \/
    exists text t' absorbance index,
      open_file folder (last filenames first) = Ok text /\
      read_abs (path_of folder_path (last filenames first)) text index_pos data_format =
        (t', Ok (absorbance, abs_ex_range_old st', index)).
Proof.
  induction filenames as [| name filenames IH]; intros n st st' t first E.
  - left. cbn in E. injection E as _ <-. split; reflexivity.
  - right. cbn [abs_loop] in E.
    destruct (abs_round _ _ _ _ _ _ _ st n name) as [t1 [st1 | |]] eqn:E1;
      cbn [bind] in E; try discriminate.
    destruct (abs_loop _ _ _ _ _ _ _ filenames (S n) st1) as [t2 [st2 | |]] eqn:E2;
      try discriminate.
    injection E as _ <-.
    destruct (IH _ _ _ _ first E2) as [[-> ->] | Hlast].
    + apply abs_round_grid in E1. exact E1.
    + destruct filenames as [| name' filenames]; [cbn in E2 |].
      * injection E2 as _ <-. apply abs_round_grid in E1. exact E1.
      * cbn [last] in *. exact Hlast.
Qed.

(** X1. [read_abs_dataset] returns, as excitation grid, the grid of the
    last file of the list, whatever the intervals of the files and with
    or without alignment. *)
Theorem read_abs_dataset_last_grid `{PyFloat} `{Scipy} (folder_path : string)
  (folder : directory) (kw data_format : string) (index_pos : option (nat * nat))
  (custom_filename_list : option (list string)) (wavelength_alignment : bool)
  (interpolation_method : string) (t : trace) (abs_stack : ndarray)
  (ex_range : list float) (filename_list : list string) (indexes : list (option string)) :
  read_abs_dataset folder_path folder kw data_format index_pos custom_filename_list
                   wavelength_alignment interpolation_method =
    (t, Ok (abs_stack, ex_range, filename_list, indexes)) ->
  filename_list = filename_list_of folder kw custom_filename_list /\
  exists text t' absorbance index,
    open_file folder (last filename_list EmptyString) = Ok text /\
    read_abs (path_of folder_path (last filename_list EmptyString)) text index_pos
             data_format = (t', Ok (absorbance, ex_range, index)).
Proof.
  unfold read_abs_dataset.
  destruct (filename_list_of folder kw custom_filename_list) as [| name names];
    [discriminate |].
  destruct (open_file folder name) as [text | |] eqn:Eopen; cbn [lift bind]; try discriminate.
  destruct (read_abs _ text index_pos data_format)
    as [t1 [[[absorbance ex] index] | |]] eqn:Eread; cbn [bind]; try discriminate.
  destruct (set_row _ 0 absorbance) as [s | |]; cbn [lift bind]; try discriminate.
  destruct (abs_loop _ _ _ _ _ _ _ names 1 _) as [t2 [st | |]] eqn:Eloop;
    cbn [bind ret]; try discriminate.
  intros E. injection E as _ <- <- <- <-. split; [reflexivity |].
  destruct (abs_loop_grid _ _ _ _ _ _ _ _ _ _ _ _ EmptyString Eloop) as [[-> ->] | Hlast].
  - cbn [last abs_ex_range_old]. exists text, t1, absorbance, index. split; assumption.
  - destruct names as [| name' names]; [cbn in Eloop |].
    + injection Eloop as _ <-. cbn [last abs_ex_range_old].
      exists text, t1, absorbance, index. split; assumption.
    + cbn [last] in *. exact Hlast.
Qed.

Lemma read_abs_dataset_last_grid_witness :
  ["a_ABS.dat"; "b_ABS.dat"] = filename_list_of abs_folder "ABS.dat" None /\
  exists text t' absorbance index,
    open_file abs_folder "b_ABS.dat" = Ok text /\
    @read_abs decimal "data/b_ABS.dat" text None aqualog =
      (t', Ok (absorbance, [Fin 260; Fin 240], index)).
Proof.
  apply (@read_abs_dataset_last_grid decimal example_scipy "data" abs_folder "ABS.dat"
           aqualog None None true "linear" [Called Call_interp1d]
           (mk_ndarray 2 3 [[Fin (3 # 10); Fin (2 # 5); Fin (1 # 2)];
                            [Fin (7 # 10); Fin (7 # 10); Fin (9 # 10)]])
           [Fin 260; Fin 240] ["a_ABS.dat"; "b_ABS.dat"] [None; None]).
  vm_compute. reflexivity.
Defined.



(* ================================================================= *)
(** * Part III: more properties of the readers *)
(* ================================================================= *)

(** ** [read_eem] on any file *)

Lemma np_zeros_well_shaped (r c : nat) : well_shaped (np_zeros r c).
Proof.
  unfold well_shaped, np_zeros; cbn [rows shape0 shape1]. split.
  - apply repeat_length.
  - apply Forall_forall. intros x Hx. apply repeat_spec in Hx. subst x. apply repeat_length.
Qed.

(** The loop keeps the array well shaped and its number of columns, and
    adds at most one row for each wavelength that joins [idx]. *)
Lemma read_eem_rows_shape `{PyFloat} (f : list string) :
  forall (idx : list float) (data : ndarray) (t : trace) (idx' : list float)
         (data' : ndarray),
    well_shaped data ->
    read_eem_rows f idx data = (t, Ok (idx', data')) ->
    well_shaped data' /\ shape1 data' = shape1 data /\
    shape0 data' + length idx <= shape0 data + length idx'.
Proof.
  induction f as [| line f IH]; intros idx data t idx' data' Hw E.
  - cbn in E. injection E as _ <- <-. repeat split; try apply Hw. lia.
  - cbn [read_eem_rows] in E.
    destruct (is_empty line).
    { cbn in E. injection E as _ <- <-. repeat split; try apply Hw. lia. }
    destruct (split line) as [| t0 tokens]; [discriminate |].
    destruct (py_float t0) as [e |]; [| apply (IH _ _ _ _ _ Hw E)].
    destruct (map_float tokens) as [values |].
    + unfold np_concatenate in E. cbn [np_array_row shape1 shape0 rows] in E.
      destruct (Nat.eqb_spec (shape1 data) (length values)) as [El | _].
      * apply IH in E.
        -- destruct E as (W & S1 & S0). cbn [shape0 shape1] in S1, S0.
           rewrite length_app in S0. cbn [length] in S0.
           repeat split; try apply W; [exact S1 | lia].
        -- destruct Hw as [Hr Hc]. unfold well_shaped; cbn [rows shape0 shape1]. split.
           ++ rewrite length_app, Hr. reflexivity.
           ++ apply Forall_app. split; [exact Hc |]. constructor; [| constructor].
              symmetry. exact El.
      * cbn in E. injection E as _ <- <-. rewrite length_app. cbn [length].
        repeat split; try apply Hw. lia.
    + apply IH in E; [| exact Hw]. destruct E as (W & S1 & S0).
      rewrite length_app in S0. cbn [length] in S0.
      repeat split; try apply W; [exact S1 | lia].
Qed.

Lemma read_eem_returns_aqualog `{PyFloat} (file_path text : string)
  (index_pos : option (nat * nat)) (data_format : string) (t : trace) (r : eem_record) :
  read_eem file_path text index_pos data_format = (t, Ok r) -> data_format = aqualog.
Proof.
  intros E. destruct (String.eqb data_format aqualog) eqn:Ef.
  - apply String.eqb_eq. exact Ef.
  - unfold read_eem in E. rewrite Ef in E. discriminate.
Qed.

(** X2. Whatever the file, when [read_eem] returns, the intensity array is
    well shaped, it has one row per excitation wavelength returned and at
    most one column per emission wavelength returned, both grids have two
    points at least, nothing is called, and the index is the one of the
    file name. *)
Theorem read_eem_returns `{PyFloat} (file_path text : string)
  (index_pos : option (nat * nat)) (data_format : string) (t : trace)
  (intensity : ndarray) (ex_range : list Z) (em_range : list float)
  (index : option string) :
  read_eem file_path text index_pos data_format =
    (t, Ok (intensity, ex_range, em_range, index)) ->
  well_shaped intensity /\
  shape0 intensity = length ex_range /\
  shape1 intensity <= length em_range /\
  2 <= length ex_range /\ 2 <= length em_range /\
  length ex_range = length (header_of text) /\
  calls_of t = [] /\
  index = index_of file_path index_pos.
Proof.
  intros E. pose proof (read_eem_returns_aqualog _ _ _ _ _ _ E) as ->.
  pose proof (read_eem_grids _ _ _ _ _ _ _ _ _ E) as [G1 G2].
  pose proof (read_eem_no_calls file_path text index_pos aqualog) as Hc.
  rewrite E in Hc. cbn [fst] in Hc.
  rewrite read_eem_aqualog in E.
  destruct (read_eem_rows (data_lines text) [] _) as [t1 [[idx data] | |]] eqn:Er;
    cbn [bind fst snd] in E; try discriminate.
  destruct (ascending_em idx) as [em | |] eqn:E1; cbn [lift bind] in E; try discriminate.
  destruct (ascending_ex (header_of text)) as [ex | |] eqn:E2;
    cbn [lift bind ret] in E; try discriminate.
  injection E as _ <- <- <- <-.
  apply read_eem_rows_shape in Er; [| apply np_zeros_well_shaped].
  destruct Er as ([Wr Wc] & S1 & S0). cbn [np_zeros shape0 shape1 length] in S1, S0.
  apply ascending_em_length in E1 as [L1 _].
  apply ascending_ex_length in E2 as [L2 _].
  split; [| split; [| split; [| repeat split; try assumption]]].
  - apply well_shaped_transpose. unfold drop_first_row; cbn [rows shape0].
    destruct (rows data) as [| r0 rs]; cbn [length tl] in *; lia.
  - unfold transpose, drop_first_row; cbn [shape0 shape1]. rewrite S1, L2. reflexivity.
  - unfold transpose, drop_first_row; cbn [shape0 shape1]. rewrite L1. lia.
Qed.

Lemma read_eem_returns_witness :
  well_shaped (mk_ndarray 2 1 [[Fin 1]; [Fin 2]]) /\
  shape0 (mk_ndarray 2 1 [[Fin 1]; [Fin 2]]) = length [240; 250]%Z /\
  shape1 (mk_ndarray 2 1 [[Fin 1]; [Fin 2]]) <= length [Fin 300; Fin 301; Fin 302] /\
  2 <= length [240; 250]%Z /\ 2 <= length [Fin 300; Fin 301; Fin 302] /\
  length [240; 250]%Z = length (header_of eem_dropped_row) /\
  calls_of (mismatch_report 4 1) = [] /\
  @None string = index_of "EEM.dat" None.
Proof.
  apply (@read_eem_returns decimal "EEM.dat" eem_dropped_row None aqualog
           (mismatch_report 4 1) (mk_ndarray 2 1 [[Fin 1]; [Fin 2]])
           [240; 250]%Z [Fin 300; Fin 301; Fin 302] None).
  vm_compute. reflexivity.
Defined.

(** ** [read_eem] on a blank line *)

Lemma split_blank (s : string) : blank s = true -> split s = [].
Proof.
  unfold split. induction s as [| c s IH]; [reflexivity |].
  cbn [blank split_from]. intros Hb. apply andb_true_iff in Hb as [Hc Hs].
  rewrite Hc. cbn [is_empty]. apply IH. exact Hs.
Qed.

Lemma data_lines_nonempty (text : string) :
  Forall (fun l => is_empty l = false) (data_lines text).
Proof.
  unfold data_lines. pose proof (readlines_nonempty text) as Hn.
  destruct (readlines text) as [| l f]; cbn [readline snd]; [constructor |].
  inversion Hn. assumption.
Qed.

(** X3. A line of blanks only under the header (an empty line at the end
    of the file, say), reached without a break of the loop, makes
    [read_eem] raise [IndexError]: [(line.split())[0]] is outside the
    [try]. Nothing is printed. *)
Theorem read_eem_blank_line `{PyFloat} (file_path text : string)
  (index_pos : option (nat * nat)) (pre post : list string) (line : string) :
  data_lines text = pre ++ line :: post ->
  forallb (passes (length (header_of text))) pre = true ->
  blank line = true ->
  read_eem file_path text index_pos aqualog = ([], Raise IndexError).
Proof.
  intros Hd Hp Hb. rewrite read_eem_aqualog, Hd.
  rewrite read_eem_rows_passes by exact Hp.
  pose proof (data_lines_nonempty text) as Hn. rewrite Hd in Hn.
  apply Forall_app in Hn as [_ Hn]. inversion Hn as [| ? ? Hl _]; subst.
  cbn [read_eem_rows]. rewrite Hl, (split_blank _ Hb). reflexivity.
Qed.

Lemma read_eem_blank_line_witness :
  @read_eem decimal "EEM.dat" (text_of ["240 250"; "300 1.0 2.0"; "301 3.5 4"; " "])
            None aqualog = ([], Raise IndexError).
Proof.
  apply (@read_eem_blank_line decimal "EEM.dat"
           (text_of ["240 250"; "300 1.0 2.0"; "301 3.5 4"; " "]) None
           (map (fun l => String.append l nl) ["300 1.0 2.0"; "301 3.5 4"])
           [] (String.append " " nl)).
  - vm_compute. reflexivity.
  - vm_compute. reflexivity.
  - vm_compute. reflexivity.
Defined.

(** ** [read_eem] on a header stored descending *)

(** X4. For a well-formed EEM file whose header is stored descending (its
    first wavelength exceeds its second) and that has two rows at least,
    [read_eem] returns the excitation grid reversed and the intensity
    array in the order of the file: row [i] of the array holds the values
    of column [i] of the file, measured at the wavelength [header[i]],
    which the returned grid has at position [N - 1 - i]. *)
Theorem read_eem_descending_excitation `{PyFloat} (file_path text : string)
  (index_pos : option (nat * nat)) (h0 h1 : Z) (hs : list Z) :
  well_formed_eem text = true ->
  2 <= length (raw_emission text) ->
  header_of text = h0 :: h1 :: hs ->
  (h1 < h0)%Z ->
  exists intensity ex_range em_range,
    read_eem file_path text index_pos aqualog =
      ([], Ok (intensity, ex_range, em_range, index_of file_path index_pos)) /\
    ex_range = rev (header_of text) /\
    intensity = transpose (raw_table text) /\
    forall i j, i < length (header_of text) ->
      item intensity i j = item (raw_table text) j i /\
      nth (length (header_of text) - 1 - i) ex_range 0%Z = nth i (header_of text) 0%Z.
Proof.
  intros Hw Hem Hh Hlt.
  destruct (ascending_em_total _ Hem) as [em E1].
  exists (transpose (raw_table text)), (rev (header_of text)), em.
  rewrite read_eem_well_formed by exact Hw.
  assert (E2 : ascending_ex (header_of text) = Ok (rev (header_of text))).
  { rewrite Hh. unfold ascending_ex. apply Z.ltb_lt in Hlt. rewrite Hlt. reflexivity. }
  rewrite E1, E2. cbn [bind lift ret app].
  split; [reflexivity |]. split; [reflexivity |]. split; [reflexivity |].
  intros i j Hi. split.
  - apply item_transpose. exact Hi.
  - rewrite rev_nth by lia. f_equal. lia.
Qed.

Lemma read_eem_descending_excitation_witness :
  exists intensity ex_range em_range,
    @read_eem decimal "EEM.dat" (text_of ["250 240"; "300 1.0 2.0"; "301 3.5 4"])
              None aqualog =
      ([], Ok (intensity, ex_range, em_range, index_of "EEM.dat" None)) /\
    ex_range = rev (header_of (text_of ["250 240"; "300 1.0 2.0"; "301 3.5 4"])) /\
    intensity =
      transpose (@raw_table decimal (text_of ["250 240"; "300 1.0 2.0"; "301 3.5 4"])) /\
    forall i j, i < length (header_of (text_of ["250 240"; "300 1.0 2.0"; "301 3.5 4"])) ->
      item intensity i j =
        item (@raw_table decimal (text_of ["250 240"; "300 1.0 2.0"; "301 3.5 4"])) j i /\
      nth (length (header_of (text_of ["250 240"; "300 1.0 2.0"; "301 3.5 4"])) - 1 - i)
          ex_range 0%Z =
        nth i (header_of (text_of ["250 240"; "300 1.0 2.0"; "301 3.5 4"])) 0%Z.
Proof.
  apply (@read_eem_descending_excitation decimal "EEM.dat"
           (text_of ["250 240"; "300 1.0 2.0"; "301 3.5 4"]) None 250%Z 240%Z []).
  - vm_compute. reflexivity.
  - vm_compute. lia.
  - vm_compute. reflexivity.
  - lia.
Defined.

(** ** The lines that [read_eem] skips *)

Lemma read_eem_rows_kept `{PyFloat} (f : list string) :
  Forall (fun l => is_empty l = false) f ->
  forall (idx : list float) (data : ndarray),
    read_eem_rows f idx data = read_eem_rows (filter kept f) idx data.
Proof.
  induction 1 as [| line f Hl _ IH]; intros idx data; [reflexivity |].
  cbn [filter]. unfold kept at 1, classify.
  cbn [read_eem_rows]. rewrite Hl.
  destruct (split line) as [| t0 tokens] eqn:Es.
  - cbn [read_eem_rows]. rewrite Hl, Es. reflexivity.
  - destruct (py_float t0) as [e |] eqn:E0; [| apply IH].
    destruct (map_float tokens) as [values |] eqn:Ev;
      cbn [read_eem_rows]; rewrite Hl, Es, E0, Ev; [| apply IH].
    destruct (np_concatenate data (np_array_row values)); [apply IH | reflexivity ..].
Qed.

(** X5. The lines under the header whose first token is no float (titles,
    comments, units) count for nothing, wherever they stand: two files
    with the same header and, these lines apart, the same lines are read
    the same by [read_eem], prints and errors included. *)
Theorem read_eem_skips_text_lines `{PyFloat} (file_path text1 text2 : string)
  (index_pos : option (nat * nat)) (data_format : string) :
  header_of text1 = header_of text2 ->
  filter kept (data_lines text1) = filter kept (data_lines text2) ->
  read_eem file_path text1 index_pos data_format =
  read_eem file_path text2 index_pos data_format.
Proof.
  intros Hh Hk. destruct (String.eqb data_format aqualog) eqn:Ef.
  - apply String.eqb_eq in Ef. subst data_format.
    rewrite !read_eem_aqualog.
    rewrite (read_eem_rows_kept (data_lines text1)) by apply data_lines_nonempty.
    rewrite (read_eem_rows_kept (data_lines text2)) by apply data_lines_nonempty.
    rewrite Hh, Hk. reflexivity.
  - unfold read_eem. rewrite Ef. reflexivity.
Qed.

Lemma read_eem_skips_text_lines_witness :
  @read_eem decimal "EEM.dat"
     (text_of ["240 250"; "nm a b"; "300 1.0 2.0"; "# second row"; "301 3.5 4"; "302 5 6"])
     None aqualog =
  @read_eem decimal "EEM.dat" eem_2x3 None aqualog.
Proof.
  apply (@read_eem_skips_text_lines decimal "EEM.dat"
           (text_of ["240 250"; "nm a b"; "300 1.0 2.0"; "# second row"; "301 3.5 4";
                     "302 5 6"])
           eem_2x3 None aqualog).
  - vm_compute. reflexivity.
  - vm_compute. reflexivity.
Defined.

(** ** The indexes of [read_eem_dataset] *)

Lemma basename_from_no_slash (s : string) :
  forall cur, no_slash s = true -> basename_from cur s = String.append cur s.
Proof.
  induction s as [| c s IH]; intros cur Hs; cbn [basename_from].
  - clear. induction cur as [| a cur IH]; cbn; [reflexivity | f_equal; exact IH].
  - cbn [no_slash] in Hs. apply andb_true_iff in Hs as [Hc Hs].
    apply negb_true_iff in Hc. rewrite Hc, IH by exact Hs.
    unfold snoc. clear. induction cur as [| a cur IH]; cbn; [reflexivity | f_equal; exact IH].
Qed.

Lemma basename_from_slash (s1 s2 : string) :
  forall cur,
    basename_from cur (String.append s1 (String "/"%char s2)) = basename_from EmptyString s2.
Proof.
  induction s1 as [| c s1 IH]; intros cur; cbn [String.append basename_from].
  - reflexivity.
  - destruct (Ascii.eqb c "/"%char); apply IH.
Qed.

(** The base name of [folder_path + '/' + name] is [name], when [name] has
    no slash. *)
Lemma basename_path_of (folder_path name : string) :
  no_slash name = true -> basename (path_of folder_path name) = name.
Proof.
  intros Hn. unfold basename, path_of. cbn [String.append].
  rewrite basename_from_slash. apply (basename_from_no_slash name EmptyString Hn).
Qed.

Lemma read_eem_index `{PyFloat} (file_path text : string)
  (index_pos : option (nat * nat)) (data_format : string) (t : trace)
  (intensity : ndarray) (ex_range : list Z) (em_range : list float)
  (index : option string) :
  read_eem file_path text index_pos data_format =
    (t, Ok (intensity, ex_range, em_range, index)) ->
  index = index_of file_path index_pos.
Proof.
  rewrite read_eem_index_pos.
  destruct (snd (read_eem file_path text None data_format)) as [[[[i ex] em] ix] | |];
    intros E; try discriminate.
  injection E as _ _ _ _ <-. reflexivity.
Qed.

Lemma dataset_round_indexes `{PyFloat} `{EemProcessing} (folder_path : string)
  (folder : directory) (data_format : string) (wavelength_alignment : bool)
  (interpolation_method : string) (st st' : dataset_state) (n : nat)
  (filename : string) (t : trace) :
  dataset_round folder_path folder data_format wavelength_alignment
                interpolation_method st n filename = (t, Ok st') ->
  st_indexes st' = st_indexes st ++ [None].
Proof.
  unfold dataset_round.
  destruct (open_file folder filename) as [text | |]; cbn [lift bind]; try discriminate.
  destruct (read_eem _ text None data_format)
    as [t1 [[[[intensity ex] em] index] | |]] eqn:Eread; cbn [bind]; try discriminate.
  match goal with |- context [bind ?m _] =>
    destruct m as [t2 [[[[s i'] ex'] em'] | |]] end; cbn [bind]; try discriminate.
  destruct (insert_slice s n i' filename) as [t3 [s' | |]]; cbn [bind ret];
    try discriminate.
  intros E. injection E as _ <-. cbn [st_indexes].
  apply read_eem_index in Eread. rewrite Eread. reflexivity.
Qed.

Lemma dataset_loop_indexes `{PyFloat} `{EemProcessing} (folder_path : string)
  (folder : directory) (data_format : string) (wavelength_alignment : bool)
  (interpolation_method : string) (filenames : list string) :
  forall (n : nat) (st st' : dataset_state) (t : trace),
    dataset_loop folder_path folder data_format wavelength_alignment
                 interpolation_method filenames n st = (t, Ok st') ->
    st_indexes st' = st_indexes st ++ repeat None (length filenames).
Proof.
  induction filenames as [| name filenames IH]; intros n st st' t E.
  - cbn in E. injection E as _ <-. cbn. rewrite app_nil_r. reflexivity.
  - cbn [dataset_loop] in E.
    destruct (dataset_round _ _ _ _ _ st n name) as [t1 [st1 | |]] eqn:E1;
      cbn [bind] in E; try discriminate.
    destruct (dataset_loop _ _ _ _ _ filenames (S n) st1) as [t2 [st2 | |]] eqn:E2;
      try discriminate.
    injection E as _ <-.
    apply IH in E2. apply dataset_round_indexes in E1.
    rewrite E2, E1, <- app_assoc. reflexivity.
Qed.

(** X6. Whenever [read_eem_dataset] returns, [indexes] has one entry per
    file of the list, and the first file only has an index: it is the
    part of its name from [index_pos[0]] to [index_pos[1]], and every
    later entry is [None], whatever [index_pos] is, since the files after
    the first are read without it. *)
Theorem read_eem_dataset_indexes `{PyFloat} `{EemProcessing} (folder_path : string)
  (folder : directory) (kw data_format : string) (index_pos : option (nat * nat))
  (custom_filename_list : option (list string)) (wavelength_alignment : bool)
  (interpolation_method : string) (name : string) (names : list string) (t : trace)
  (stack : eem_stack) (ex_range : list Z) (em_range : list float)
  (indexes : list (option string)) :
  filename_list_of folder kw custom_filename_list = name :: names ->
  no_slash name = true ->
  read_eem_dataset folder_path folder kw data_format index_pos custom_filename_list
                   wavelength_alignment interpolation_method =
    (t, Ok (stack, ex_range, em_range, indexes)) ->
  indexes = name_index index_pos name :: repeat None (length names).
Proof.
  unfold read_eem_dataset. intros Hl Hn E. rewrite Hl in E.
  destruct (open_file folder name) as [text | |]; cbn [lift bind] in E; try discriminate.
  destruct (read_eem _ text index_pos data_format)
    as [t1 [[[[intensity ex] em] index] | |]] eqn:Eread; cbn [bind] in E;
    try discriminate.
  destruct (set_slice _ 0 intensity) as [stack0 | |]; cbn [lift bind] in E;
    try discriminate.
  destruct (dataset_loop _ _ _ _ _ names 1 _) as [t2 [st | |]] eqn:Eloop;
    cbn [bind ret] in E; try discriminate.
  injection E as _ _ _ _ <-.
  apply dataset_loop_indexes in Eloop. rewrite Eloop. cbn [st_indexes app].
  apply read_eem_index in Eread. rewrite Eread. unfold index_of.
  rewrite (basename_path_of _ _ Hn). reflexivity.
Qed.

Lemma read_eem_dataset_indexes_witness :
  snd (@read_eem_dataset decimal example_processing "data" same_grid_folder "PEM.dat"
         aqualog (Some (0, 4)) None true "linear") =
    Ok (mk_stack 2 3
          [mk_ndarray 2 3 [[Fin 1; Fin 3; Fin 5]; [Fin 2; Fin 4; Fin 6]];
           mk_ndarray 2 3 [[Fin 7; Fin 9; Fin 11]; [Fin 8; Fin 10; Fin 12]]],
        [240; 250]%Z, [Fin 300; Fin 302; Fin 304], [Some "a_PEM"; None]) /\
  [Some "a_PEM"; None] =
    name_index (Some (0, 4)) "a_PEM.dat" :: repeat None (length ["b_PEM.dat"]).
Proof.
  split; [vm_compute; reflexivity |].
  apply (@read_eem_dataset_indexes decimal example_processing "data" same_grid_folder
           "PEM.dat" aqualog (Some (0, 4)) None true "linear" "a_PEM.dat" ["b_PEM.dat"]
           []
           (mk_stack 2 3
              [mk_ndarray 2 3 [[Fin 1; Fin 3; Fin 5]; [Fin 2; Fin 4; Fin 6]];
               mk_ndarray 2 3 [[Fin 7; Fin 9; Fin 11]; [Fin 8; Fin 10; Fin 12]]])
           [240; 250]%Z [Fin 300; Fin 302; Fin 304] [Some "a_PEM"; None]).
  - vm_compute. reflexivity.
  - vm_compute. reflexivity.
  - vm_compute. reflexivity.
Defined.

(** ** [read_eem_dataset] without alignment *)

Lemma last_cons_default {A : Type} (x : A) (l : list A) (d : A) :
  last (x :: l) d = last l x.
Proof.
  revert x d. induction l as [| y l IH]; intros x d; [reflexivity |].
  change (last (x :: y :: l) d) with (last (y :: l) d).
  rewrite (IH y d), (IH y x). reflexivity.
Qed.

Lemma insert_slice_stored (d1 d2 : nat) (done rest : list ndarray) (a : ndarray)
  (name : string) :
  insert_slice (mk_stack d1 d2 (done ++ np_zeros d1 d2 :: rest)) (length done) a name =
  ((if broadcastable a d1 d2 then [] else [check_dimension name]),
   Ok (mk_stack d1 d2 (done ++ stored d1 d2 a :: rest))).
Proof.
  unfold insert_slice, set_slice, stored; cbn [slices dim1 dim2].
  destruct (Nat.leb_spec (length (done ++ np_zeros d1 d2 :: rest)) (length done))
    as [Hle | _].
  { rewrite length_app in Hle. cbn [length] in Hle. lia. }
  destruct ((shape0 a =? d1) && (shape1 a =? d2)) eqn:Ee.
  - rewrite replace_nth_app.
    apply andb_true_iff in Ee as [E0 E1]. unfold broadcastable. rewrite E0, E1.
    reflexivity.
  - destruct (broadcastable a d1 d2); [rewrite replace_nth_app |]; reflexivity.
Qed.

Lemma dataset_loop_unaligned `{PyFloat} `{EemProcessing} (folder_path : string)
  (folder : directory) (data_format interpolation_method : string) (d1 d2 : nat) :
  forall (filenames : list string) (rs : list eem),
    Forall2 (reads_as folder_path folder data_format) filenames rs ->
    forall (done : list ndarray) (indexes : list (option string)) (r0 : eem),
    exists t indexes',
      dataset_loop folder_path folder data_format false interpolation_method
                   filenames (length done)
                   (mk_state (mk_stack d1 d2
                                (done ++ repeat (np_zeros d1 d2) (length filenames)))
                             indexes (em_of r0) (ex_of r0)) =
      (t, Ok (mk_state (mk_stack d1 d2
                          (done ++ map (fun r => stored d1 d2 (array_of r)) rs))
                       indexes' (em_of (last rs r0)) (ex_of (last rs r0)))) /\
      calls_of t = [] /\
      Forall2 (fun name r =>
                 broadcastable (array_of r) d1 d2 = false -> In (check_dimension name) t)
              filenames rs.
Proof.
  induction 1 as [| name r filenames rs Hr _ IH]; intros done indexes r0.
  - exists [], indexes. cbn. rewrite app_nil_r. repeat split. constructor.
  - destruct Hr as (text & t0 & Hopen & Hread). destruct r as [[a ex] em].
    cbn [dataset_loop length repeat]. unfold dataset_round.
    rewrite Hopen. cbn [lift bind]. rewrite Hread.
    cbn [bind ret st_stack em_range_old ex_range_old st_indexes app].
    rewrite insert_slice_stored. cbn [bind ret].
    destruct (IH (done ++ [stored d1 d2 a]) (indexes ++ [None]) (a, ex, em))
      as (t & indexes' & E & Hc & Hp).
    rewrite length_app in E. cbn [length] in E. rewrite Nat.add_1_r in E.
    rewrite <- !app_assoc in E. cbn [app] in E.
    change (em_of (a, ex, em)) with em in E. change (ex_of (a, ex, em)) with ex in E.
    rewrite E. eexists _, indexes'.
    rewrite last_cons_default. cbn [map array_of fst]. split; [reflexivity |]. split.
    + rewrite !calls_of_app, Hc, app_nil_r.
      pose proof (read_eem_no_calls (path_of folder_path name) text None data_format) as Hn.
      rewrite Hread in Hn. cbn [fst] in Hn. rewrite Hn.
      destruct (broadcastable a d1 d2); reflexivity.
    + constructor.
      * cbn [array_of fst]. intros Hb. rewrite Hb, !in_app_iff. cbn [In]. auto.
      * clear - Hp. induction Hp as [| n' r' ns rs' Hh _ IHp]; constructor.
        -- intros Hb. rewrite !in_app_iff. auto.
        -- exact IHp.
Qed.

(** X7. [read_eem_dataset] without [wavelength_alignment], on files that
    [read_eem] reads: nothing is interpolated; the stack has the shape of
    the array of the first file; the slice of a later file holds its
    array when it has that shape (or one that broadcasts to it), and is
    left at zero, with a line printed, when it has not; the grids
    returned are those of the last file, whatever its shape. *)
Theorem read_eem_dataset_unaligned `{PyFloat} `{EemProcessing} (folder_path : string)
  (folder : directory) (kw data_format : string) (index_pos : option (nat * nat))
  (custom_filename_list : option (list string)) (interpolation_method : string)
  (name : string) (names : list string) (r : eem) (rs : list eem) :
  filename_list_of folder kw custom_filename_list = name :: names ->
  reads_as folder_path folder data_format name r ->
  Forall2 (reads_as folder_path folder data_format) names rs ->
  exists t indexes,
    read_eem_dataset folder_path folder kw data_format index_pos custom_filename_list
                     false interpolation_method =
      (t, Ok (mk_stack (shape0 (array_of r)) (shape1 (array_of r))
                (array_of r ::
                 map (fun r' => stored (shape0 (array_of r)) (shape1 (array_of r))
                                       (array_of r')) rs),
              ex_of (last rs r), em_of (last rs r), indexes)) /\
    calls_of t = [] /\
    Forall2 (fun name' r' =>
               broadcastable (array_of r') (shape0 (array_of r)) (shape1 (array_of r))
                 = false ->
               In (check_dimension name') t)
            names rs.
Proof.
  intros Hlist (text & t0 & Hopen & Hread) Hall. destruct r as [[a ex] em].
  cbn [array_of fst].
  unfold read_eem_dataset. rewrite Hlist, Hopen. cbn [lift bind].
  rewrite read_eem_index_pos, Hread. cbn [fst snd bind].
  unfold stack_zeros. cbn [length repeat].
  pose proof (set_slice_next (shape0 a) (shape1 a) []
                (repeat (np_zeros (shape0 a) (shape1 a)) (length names))
                (np_zeros (shape0 a) (shape1 a)) a eq_refl) as Hs0.
  cbn [app length] in Hs0. rewrite Hs0. cbn [bind app].
  destruct (dataset_loop_unaligned folder_path folder data_format interpolation_method
              (shape0 a) (shape1 a) names rs Hall [a]
              [index_of (path_of folder_path name) index_pos] (a, ex, em))
    as (t & indexes & E & Hc & Hp).
  cbn [length app] in E.
  change (em_of (a, ex, em)) with em in E. change (ex_of (a, ex, em)) with ex in E.
  rewrite E. cbn [bind ret st_stack ex_range_old em_range_old st_indexes].
  eexists _, indexes. split; [reflexivity |]. split.
  - rewrite !calls_of_app, Hc, app_nil_r.
    pose proof (read_eem_no_calls (path_of folder_path name) text None data_format) as Hn.
    rewrite Hread in Hn. cbn [fst] in Hn. rewrite Hn. reflexivity.
  - clear - Hp. induction Hp as [| n' r' ns rs' Hh _ IHp]; constructor.
    + intros Hb. rewrite !in_app_iff. auto.
    + exact IHp.
Qed.

Lemma read_eem_dataset_unaligned_witness :
  exists t indexes,
    @read_eem_dataset decimal example_processing "data" two_resolutions_folder "PEM.dat"
                      aqualog None None false "linear" =
      (t, Ok (mk_stack (shape0 (array_of fine_record)) (shape1 (array_of fine_record))
                (array_of fine_record ::
                 map (fun r' => stored (shape0 (array_of fine_record))
                                       (shape1 (array_of fine_record)) (array_of r'))
                     [coarse_record]),
              ex_of (last [coarse_record] fine_record),
              em_of (last [coarse_record] fine_record), indexes)) /\
    calls_of t = [] /\
    Forall2 (fun name' r' =>
               broadcastable (array_of r') (shape0 (array_of fine_record))
                             (shape1 (array_of fine_record)) = false ->
               In (check_dimension name') t)
            ["b_PEM.dat"] [coarse_record].
Proof.
  apply (@read_eem_dataset_unaligned decimal example_processing "data"
           two_resolutions_folder "PEM.dat" aqualog None None "linear"
           "a_PEM.dat" ["b_PEM.dat"] fine_record [coarse_record]).
  - vm_compute. reflexivity.
  - exists eem_fine, []. split; vm_compute; reflexivity.
  - apply Forall2_cons; [| apply Forall2_nil].
    exists eem_coarse, []. split; vm_compute; reflexivity.
Defined.

(** ** [read_abs] on any file *)

Lemma read_abs_rows_inv `{PyFloat} (f : list string) :
  Forall (fun l => is_empty l = false) f ->
  forall (idx data idx' data' : list float),
    read_abs_rows f idx data = Ok (idx', data') ->
    exists entries,
      Forall2 abs_line f entries /\
      idx' = idx ++ map fst entries /\ data' = data ++ map snd entries.
Proof.
  induction 1 as [| line f Hl _ IH]; intros idx data idx' data' E.
  - cbn in E. injection E as <- <-. exists []. cbn. rewrite !app_nil_r.
    repeat split. constructor.
  - cbn [read_abs_rows] in E. rewrite Hl in E.
    destruct (split line) as [| w rest] eqn:Es; [discriminate |].
    destruct (py_float w) as [x |] eqn:Ew; [| discriminate].
    destruct rest as [| v rest].
    + apply IH in E as (entries & Hf & -> & ->).
      exists ((x, NaN) :: entries). cbn [map fst snd]. rewrite <- !app_assoc.
      repeat split. constructor; [| exact Hf].
      left. exists w. repeat split; assumption.
    + destruct (py_float v) as [y |] eqn:Ev; [| discriminate].
      apply IH in E as (entries & Hf & -> & ->).
      exists ((x, y) :: entries). cbn [map fst snd]. rewrite <- !app_assoc.
      repeat split. constructor; [| exact Hf].
      right. exists w, v, rest. repeat split; assumption.
Qed.

(** X8. [read_abs] returns only for a file each of whose lines holds a
    wavelength alone or a wavelength and a value: whenever it returns,
    the two arrays are the entries of the lines in reverse order, each
    has one element per line of the file, nothing is printed or called,
    and the index is the one of the file name. *)
Theorem read_abs_returns `{PyFloat} (file_path text : string)
  (index_pos : option (nat * nat)) (data_format : string) (t : trace)
  (absorbance ex_range : list float) (index : option string) :
  read_abs file_path text index_pos data_format = (t, Ok (absorbance, ex_range, index)) ->
  data_format = aqualog /\ t = [] /\
  index = index_of file_path index_pos /\
  length absorbance = length (readlines text) /\
  length ex_range = length (readlines text) /\
  exists entries,
    Forall2 abs_line (readlines text) entries /\
    absorbance = rev (map snd entries) /\ ex_range = rev (map fst entries).
Proof.
  unfold read_abs. destruct (String.eqb data_format aqualog) eqn:Ef;
    [| discriminate].
  apply String.eqb_eq in Ef.
  destruct (read_abs_rows (readlines text) [] []) as [[idx data] | |] eqn:Er;
    cbn [lift bind ret app]; try discriminate.
  intros E. injection E as <- <- <- <-.
  apply read_abs_rows_inv in Er as (entries & Hf & -> & ->);
    [| apply readlines_nonempty].
  cbn [app]. pose proof (Forall2_length Hf) as Hlen.
  split; [exact Ef |]. split; [reflexivity |]. split; [reflexivity |].
  split; [rewrite length_flipud, length_map; symmetry; exact Hlen |].
  split; [rewrite length_flipud, length_map; symmetry; exact Hlen |].
  exists entries. repeat split. exact Hf.
Qed.

Lemma read_abs_returns_witness :
  aqualog = aqualog /\ @nil event = [] /\
  @None string = index_of "ABS.dat" None /\
  length [Fin (8 # 25); NaN; Fin (3 # 10)] =
    length (readlines (text_of ["540.0 0.30"; "550.0"; "560.0 0.32"])) /\
  length [Fin 560; Fin 550; Fin 540] =
    length (readlines (text_of ["540.0 0.30"; "550.0"; "560.0 0.32"])) /\
  exists entries,
    Forall2 (@abs_line decimal)
            (readlines (text_of ["540.0 0.30"; "550.0"; "560.0 0.32"])) entries /\
    [Fin (8 # 25); NaN; Fin (3 # 10)] = rev (map snd entries) /\
    [Fin 560; Fin 550; Fin 540] = rev (map fst entries).
Proof.
  apply (@read_abs_returns decimal "ABS.dat"
           (text_of ["540.0 0.30"; "550.0"; "560.0 0.32"]) None aqualog []
           [Fin (8 # 25); NaN; Fin (3 # 10)] [Fin 560; Fin 550; Fin 540] None).
  vm_compute. reflexivity.
Defined.

(** ** [read_abs] on a line that cannot be read *)

Lemma read_abs_rows_error `{PyFloat} (line : string) (f : list string)
  (idx data : list float) (e : exn) :
  is_empty line = false ->
  abs_error line = Some e ->
  read_abs_rows (line :: f) idx data = Raise e.
Proof.
  intros Hl. unfold abs_error. cbn [read_abs_rows]. rewrite Hl.
  destruct (split line) as [| w rest]; [congruence |].
  destruct (py_float w) as [x |]; [| congruence].
  destruct rest as [| v rest]; [discriminate |].
  destruct (py_float v) as [y |]; [discriminate | congruence].
Qed.

Lemma read_abs_rows_app `{PyFloat} (pre : list string) (entries : list (float * float)) :
  Forall2 abs_line pre entries ->
  forall (rest : list string) (idx data : list float),
    read_abs_rows (pre ++ rest) idx data =
    read_abs_rows rest (idx ++ map fst entries) (data ++ map snd entries).
Proof.
  induction 1 as [| line entry pre entries Hl _ IH]; intros rest idx data.
  - cbn. rewrite !app_nil_r. reflexivity.
  - cbn [read_abs_rows map app].
    destruct Hl as [(w & Hs & Hw & Hv) | (w & v & rest' & Hs & Hw & Hv)].
    + destruct (is_empty line) eqn:El.
      { destruct line; [discriminate Hs | discriminate El]. }
      rewrite Hs, Hw, IH, Hv, <- !app_assoc. reflexivity.
    + destruct (is_empty line) eqn:El.
      { destruct line; [discriminate Hs | discriminate El]. }
      rewrite Hs, Hw, Hv, IH, <- !app_assoc. reflexivity.
Qed.

Lemma split_from_nonempty (s : string) :
  forall tok, is_empty tok = false -> split_from tok s <> [].
Proof.
  induction s as [| c s IH]; intros tok Ht; cbn [split_from]; rewrite ?Ht.
  - discriminate.
  - destruct (is_space c); [discriminate |].
    apply IH. destruct tok; reflexivity.
Qed.

Lemma split_nil_blank (s : string) : split s = [] -> blank s = true.
Proof.
  unfold split. induction s as [| c s IH]; [reflexivity |].
  cbn [blank split_from is_empty]. destruct (is_space c); cbn [andb]; [exact IH |].
  intros Es. exfalso. revert Es. apply split_from_nonempty. reflexivity.
Qed.

(** X9. [read_abs] skips no line: the first line that holds no
    wavelength makes it raise, [IndexError] when the line is blank (an
    empty line at the end of the file, say), [ValueError] when its first
    token, or its second, is no float (a title, a unit). *)
Theorem read_abs_bad_line `{PyFloat} (file_path text : string)
  (index_pos : option (nat * nat)) (pre post : list string) (line : string)
  (entries : list (float * float)) (e : exn) :
  readlines text = pre ++ line :: post ->
  Forall2 abs_line pre entries ->
  abs_error line = Some e ->
  read_abs file_path text index_pos aqualog = ([], Raise e) /\
  (blank line = true -> e = IndexError) /\
  (blank line = false -> e = ValueError).
Proof.
  intros Hr Hp He. split; [| split].
  - unfold read_abs. change (String.eqb aqualog aqualog) with true. cbv iota.
    rewrite Hr, (read_abs_rows_app _ _ Hp).
    pose proof (readlines_nonempty text) as Hn. rewrite Hr in Hn.
    apply Forall_app in Hn as [_ Hn]. inversion Hn as [| ? ? Hl _]; subst.
    rewrite (read_abs_rows_error _ _ _ _ _ Hl He). reflexivity.
  - intros Hb. unfold abs_error in He. rewrite (split_blank _ Hb) in He. congruence.
  - intros Hb. unfold abs_error in He.
    destruct (split line) as [| w rest] eqn:Es.
    + apply split_nil_blank in Es. congruence.
    + destruct (py_float w); [| congruence].
      destruct rest as [| v rest']; [discriminate |].
      destruct (py_float v); [discriminate | congruence].
Qed.

Lemma read_abs_bad_line_witness :
  @read_abs decimal "ABS.dat" (text_of ["540.0 0.30"; "550.0"; ""]) None aqualog =
    ([], Raise IndexError) /\
  (blank nl = true -> IndexError = IndexError) /\
  (blank nl = false -> IndexError = ValueError).
Proof.
  apply (@read_abs_bad_line decimal "ABS.dat" (text_of ["540.0 0.30"; "550.0"; ""]) None
           (map (fun l => String.append l nl) ["540.0 0.30"; "550.0"]) [] nl
           [(Fin 540, Fin (3 # 10)); (Fin 550, NaN)] IndexError).
  - vm_compute. reflexivity.
  - apply Forall2_cons; [| apply Forall2_cons; [| apply Forall2_nil]].
    + right. exists "540.0", "0.30", []. split; [| split]; vm_compute; reflexivity.
    + left. exists "550.0". split; [| split]; vm_compute; reflexivity.
  - vm_compute. reflexivity.
Defined.

(** ** The indexes of [read_abs_dataset] *)

Lemma index_of_path_of (folder_path name : string) (index_pos : option (nat * nat)) :
  no_slash name = true ->
  index_of (path_of folder_path name) index_pos = name_index index_pos name.
Proof.
  intros Hn. unfold index_of, name_index. rewrite (basename_path_of _ _ Hn). reflexivity.
Qed.

Lemma read_abs_index `{PyFloat} (file_path text : string)
  (index_pos : option (nat * nat)) (data_format : string) (t : trace)
  (absorbance ex_range : list float) (index : option string) :
  read_abs file_path text index_pos data_format = (t, Ok (absorbance, ex_range, index)) ->
  index = index_of file_path index_pos.
Proof.
  unfold read_abs. destruct (String.eqb data_format aqualog); [| discriminate].
  destruct (read_abs_rows (readlines text) [] []) as [[idx data] | |];
    cbn [lift bind ret app]; try discriminate.
  intros E. injection E as _ _ _ <-. reflexivity.
Qed.

Lemma abs_round_indexes `{PyFloat} `{Scipy} (folder_path : string) (folder : directory)
  (data_format : string) (index_pos : option (nat * nat)) (wavelength_alignment : bool)
  (interpolation_method : string) (num_datfile : nat) (st st' : abs_state) (n : nat)
  (filename : string) (t : trace) :
  abs_round folder_path folder data_format index_pos wavelength_alignment
            interpolation_method num_datfile st n filename = (t, Ok st') ->
  abs_indexes st' =
    abs_indexes st ++ [index_of (path_of folder_path filename) index_pos].
Proof.
  unfold abs_round.
  destruct (open_file folder filename) as [text | |]; cbn [lift bind]; try discriminate.
  destruct (read_abs _ text index_pos data_format)
    as [t1 [[[absorbance ex] index] | |]] eqn:Eread; cbn [bind]; try discriminate.
  match goal with |- context [bind ?m _] => destruct m as [t2 [[s a] | |]] end;
    cbn [bind]; try discriminate.
  destruct (set_row s n a); cbn [lift bind ret]; try discriminate.
  intros E. injection E as _ <-. cbn [abs_indexes].
  apply read_abs_index in Eread. rewrite Eread. reflexivity.
Qed.

Lemma abs_loop_indexes `{PyFloat} `{Scipy} (folder_path : string) (folder : directory)
  (data_format : string) (index_pos : option (nat * nat)) (wavelength_alignment : bool)
  (interpolation_method : string) (num_datfile : nat) (filenames : list string) :
  forall (n : nat) (st st' : abs_state) (t : trace),
    abs_loop folder_path folder data_format index_pos wavelength_alignment
             interpolation_method num_datfile filenames n st = (t, Ok st') ->
    abs_indexes st' =
      abs_indexes st ++
      map (fun name => index_of (path_of folder_path name) index_pos) filenames.
Proof.
  induction filenames as [| name filenames IH]; intros n st st' t E.
  - cbn in E. injection E as _ <-. cbn. rewrite app_nil_r. reflexivity.
  - cbn [abs_loop] in E.
    destruct (abs_round _ _ _ _ _ _ _ st n name) as [t1 [st1 | |]] eqn:E1;
      cbn [bind] in E; try discriminate.
    destruct (abs_loop _ _ _ _ _ _ _ filenames (S n) st1) as [t2 [st2 | |]] eqn:E2;
      try discriminate.
    injection E as _ <-.
    apply IH in E2. apply abs_round_indexes in E1.
    rewrite E2, E1, <- app_assoc. reflexivity.
Qed.

(** X10. Whenever [read_abs_dataset] returns, [indexes] holds the index
    of every file of the list, in the order of the list: the part of its
    name from [index_pos[0]] to [index_pos[1]], or [None] for every file
    when [index_pos] is not given. *)
Theorem read_abs_dataset_indexes `{PyFloat} `{Scipy} (folder_path : string)
  (folder : directory) (kw data_format : string) (index_pos : option (nat * nat))
  (custom_filename_list : option (list string)) (wavelength_alignment : bool)
  (interpolation_method : string) (t : trace) (abs_stack : ndarray)
  (ex_range : list float) (filename_list : list string) (indexes : list (option string)) :
  Forall (fun name => no_slash name = true)
         (filename_list_of folder kw custom_filename_list) ->
  read_abs_dataset folder_path folder kw data_format index_pos custom_filename_list
                   wavelength_alignment interpolation_method =
    (t, Ok (abs_stack, ex_range, filename_list, indexes)) ->
  indexes = map (name_index index_pos) filename_list /\
  length indexes = length (filename_list_of folder kw custom_filename_list).
Proof.
  unfold read_abs_dataset. intros Hs E.
  destruct (filename_list_of folder kw custom_filename_list) as [| name names];
    [discriminate |].
  destruct (open_file folder name) as [text | |]; cbn [lift bind] in E; try discriminate.
  destruct (read_abs _ text index_pos data_format)
    as [t1 [[[absorbance ex] index] | |]] eqn:Eread; cbn [bind] in E;
    try discriminate.
  destruct (set_row _ 0 absorbance) as [stack0 | |]; cbn [lift bind] in E;
    try discriminate.
  destruct (abs_loop _ _ _ _ _ _ _ names 1 _) as [t2 [st | |]] eqn:Eloop;
    cbn [bind ret] in E; try discriminate.
  injection E as _ _ _ <- <-.
  apply abs_loop_indexes in Eloop. rewrite Eloop. cbn [abs_indexes app map].
  apply read_abs_index in Eread. rewrite Eread.
  assert (Hm : map (fun name => index_of (path_of folder_path name) index_pos)
                   (name :: names) =
               map (name_index index_pos) (name :: names)).
  { apply map_ext_in. intros x Hx. apply index_of_path_of.
    rewrite Forall_forall in Hs. apply Hs. exact Hx. }
  cbn [map] in Hm. rewrite Hm. split; [reflexivity |].
  cbn [length]. rewrite length_map. reflexivity.
Qed.

Lemma read_abs_dataset_indexes_witness :
  [Some "a_"; Some "b_"] = map (name_index (Some (0, 1))) ["a_ABS.dat"; "b_ABS.dat"] /\
  length [Some "a_"; Some "b_"] = length (filename_list_of abs_folder "ABS.dat" None).
Proof.
  apply (@read_abs_dataset_indexes decimal example_scipy "data" abs_folder "ABS.dat"
           aqualog (Some (0, 1)) None true "linear" [Called Call_interp1d]
           (mk_ndarray 2 3 [[Fin (3 # 10); Fin (2 # 5); Fin (1 # 2)];
                            [Fin (7 # 10); Fin (7 # 10); Fin (9 # 10)]])
           [Fin 260; Fin 240] ["a_ABS.dat"; "b_ABS.dat"] [Some "a_"; Some "b_"]).
  - vm_compute. repeat constructor.
  - vm_compute. reflexivity.
Defined.

(** ** [read_abs_dataset] without alignment *)

Lemma set_row_next (num len : nat) (done rest : list (list float)) (z row : list float) :
  num = length done + S (length rest) ->
  fits_row len row = true ->
  set_row (mk_ndarray num len (done ++ z :: rest)) (length done) row =
  Ok (mk_ndarray num len (done ++ stored_row len row :: rest)).
Proof.
  intros Hn Hf. unfold set_row, stored_row; cbn [shape0 shape1 rows].
  destruct (Nat.leb_spec num (length done)) as [Hle | _]; [lia |].
  rewrite replace_nth_app. unfold fits_row in Hf.
  destruct (length row =? len); [reflexivity |].
  cbn [orb] in Hf. rewrite Hf, replace_nth_app. reflexivity.
Qed.

Lemma set_row_misfit (num len : nat) (done rest : list (list float)) (z row : list float) :
  num = length done + S (length rest) ->
  fits_row len row = false ->
  set_row (mk_ndarray num len (done ++ z :: rest)) (length done) row = Raise ValueError.
Proof.
  intros Hn Hf. unfold set_row; cbn [shape0 shape1 rows].
  destruct (Nat.leb_spec num (length done)) as [Hle | _]; [lia |].
  unfold fits_row in Hf. apply orb_false_iff in Hf as [-> ->]. reflexivity.
Qed.

(** The rounds over files whose rows fit, without alignment: each row
    takes its place, and nothing is printed or called. *)
Lemma abs_loop_unaligned `{PyFloat} `{Scipy} (folder_path : string) (folder : directory)
  (data_format : string) (index_pos : option (nat * nat)) (interpolation_method : string)
  (num len : nat) :
  forall (pre : list string) (rs : list (list float * list float)),
    Forall2 (abs_reads_as folder_path folder data_format index_pos) pre rs ->
    Forall (fun r => fits_row len (fst r) = true) rs ->
    forall (rest : list string) (done : list (list float))
           (indexes : list (option string)) (r0 : list float * list float),
      num = length done + (length pre + length rest) ->
      abs_loop folder_path folder data_format index_pos false interpolation_method num
               (pre ++ rest) (length done)
               (mk_abs_state
                  (mk_ndarray num len
                     (done ++ repeat (repeat f_zero len) (length pre + length rest)))
                  indexes (snd r0)) =
      abs_loop folder_path folder data_format index_pos false interpolation_method num
               rest (length done + length pre)
               (mk_abs_state
                  (mk_ndarray num len
                     ((done ++ map (fun r => stored_row len (fst r)) rs) ++
                      repeat (repeat f_zero len) (length rest)))
                  (indexes ++
                   map (fun name => index_of (path_of folder_path name) index_pos) pre)
                  (snd (last rs r0))).
Proof.
  induction 1 as [| name r pre rs Hr _ IH]; intros Hfit rest done indexes r0 Hnum.
  - cbn [app map length last Nat.add]. rewrite !app_nil_r, Nat.add_0_r. reflexivity.
  - apply Forall_cons_iff in Hfit as [Hf Hfit'].
    destruct Hr as (text & Hopen & Hread).
    cbn [app length Nat.add repeat abs_loop]. unfold abs_round.
    rewrite Hopen. cbn [lift bind]. rewrite Hread.
    cbn [bind ret abs_stack_of abs_indexes abs_ex_range_old app].
    rewrite set_row_next;
      [| cbn [length] in Hnum; rewrite repeat_length; lia | exact Hf].
    cbn [lift bind ret app].
    match goal with
    | |- (let (_, _) := ?m in _) = _ => transitivity m; [destruct m; reflexivity |]
    end.
    specialize (IH Hfit' rest (done ++ [stored_row len (fst r)])
                   (indexes ++ [index_of (path_of folder_path name) index_pos]) r).
    rewrite length_app in IH. cbn [length] in IH.
    rewrite Nat.add_1_r, <- !app_assoc in IH. cbn [app] in IH.
    rewrite IH by (cbn [length] in Hnum; lia).
    rewrite last_cons_default. cbn [map]. rewrite <- !app_assoc. cbn [app].
    replace (S (length done) + length pre) with (length done + S (length pre)) by lia.
    reflexivity.
Qed.

(** X11. [read_abs_dataset] without [wavelength_alignment], on files that
    [read_abs] reads and whose spectra all have the length of the first
    one (or a single element): row [n] of the stack is the spectrum of
    file [n] of the list, the grid returned is the one of the last file,
    the list of names and the index of every file come with them, and
    nothing is printed or called. *)
Theorem read_abs_dataset_unaligned `{PyFloat} `{Scipy} (folder_path : string)
  (folder : directory) (kw data_format : string) (index_pos : option (nat * nat))
  (custom_filename_list : option (list string)) (interpolation_method : string)
  (name : string) (names : list string) (r : list float * list float)
  (rs : list (list float * list float)) :
  filename_list_of folder kw custom_filename_list = name :: names ->
  abs_reads_as folder_path folder data_format index_pos name r ->
  Forall2 (abs_reads_as folder_path folder data_format index_pos) names rs ->
  Forall (fun r' => fits_row (length (fst r)) (fst r') = true) rs ->
  read_abs_dataset folder_path folder kw data_format index_pos custom_filename_list
                   false interpolation_method =
    ([], Ok (mk_ndarray (S (length names)) (length (fst r))
               (fst r :: map (fun r' => stored_row (length (fst r)) (fst r')) rs),
             snd (last rs r), name :: names,
             map (fun n => index_of (path_of folder_path n) index_pos) (name :: names))).
Proof.
  intros Hlist (text & Hopen & Hread) Hall Hfit.
  unfold read_abs_dataset. rewrite Hlist, Hopen. cbn [lift bind].
  rewrite Hread. cbn [bind app length].
  unfold np_zeros. cbn [repeat].
  pose proof (set_row_next (S (length names)) (length (fst r)) []
                (repeat (repeat f_zero (length (fst r))) (length names))
                (repeat f_zero (length (fst r))) (fst r)) as Hs0.
  unfold stored_row, fits_row in Hs0. rewrite Nat.eqb_refl, repeat_length in Hs0.
  cbn [app length] in Hs0. rewrite Hs0 by reflexivity.
  cbn [lift bind app].
  pose proof (abs_loop_unaligned folder_path folder data_format index_pos
                interpolation_method (S (length names)) (length (fst r))
                names rs Hall Hfit [] [fst r]
                [index_of (path_of folder_path name) index_pos] r) as E.
  rewrite !app_nil_r, Nat.add_0_r in E. cbn [length app] in E.
  rewrite E by reflexivity. cbn [abs_loop bind ret app abs_stack_of abs_indexes
                                  abs_ex_range_old map].
  reflexivity.
Qed.

Lemma read_abs_dataset_unaligned_witness :
  @read_abs_dataset decimal example_scipy "data" abs_same_folder "ABS.dat" aqualog
                    (Some (0, 0)) None false "linear" =
    ([], Ok (mk_ndarray 2 3
               [[Fin (3 # 10); Fin (2 # 5); Fin (1 # 2)];
                [Fin (1 # 5); Fin (3 # 5); Fin (4 # 5)]],
             [Fin 260; Fin 250; Fin 240], ["a_ABS.dat"; "c_ABS.dat"],
             [Some "a"; Some "c"])).
Proof.
  apply (@read_abs_dataset_unaligned decimal example_scipy "data" abs_same_folder
           "ABS.dat" aqualog (Some (0, 0)) None "linear" "a_ABS.dat" ["c_ABS.dat"]
           ([Fin (3 # 10); Fin (2 # 5); Fin (1 # 2)], [Fin 260; Fin 250; Fin 240])
           [([Fin (1 # 5); Fin (3 # 5); Fin (4 # 5)], [Fin 260; Fin 250; Fin 240])]).
  - vm_compute. reflexivity.
  - exists abs_fine. split; vm_compute; reflexivity.
  - apply Forall2_cons; [| apply Forall2_nil].
    exists abs_second. split; vm_compute; reflexivity.
  - apply Forall_cons; [vm_compute; reflexivity | apply Forall_nil].
Defined.

(** X12. [read_abs_dataset] without [wavelength_alignment] raises
    [ValueError] at the first file whose spectrum has neither the length
    of the spectrum of the first file nor a single element: the
    assignment to the row of the stack is not guarded, and nothing is
    returned for the files read before. *)
Theorem read_abs_dataset_unaligned_mismatch `{PyFloat} `{Scipy} (folder_path : string)
  (folder : directory) (kw data_format : string) (index_pos : option (nat * nat))
  (custom_filename_list : option (list string)) (interpolation_method : string)
  (name bad : string) (pre post : list string) (r rb : list float * list float)
  (rs : list (list float * list float)) :
  filename_list_of folder kw custom_filename_list = name :: pre ++ bad :: post ->
  abs_reads_as folder_path folder data_format index_pos name r ->
  Forall2 (abs_reads_as folder_path folder data_format index_pos) pre rs ->
  Forall (fun r' => fits_row (length (fst r)) (fst r') = true) rs ->
  abs_reads_as folder_path folder data_format index_pos bad rb ->
  fits_row (length (fst r)) (fst rb) = false ->
  read_abs_dataset folder_path folder kw data_format index_pos custom_filename_list
                   false interpolation_method = ([], Raise ValueError).
Proof.
  intros Hlist (text & Hopen & Hread) Hall Hfit (textb & Hopenb & Hreadb) Hbad.
  unfold read_abs_dataset. rewrite Hlist, Hopen. cbn [lift bind].
  rewrite Hread. cbn [bind app length].
  unfold np_zeros. cbn [repeat].
  pose proof (set_row_next (S (length (pre ++ bad :: post))) (length (fst r)) []
                (repeat (repeat f_zero (length (fst r))) (length (pre ++ bad :: post)))
                (repeat f_zero (length (fst r))) (fst r)) as Hs0.
  unfold stored_row, fits_row in Hs0. rewrite Nat.eqb_refl, repeat_length in Hs0.
  cbn [app length] in Hs0. rewrite Hs0 by reflexivity.
  cbn [lift bind app].
  pose proof (abs_loop_unaligned folder_path folder data_format index_pos
                interpolation_method (S (length (pre ++ bad :: post))) (length (fst r))
                pre rs Hall Hfit (bad :: post) [fst r]
                [index_of (path_of folder_path name) index_pos] r) as E.
  rewrite length_app in E. rewrite length_app. cbn [length app] in E |- *.
  rewrite E by reflexivity.
  cbn [abs_loop]. unfold abs_round. rewrite Hopenb. cbn [lift bind]. rewrite Hreadb.
  cbn [bind ret abs_stack_of abs_indexes abs_ex_range_old app].
  pose proof (set_row_misfit (S (length pre + S (length post))) (length (fst r))
                (fst r :: map (fun r' => stored_row (length (fst r)) (fst r')) rs)
                (repeat (repeat f_zero (length (fst r))) (length post))
                (repeat f_zero (length (fst r))) (fst rb)) as Em.
  cbn [length] in Em. rewrite length_map, repeat_length in Em.
  rewrite <- (Forall2_length Hall) in Em.
  cbn [app] in Em.
  rewrite <- ?app_assoc. cbn [app repeat length].
  change (1 + length pre) with (S (length pre)).
  rewrite Em by (reflexivity || exact Hbad). reflexivity.
Qed.

Lemma read_abs_dataset_unaligned_mismatch_witness :
  @read_abs_dataset decimal example_scipy "data" abs_folder "ABS.dat" aqualog
                    None None false "linear" = ([], Raise ValueError).
Proof.
  apply (@read_abs_dataset_unaligned_mismatch decimal example_scipy "data" abs_folder
           "ABS.dat" aqualog None None "linear" "a_ABS.dat" "b_ABS.dat" [] []
           ([Fin (3 # 10); Fin (2 # 5); Fin (1 # 2)], [Fin 260; Fin 250; Fin 240])
           ([Fin (7 # 10); Fin (9 # 10)], [Fin 260; Fin 240]) []).
  - vm_compute. reflexivity.
  - exists abs_fine. split; vm_compute; reflexivity.
  - apply Forall2_nil.
  - apply Forall_nil.
  - exists abs_coarse. split; vm_compute; reflexivity.
  - vm_compute. reflexivity.
Defined.

(** ** [read_parafac_model]: the metadata *)

Lemma info_block_fold (pre rest : list string) :
  forallb (fun s => negb (has "#" s)) pre = true ->
  has "#" (current rest) = true ->
  forall line_count info_dict,
    info_block (pre ++ rest) line_count info_dict =
    Ok (rest, line_count + length pre, fold_left info_step pre info_dict).
Proof.
  intros Hp Hr. induction pre as [| line pre IH]; intros lc d.
  - cbn [app length fold_left]. rewrite Nat.add_0_r.
    destruct rest as [| x rest]; [discriminate Hr |].
    cbn [info_block]. unfold has, current in Hr. cbn [hd] in Hr. rewrite Hr. reflexivity.
  - cbn [forallb] in Hp. apply andb_true_iff in Hp as [Hl Hp].
    cbn [app info_block fold_left]. unfold has in Hl. rewrite Hl.
    fold (info_step d line). rewrite (IH Hp). cbn [length]. do 2 f_equal. f_equal. lia.
Qed.

Lemma info_block_diverges (f : list string) :
  forallb (fun s => negb (has "#" s)) f = true ->
  forall line_count info_dict, info_block f line_count info_dict = Diverges.
Proof.
  induction f as [| line f IH]; intros Hp lc d; [reflexivity |].
  cbn [forallb] in Hp. apply andb_true_iff in Hp as [Hl Hp].
  cbn [info_block]. unfold has in Hl. rewrite Hl. apply IH. exact Hp.
Qed.

(** X13. [read_parafac_model] does not return for a file that has no
    line with ['#'] after its first lines with ['#'] (an empty file, a
    file cut in its metadata): at the end of the file [readline] gives the
    empty string, which has no ['#'], and [while '#' not in line:] goes on
    for ever. *)
Theorem read_parafac_model_no_loadings `{Pandas} (text : string)
  (comments meta : list string) :
  map strip (readlines text) = comments ++ meta ->
  forallb (has "#") comments = true ->
  forallb (fun s => negb (has "#" s)) meta = true ->
  exists t, read_parafac_model text = (t, Diverges).
Proof.
  intros Hl Hc Hm. unfold read_parafac_model. rewrite Hl.
  destruct (comment_block_run "Fluorescence" "Reading fluorescence measurement info..."
              comments meta Hc) with (line_count := 0) (last := @None nat) as [t1 E1].
  { destruct meta as [| m meta]; [reflexivity |].
    cbn [forallb] in Hm. apply andb_true_iff in Hm as [Hm _].
    apply negb_true_iff in Hm. exact Hm. }
  rewrite E1. cbn [bind]. rewrite (info_block_diverges _ Hm). cbn [lift bind].
  eexists. reflexivity.
Qed.

Lemma read_parafac_model_no_loadings_witness :
  exists t,
    @read_parafac_model example_pandas
      (text_of ["#"; "# Fluorescence Model"; "#"; tsv ["name"; "demo"]]) = (t, Diverges).
Proof.
  apply (@read_parafac_model_no_loadings example_pandas
           (text_of ["#"; "# Fluorescence Model"; "#"; tsv ["name"; "demo"]])
           ["#"; "# Fluorescence Model"; "#"] [tsv ["name"; "demo"]]).
  - vm_compute. reflexivity.
  - vm_compute. reflexivity.
  - vm_compute. reflexivity.
Defined.

Lemma dict_get_set (d : dict) (k' v k : string) :
  dict_get (dict_set d k' v) k = if String.eqb k' k then Some v else dict_get d k.
Proof.
  induction d as [| [k0 v0] d IH]; cbn [dict_set dict_get].
  - reflexivity.
  - destruct (String.eqb k0 k') eqn:E0; cbn [dict_get].
    + apply String.eqb_eq in E0. subst k0. destruct (String.eqb k' k); reflexivity.
    + destruct (String.eqb k0 k) eqn:E1.
      * apply String.eqb_eq in E1. subst k0.
        rewrite String.eqb_sym, E0. reflexivity.
      * exact IH.
Qed.

Lemma info_step_set (d : dict) (line : string) :
  info_step d line = dict_set d (info_key line) (info_value line).
Proof.
  unfold info_step, info_key, info_value.
  destruct (Nat.ltb_spec 1 (length (split_sep TAB line))) as [_ | Hle]; [reflexivity |].
  rewrite (nth_overflow _ EmptyString Hle). reflexivity.
Qed.

Lemma dict_get_fold (lines : list string) (k : string) :
  forall d,
    dict_get (fold_left info_step lines d) k =
    fold_left (fun v line => if String.eqb (info_key line) k
                             then Some (info_value line) else v)
              lines (dict_get d k).
Proof.
  induction lines as [| line lines IH]; intros d; [reflexivity |].
  cbn [fold_left]. rewrite IH, info_step_set, dict_get_set. reflexivity.
Qed.

(** X14. Whenever [read_parafac_model] returns, [info_dict] holds the
    lines between the first block of lines with ['#'] and the next line
    with ['#']: the key of a line is its first tab-separated field, its
    value the second one, the empty string when the line has one field;
    when several lines have one key, the last one counts. *)
Theorem read_parafac_model_info `{Pandas} (text : string)
  (comments meta rest : list string) (c : string) (t : trace)
  (ex_df em_df : DataFrame) (score_df : option DataFrame) (info_dict : dict) :
  map strip (readlines text) = comments ++ meta ++ c :: rest ->
  forallb (has "#") comments = true ->
  nonempty meta = true ->
  forallb (fun s => negb (has "#" s)) meta = true ->
  has "#" c = true ->
  read_parafac_model text = (t, Ok (ex_df, em_df, score_df, info_dict)) ->
  info_dict = fold_left info_step meta [] /\
  forall k, dict_get info_dict k = last_value meta k.
Proof.
  intros Hl Hc Hne Hm Hh E.
  assert (Hi : info_dict = fold_left info_step meta []).
  { revert E. unfold read_parafac_model. rewrite Hl.
    destruct (comment_block_run "Fluorescence" "Reading fluorescence measurement info..."
                comments (meta ++ c :: rest) Hc) with (line_count := 0) (last := @None nat)
      as [t1 E1].
    { rewrite current_app by exact Hne. apply negb_true_iff.
      apply (forallb_current (fun s => negb (has "#" s))); assumption. }
    rewrite E1. cbn [bind]. rewrite (info_block_fold meta (c :: rest) Hm Hh).
    cbn [lift bind].
    destruct (comment_block "Excitation" _ _ _ _) as [t3 [[[f3 lc3] [start |]] | |]];
      cbn [bind raise]; try discriminate.
    destruct (row_block "Ex" f3 lc3) as [f4 lc4].
    destruct (read_csv text _ _) as [ex_raw | |]; cbn [lift bind]; try discriminate.
    destruct (set_columns ex_raw _) as [ex1 | |]; cbn [lift bind]; try discriminate.
    destruct (row_block "Em" f4 lc4) as [f5 lc5].
    destruct (read_csv text _ _) as [em_raw | |]; cbn [lift bind]; try discriminate.
    destruct (set_columns em_raw _) as [em1 | |]; cbn [lift bind]; try discriminate.
    destruct (comment_block "Score" _ _ _ _) as [t6 [[[f6 lc6] start6] | |]];
      cbn [bind]; try discriminate.
    destruct (row_block "Score" f6 lc6) as [f7 lc7].
    destruct (score_block _ _ _ _ _ _) as [t8 [sc | |]]; cbn [bind ret]; try discriminate.
    intros E. injection E as _ _ _ _ <-. reflexivity. }
  split; [exact Hi |].
  intros k. rewrite Hi, dict_get_fold. reflexivity.
Qed.

Lemma read_parafac_model_info_witness :
  [("name", "demo"); ("creator", EmptyString)] =
    fold_left info_step (metadata parafac_example) [] /\
  forall k, dict_get [("name", "demo"); ("creator", EmptyString)] k =
            last_value (metadata parafac_example) k.
Proof.
  apply (@read_parafac_model_info example_pandas parafac_text
           (leading_comments parafac_example) (metadata parafac_example)
           (tl (loading_comments parafac_example) ++ ex_rows parafac_example ++
            em_rows parafac_example ++ score_comments parafac_example ++
            score_rows parafac_example ++ ending parafac_example ++
            trailing parafac_example)
           "#" parafac_example_trace parafac_example_ex parafac_example_em
           (Some parafac_example_score)).
  - vm_compute. reflexivity.
  - vm_compute. reflexivity.
  - vm_compute. reflexivity.
  - vm_compute. reflexivity.
  - vm_compute. reflexivity.
  - vm_compute. reflexivity.
Defined.

(** ** [read_parafac_models] *)

Lemma read_parafac_files_results `{Pandas} (folder : directory) (datlist : list string) :
  forall (acc rs : list parafac_result) (t : trace),
    read_parafac_files folder datlist acc = (t, Ok rs) ->
    exists rs',
      rs = acc ++ rs' /\
      Forall2 (fun name r =>
                 exists text t' info_dict,
                   open_file folder name = Ok text /\
                   read_parafac_model text =
                     (t', Ok (res_ex r, res_em r, res_score r, info_dict)) /\
                   res_info r = dict_set info_dict "filename" name)
              datlist rs'.
Proof.
  induction datlist as [| f datlist IH]; intros acc rs t E.
  - cbn in E. injection E as _ <-. exists []. rewrite app_nil_r. split; constructor.
  - cbn [read_parafac_files] in E.
    destruct (open_file folder f) as [text | |] eqn:Eo; cbn [lift bind] in E;
      try discriminate.
    destruct (read_parafac_model text) as [t1 [[[[ex_df em_df] score_df] info] | |]] eqn:Er;
      cbn [bind] in E; try discriminate.
    destruct (read_parafac_files folder datlist _) as [t2 [rs2 | |]] eqn:E2;
      try discriminate.
    injection E as _ <-. apply IH in E2 as (rs' & -> & Hall).
    exists (mk_result (dict_set info "filename" f) ex_df em_df score_df :: rs').
    rewrite <- app_assoc. split; [reflexivity |].
    constructor; [| exact Hall].
    exists text, t1, info. cbn [res_ex res_em res_score res_info].
    split; [exact Eo |]. split; [exact Er | reflexivity].
Qed.

(** X15. Whenever [read_parafac_models] returns, its list has one entry
    for each file of the folder whose name has the keyword, in the order
    of the listing: the tables and the metadata that [read_parafac_model]
    returns for the file, with the name of the file under the key
    ['filename'], which replaces a ['filename'] line of the metadata. *)
Theorem read_parafac_models_results `{Pandas} (folder : directory) (kw : string)
  (t : trace) (rs : list parafac_result) :
  read_parafac_models folder kw = (t, Ok rs) ->
  length rs = length (get_filelist folder kw) /\
  Forall2 (fun name r =>
             dict_get (res_info r) "filename" = Some name /\
             exists text t' info_dict,
               open_file folder name = Ok text /\
               read_parafac_model text =
                 (t', Ok (res_ex r, res_em r, res_score r, info_dict)) /\
               forall k, k <> "filename" ->
                 dict_get (res_info r) k = dict_get info_dict k)
          (get_filelist folder kw) rs.
Proof.
  unfold read_parafac_models. intros E.
  apply read_parafac_files_results in E as (rs' & -> & Hall). cbn [app].
  split; [symmetry; apply (Forall2_length Hall) |].
  induction Hall as [| name r names rs (text & t' & info & Ho & Hr & Hi) _ IH];
    constructor; [| exact IH].
  split.
  - rewrite Hi, dict_get_set, String.eqb_refl. reflexivity.
  - exists text, t', info. repeat split; [exact Ho | exact Hr |].
    intros k Hk. rewrite Hi, dict_get_set.
    destruct (String.eqb_spec "filename" k) as [<- | _]; [congruence | reflexivity].
Qed.

Lemma read_parafac_models_results_witness :
  length [mk_result [("name", "demo"); ("creator", EmptyString);
                     ("filename", "model_a.txt")]
                    parafac_example_ex parafac_example_em (Some parafac_example_score)] =
    length (get_filelist parafac_folder "model") /\
  Forall2 (fun name r =>
             dict_get (res_info r) "filename" = Some name /\
             exists text t' info_dict,
               open_file parafac_folder name = Ok text /\
               @read_parafac_model example_pandas text =
                 (t', Ok (res_ex r, res_em r, res_score r, info_dict)) /\
               forall k, k <> "filename" ->
                 dict_get (res_info r) k = dict_get info_dict k)
          (get_filelist parafac_folder "model")
          [mk_result [("name", "demo"); ("creator", EmptyString);
                      ("filename", "model_a.txt")]
                     parafac_example_ex parafac_example_em (Some parafac_example_score)].
Proof.
  apply (@read_parafac_models_results example_pandas parafac_folder "model"
           parafac_example_trace).
  vm_compute. reflexivity.
Defined.

(** ** [read_parafac_model]: from the loadings on *)

Lemma read_parafac_model_tail `{Pandas} (text : string) :
  read_parafac_model text =
  (let f := map strip (readlines text) in
   ' (f, line_count, _) <-
     comment_block "Fluorescence" "Reading fluorescence measurement info..." f 0 None ;;
   ' (f, line_count, info_dict) <- lift (info_block f line_count []) ;;
   ' (f, line_count, start) <-
     comment_block "Excitation" "Reading Ex/Em loadings..." f line_count None ;;
   match start with
   | None => raise UnboundLocalError
   | Some line_count_spectra_start =>
       let (f, line_count) := row_block "Ex" f line_count in
       ex_df <- lift (read_csv text (line_count_spectra_start + 1)
                               (line_count - line_count_spectra_start - 1)) ;;
       let component_label := component_labels (width ex_df) in
       ex_df <- lift (set_columns ex_df component_label) ;;
       let ex_df := set_index_names ex_df "type" "wavelength" in
       parafac_tail text component_label ex_df info_dict f line_count
   end)%py.
Proof. reflexivity. Qed.

(** A file whose blocks are well formed up to its excitation rows, read
    by pandas: what is printed up to there, and the end of the reader on
    the lines that follow. *)
Lemma read_parafac_model_head `{Pandas} (text : string) (l : parafac_layout)
  (ex_raw : DataFrame) :
  map strip (readlines text) = layout_lines l ->
  well_formed_head l = true ->
  read_csv text (first_ex_row l) (length (ex_rows l)) = Ok ex_raw ->
  exists t0,
    read_parafac_model text =
    bind (t0, Ok tt)
         (fun _ => parafac_tail text (component_labels (width ex_raw))
                     (loadings ex_raw (width ex_raw))
                     (fold_left info_step (metadata l) [])
                     (em_rows l ++ score_comments l ++ score_rows l ++
                      ending l ++ trailing l)
                     (first_em_row l)).
Proof.
  intros Hlines Hwf Hex.
  unfold well_formed_head in Hwf. split_andb.
  rewrite read_parafac_model_tail. cbv zeta. rewrite Hlines. unfold layout_lines.
  destruct (comment_block_run "Fluorescence" "Reading fluorescence measurement info..."
              (leading_comments l)
              (metadata l ++ loading_comments l ++ ex_rows l ++ em_rows l ++
               score_comments l ++ score_rows l ++ ending l ++ trailing l))
    with (line_count := 0) (last := @None nat) as [t1 E1]; [assumption | |].
  { rewrite current_app by assumption.
    apply negb_true_iff.
    apply (forallb_current (fun s => negb (has "#" s))); assumption. }
  rewrite E1. cbn [bind]. clear E1.
  rewrite (info_block_fold (metadata l)
             (loading_comments l ++ ex_rows l ++ em_rows l ++
              score_comments l ++ score_rows l ++ ending l ++ trailing l));
    [| assumption | rewrite current_app by assumption; apply forallb_current; assumption].
  cbn [lift bind].
  destruct (comment_block_run "Excitation" "Reading Ex/Em loadings..."
              (loading_comments l)
              (ex_rows l ++ em_rows l ++
               score_comments l ++ score_rows l ++ ending l ++ trailing l))
    with (line_count := 0 + length (leading_comments l) + length (metadata l))
         (last := @None nat) as [t3 E3]; [assumption | |].
  { rewrite current_app by assumption.
    apply negb_true_iff.
    apply (forallb_current (fun s => negb (has "#" s))); [assumption |].
    eapply forallb_weaken; [| eassumption].
    intros x Hx. apply andb_true_iff in Hx as [_ Hx]. exact Hx. }
  rewrite E3. cbn [bind]. clear E3.
  destruct (loading_comments l) as [| c0 cs] eqn:Ecs; [discriminate |].
  rewrite <- Ecs.
  rewrite (row_block_run "Ex" (ex_rows l)).
  2: { eapply forallb_weaken; [| eassumption].
       intros x Hx. apply andb_true_iff in Hx as [Hx _]. exact Hx. }
  2: { apply negb_true_iff. assumption. }
  replace (0 + length (leading_comments l) + length (metadata l) +
           length (loading_comments l) - 1 + 1) with (first_ex_row l)
    by (unfold first_ex_row; rewrite Ecs; cbn [length]; lia).
  replace (0 + length (leading_comments l) + length (metadata l) +
           length (loading_comments l) + length (ex_rows l) -
           (0 + length (leading_comments l) + length (metadata l) +
            length (loading_comments l) - 1) - 1) with (length (ex_rows l))
    by (rewrite Ecs; cbn [length]; lia).
  rewrite Hex. cbn [lift bind].
  unfold set_columns at 1. rewrite length_component_labels, Nat.eqb_refl. cbn [lift bind].
  replace (0 + length (leading_comments l) + length (metadata l) +
           length (loading_comments l) + length (ex_rows l)) with (first_em_row l)
    by (unfold first_em_row, first_ex_row; lia).
  exists (t1 ++ t3).
  fold (loadings ex_raw (width ex_raw)).
  destruct (parafac_tail _ _ _ _ _ _) as [tt' r].
  cbn [app]. rewrite <- !app_assoc. reflexivity.
Qed.

(** X16. When the emission loadings of a file have another number of
    columns than its excitation loadings, [read_parafac_model] raises
    [ValueError]: the labels ['component 1'] to ['component N'] are
    counted on the excitation loadings and assigned to the columns of
    both tables. *)
Theorem read_parafac_model_width_mismatch `{Pandas} (text : string) (l : parafac_layout)
  (ex_raw em_raw : DataFrame) :
  map strip (readlines text) = layout_lines l ->
  well_formed_head l = true ->
  well_formed_emission l = true ->
  read_csv text (first_ex_row l) (length (ex_rows l)) = Ok ex_raw ->
  read_csv text (first_em_row l) (length (em_rows l)) = Ok em_raw ->
  width em_raw <> width ex_raw ->
  exists t, read_parafac_model text = (t, Raise ValueError).
Proof.
  intros Hlines Hh He Hex Hem Hw.
  destruct (read_parafac_model_head text l ex_raw Hlines Hh Hex) as [t0 E].
  rewrite E. unfold parafac_tail.
  unfold well_formed_emission in He. apply andb_true_iff in He as [He1 He2].
  rewrite (row_block_run "Em" (em_rows l)) by (assumption || (apply negb_true_iff; assumption)).
  replace (first_em_row l + length (em_rows l) - first_em_row l)
    with (length (em_rows l)) by lia.
  rewrite Hem. cbn [lift bind].
  unfold set_columns at 1. rewrite length_component_labels.
  destruct (Nat.eqb_spec (width ex_raw) (width em_raw)) as [Heq | _]; [congruence |].
  cbn [lift bind]. eexists. reflexivity.
Qed.

(** X17. [read_parafac_model] does not return for a file whose score
    rows are followed by a line with ['#'] and without ['end'] (a ['#']
    line before the one that closes the file, say): in the last loop the
    next line is read only under [if 'end' in line:]. *)
Theorem read_parafac_model_no_end `{Pandas} (text : string) (l : parafac_layout)
  (ex_raw em_raw : DataFrame) (line : string) (more : list string) :
  map strip (readlines text) = layout_lines l ->
  well_formed_head l = true ->
  well_formed_emission l = true ->
  read_csv text (first_ex_row l) (length (ex_rows l)) = Ok ex_raw ->
  read_csv text (first_em_row l) (length (em_rows l)) = Ok em_raw ->
  width em_raw = width ex_raw ->
  forallb (has "#") (score_comments l) = true ->
  nonempty (score_rows l) = true ->
  forallb (fun s => has "Score" s && negb (has "#" s)) (score_rows l) = true ->
  ending l = line :: more ->
  has "#" line = true -> has "end" line = false -> has "Score" line = false ->
  exists t, read_parafac_model text = (t, Diverges).
Proof.
  intros Hlines Hh He Hex Hem Hw Hsc Hne Hsr Hend H1 H2 H3.
  destruct (read_parafac_model_head text l ex_raw Hlines Hh Hex) as [t0 E].
  rewrite E. unfold parafac_tail.
  unfold well_formed_emission in He. apply andb_true_iff in He as [He1 He2].
  rewrite (row_block_run "Em" (em_rows l)) by (assumption || (apply negb_true_iff; assumption)).
  replace (first_em_row l + length (em_rows l) - first_em_row l)
    with (length (em_rows l)) by lia.
  rewrite Hem. cbn [lift bind].
  unfold set_columns at 1. rewrite length_component_labels, Hw, Nat.eqb_refl.
  cbn [lift bind].
  destruct (comment_block_run "Score" "Reading component scores..."
              (score_comments l) (score_rows l ++ ending l ++ trailing l))
    with (line_count := first_em_row l + length (em_rows l)) (last := @None nat)
    as [t6 E6]; [assumption | |].
  { rewrite current_app by assumption. apply negb_true_iff.
    apply (forallb_current (fun s => negb (has "#" s))); [assumption |].
    eapply forallb_weaken; [| eassumption].
    intros x Hx. apply andb_true_iff in Hx as [_ Hx]. exact Hx. }
  rewrite E6. cbn [bind]. clear E6.
  rewrite (row_block_run "Score" (score_rows l)).
  2: { eapply forallb_weaken; [| eassumption].
       intros x Hx. apply andb_true_iff in Hx as [Hx _]. exact Hx. }
  2: { rewrite Hend. exact H3. }
  rewrite Hend. cbn [app score_block]. unfold has in H1, H2. rewrite H1, H2.
  cbn [bind]. eexists. reflexivity.
Qed.

Lemma read_parafac_model_width_mismatch_witness :
  exists t,
    @read_parafac_model example_pandas (text_of (layout_lines parafac_unequal)) =
      (t, Raise ValueError).
Proof.
  apply (@read_parafac_model_width_mismatch example_pandas
           (text_of (layout_lines parafac_unequal)) parafac_unequal
           (the_frame (example_read_csv (text_of (layout_lines parafac_unequal)) 5 1))
           (the_frame (example_read_csv (text_of (layout_lines parafac_unequal)) 6 1))).
  - vm_compute. reflexivity.
  - vm_compute. reflexivity.
  - vm_compute. reflexivity.
  - vm_compute. reflexivity.
  - vm_compute. reflexivity.
  - vm_compute. discriminate.
Defined.

Lemma read_parafac_model_no_end_witness :
  exists t,
    @read_parafac_model example_pandas (text_of (layout_lines parafac_open_end)) =
      (t, Diverges).
Proof.
  apply (@read_parafac_model_no_end example_pandas
           (text_of (layout_lines parafac_open_end)) parafac_open_end
           (the_frame (example_read_csv (text_of (layout_lines parafac_open_end)) 8 2))
           (the_frame (example_read_csv (text_of (layout_lines parafac_open_end)) 10 3))
           "#" ["# end #"]).
  - vm_compute. reflexivity.
  - vm_compute. reflexivity.
  - vm_compute. reflexivity.
  - vm_compute. reflexivity.
  - vm_compute. reflexivity.
  - vm_compute. reflexivity.
  - vm_compute. reflexivity.
  - vm_compute. reflexivity.
  - vm_compute. reflexivity.
  - vm_compute. reflexivity.
  - vm_compute. reflexivity.
  - vm_compute. reflexivity.
  - vm_compute. reflexivity.
Defined.

(** ** [get_filelist] *)

Lemma append_assoc (a b c : string) :
  String.append (String.append a b) c = String.append a (String.append b c).
Proof. induction a as [| x a IH]; cbn; [reflexivity | f_equal; exact IH]. Qed.

Lemma prefix_iff (sub s : string) :
  String.prefix sub s = true <-> exists post, s = String.append sub post.
Proof.
  revert s. induction sub as [| a sub IH]; intros s.
  - split; [intros _; exists s; reflexivity | intros _; destruct s; reflexivity].
  - destruct s as [| b s]; cbn [String.prefix String.append].
    + split; [discriminate | intros [post Hp]; discriminate Hp].
    + destruct (Ascii.ascii_dec a b) as [<- | Hab].
      * rewrite IH. split; intros [post Hp]; exists post; congruence.
      * split; [discriminate | intros [post Hp]; congruence].
Qed.

(** [sub in s] holds when [s] is [sub] between two strings. *)
Lemma str_in_iff (sub s : string) :
  str_in sub s = true <->
  exists pre post, s = String.append pre (String.append sub post).
Proof.
  split.
  - induction s as [| c s IH]; cbn [str_in].
    + destruct (String.prefix sub EmptyString) eqn:Ep; [| discriminate].
      intros _. apply prefix_iff in Ep as [post Hp]. exists EmptyString, post. exact Hp.
    + destruct (String.prefix sub (String c s)) eqn:Ep.
      * intros _. apply prefix_iff in Ep as [post Hp]. exists EmptyString, post. exact Hp.
      * intros Hs. destruct (IH Hs) as (pre & post & ->).
        exists (String c pre), post. reflexivity.
  - intros (pre & post & ->). induction pre as [| c pre IH].
    + cbn [String.append].
      assert (Hp : String.prefix sub (String.append sub post) = true)
        by (apply prefix_iff; exists post; reflexivity).
      destruct (String.append sub post); cbn [str_in]; rewrite Hp; reflexivity.
    + cbn [String.append str_in]. rewrite IH.
      destruct (String.prefix sub _); reflexivity.
Qed.

(** X18. [get_filelist] returns the names of the listing of the folder
    that hold the keyword somewhere (at the start, inside or at the end),
    and no other name, in the order of the listing; with the empty
    keyword it returns the whole listing. *)
Theorem get_filelist_names (filedir : directory) (kw name : string) :
  (In name (get_filelist filedir kw) <->
   In name (map fst filedir) /\
   exists pre post, name = String.append pre (String.append kw post)) /\
  (forall d1 d2, get_filelist (d1 ++ d2) kw = get_filelist d1 kw ++ get_filelist d2 kw) /\
  get_filelist filedir EmptyString = map fst filedir.
Proof.
  unfold get_filelist. split; [| split].
  - rewrite filter_In, str_in_iff. reflexivity.
  - intros d1 d2. rewrite map_app, filter_app. reflexivity.
  - induction (map fst filedir) as [| x l IH]; [reflexivity |].
    cbn [filter]. rewrite IH. destruct x; reflexivity.
Qed.

(** ** A folder without a file for the keyword *)

Lemma get_filelist_none (filedir : directory) (kw : string) :
  (forall name, In name (map fst filedir) -> str_in kw name = false) ->
  get_filelist filedir kw = [].
Proof.
  unfold get_filelist. induction (map fst filedir) as [| x l IH]; intros Hn;
    [reflexivity |].
  cbn [filter]. rewrite (Hn x (or_introl eq_refl)). apply IH.
  intros name Hi. apply Hn. right. exact Hi.
Qed.

(** X19. In a folder where no name holds the keyword, and without a list
    of names of the caller's own, [read_eem_dataset] and
    [read_abs_dataset] raise [IndexError] at [filename_list[0]], while
    [read_parafac_models] returns the empty list. *)
Theorem no_matching_file `{PyFloat} `{EemProcessing} `{Scipy} `{Pandas}
  (folder_path : string) (folder : directory) (kw data_format : string)
  (index_pos : option (nat * nat)) (custom_filename_list : option (list string))
  (wavelength_alignment : bool) (interpolation_method : string) :
  (forall name, In name (map fst folder) -> str_in kw name = false) ->
  custom_filename_list = None \/ custom_filename_list = Some [] ->
  read_eem_dataset folder_path folder kw data_format index_pos custom_filename_list
                   wavelength_alignment interpolation_method = ([], Raise IndexError) /\
  read_abs_dataset folder_path folder kw data_format index_pos custom_filename_list
                   wavelength_alignment interpolation_method = ([], Raise IndexError) /\
  read_parafac_models folder kw = ([], Ok []).
Proof.
  intros Hn Hc. apply get_filelist_none in Hn.
  unfold read_eem_dataset, read_abs_dataset, read_parafac_models, filename_list_of.
  rewrite Hn. destruct Hc as [-> | ->]; repeat split.
Qed.

Lemma no_matching_file_witness :
  @read_eem_dataset decimal example_processing "data" same_grid_folder "ABS.dat" aqualog
                    None None true "linear" = ([], Raise IndexError) /\
  @read_abs_dataset decimal example_scipy "data" same_grid_folder "ABS.dat" aqualog
                    None None true "linear" = ([], Raise IndexError) /\
  @read_parafac_models example_pandas same_grid_folder "ABS.dat" = ([], Ok []).
Proof.
  apply (@no_matching_file decimal example_processing example_scipy example_pandas
           "data" same_grid_folder "ABS.dat" aqualog None None true "linear").
  - intros name Hi. vm_compute in Hi.
    destruct Hi as [<- | [<- | [<- | []]]]; vm_compute; reflexivity.
  - left. reflexivity.
Defined.

(** ** [read_abs_dataset] on files of one grid *)

Lemma read_abs_trace `{PyFloat} (file_path text : string)
  (index_pos : option (nat * nat)) (data_format : string) :
  fst (read_abs file_path text index_pos data_format) = [].
Proof.
  unfold read_abs. destruct (String.eqb data_format aqualog); [| reflexivity].
  destruct (read_abs_rows (readlines text) [] []) as [[idx data] | |]; reflexivity.
Qed.

(** A round on a file that has the running grid: the alignment changes
    nothing. *)
Lemma abs_round_same_grid `{PyFloat} `{Scipy} (folder_path : string) (folder : directory)
  (data_format : string) (index_pos : option (nat * nat)) (interpolation_method : string)
  (num_datfile : nat) (st : abs_state) (n : nat) (name : string)
  (r : list float * list float) :
  abs_reads_as folder_path folder data_format index_pos name r ->
  snd r = abs_ex_range_old st ->
  1 <= length (snd r) ->
  abs_round folder_path folder data_format index_pos true interpolation_method
            num_datfile st n name =
  abs_round folder_path folder data_format index_pos false interpolation_method
            num_datfile st n name.
Proof.
  intros (text & Hopen & Hread) Hg Hlen. unfold abs_round.
  rewrite Hopen. cbn [lift bind]. rewrite Hread. cbn [bind]. rewrite <- Hg.
  destruct (interval_total _ Hlen) as [i Ei]. rewrite Ei. cbn [lift bind app].
  unfold f_gtb. rewrite !f_ltb_irrefl. cbn [bind ret app]. reflexivity.
Qed.

Lemma abs_loop_same_grid `{PyFloat} `{Scipy} (folder_path : string) (folder : directory)
  (data_format : string) (index_pos : option (nat * nat)) (interpolation_method : string)
  (num_datfile : nat) (ex_range : list float) :
  1 <= length ex_range ->
  forall (names : list string) (rs : list (list float * list float)),
    Forall2 (abs_reads_as folder_path folder data_format index_pos) names rs ->
    Forall (fun r => snd r = ex_range) rs ->
    forall (n : nat) (st : abs_state),
      abs_ex_range_old st = ex_range ->
      abs_loop folder_path folder data_format index_pos true interpolation_method
               num_datfile names n st =
      abs_loop folder_path folder data_format index_pos false interpolation_method
               num_datfile names n st.
Proof.
  intros Hlen. induction 1 as [| name r names rs Hr _ IH]; intros Hg n st Hst;
    [reflexivity |].
  apply Forall_cons_iff in Hg as [Hg Hgs].
  cbn [abs_loop].
  rewrite (abs_round_same_grid _ _ _ _ _ _ _ _ _ r Hr);
    [| rewrite Hg; symmetry; exact Hst | rewrite Hg; exact Hlen].
  destruct (abs_round folder_path folder data_format index_pos false
              interpolation_method num_datfile st n name) as [t1 [st1 | |]] eqn:E1;
    cbn [bind]; try reflexivity.
  rewrite (IH Hgs (S n) st1); [reflexivity |].
  destruct Hr as (text & Hopen & Hread).
  revert E1. unfold abs_round. rewrite Hopen. cbn [lift bind]. rewrite Hread.
  cbn [bind ret]. destruct (set_row _ n (fst r)); cbn [lift bind ret]; try discriminate.
  intros E. injection E as _ <-. cbn [abs_ex_range_old]. exact Hg.
Qed.

Lemma abs_round_unaligned_trace `{PyFloat} `{Scipy} (folder_path : string)
  (folder : directory) (data_format : string) (index_pos : option (nat * nat))
  (interpolation_method : string) (num_datfile : nat) (st : abs_state) (n : nat)
  (name : string) :
  fst (abs_round folder_path folder data_format index_pos false interpolation_method
                 num_datfile st n name) = [].
Proof.
  unfold abs_round.
  destruct (open_file folder name) as [text | |]; cbn [lift bind]; try reflexivity.
  pose proof (read_abs_trace (path_of folder_path name) text index_pos data_format) as Ht.
  destruct (read_abs _ text index_pos data_format) as [t1 [[[a ex] ix] | |]];
    cbn [fst] in Ht; subst t1; cbn [bind ret]; try reflexivity.
  destruct (set_row _ n a); reflexivity.
Qed.

Lemma abs_loop_unaligned_trace `{PyFloat} `{Scipy} (folder_path : string)
  (folder : directory) (data_format : string) (index_pos : option (nat * nat))
  (interpolation_method : string) (num_datfile : nat) (names : list string) :
  forall (n : nat) (st : abs_state),
    fst (abs_loop folder_path folder data_format index_pos false interpolation_method
                  num_datfile names n st) = [].
Proof.
  induction names as [| name names IH]; intros n st; [reflexivity |].
  cbn [abs_loop].
  pose proof (abs_round_unaligned_trace folder_path folder data_format index_pos
                interpolation_method num_datfile st n name) as Ht.
  destruct (abs_round _ _ _ _ _ _ _ st n name) as [t1 [st1 | |]];
    cbn [fst] in Ht; subst t1; cbn [bind]; try reflexivity.
  specialize (IH (S n) st1).
  destruct (abs_loop _ _ _ _ _ _ _ names (S n) st1) as [t2 r2].
  cbn [fst app] in *. exact IH.
Qed.

(** X20. On files that [read_abs] reads with one grid of wavelengths,
    [wavelength_alignment] changes nothing in [read_abs_dataset]: the
    call returns or raises what the call without alignment does, and
    [interp1d] is not called (nothing is printed either). *)
Theorem read_abs_dataset_same_grid `{PyFloat} `{Scipy} (folder_path : string)
  (folder : directory) (kw data_format : string) (index_pos : option (nat * nat))
  (custom_filename_list : option (list string)) (interpolation_method : string)
  (name : string) (names : list string) (r : list float * list float)
  (rs : list (list float * list float)) :
  filename_list_of folder kw custom_filename_list = name :: names ->
  abs_reads_as folder_path folder data_format index_pos name r ->
  Forall2 (abs_reads_as folder_path folder data_format index_pos) names rs ->
  Forall (fun r' => snd r' = snd r) rs ->
  1 <= length (snd r) ->
  read_abs_dataset folder_path folder kw data_format index_pos custom_filename_list
                   true interpolation_method =
  read_abs_dataset folder_path folder kw data_format index_pos custom_filename_list
                   false interpolation_method /\
  fst (read_abs_dataset folder_path folder kw data_format index_pos custom_filename_list
                        true interpolation_method) = [].
Proof.
  intros Hlist Hr Hall Hg Hlen.
  assert (E : read_abs_dataset folder_path folder kw data_format index_pos
                custom_filename_list true interpolation_method =
              read_abs_dataset folder_path folder kw data_format index_pos
                custom_filename_list false interpolation_method).
  { unfold read_abs_dataset. rewrite Hlist.
    destruct Hr as (text & Hopen & Hread). rewrite Hopen. cbn [lift bind].
    rewrite Hread. cbn [bind].
    destruct (set_row _ 0 (fst r)) as [stack0 | |]; cbn [lift bind]; try reflexivity.
    rewrite (abs_loop_same_grid folder_path folder data_format index_pos
               interpolation_method _ (snd r) Hlen names rs Hall Hg 1
               (mk_abs_state stack0
                  [index_of (path_of folder_path name) index_pos] (snd r)) eq_refl).
    reflexivity. }
  split; [exact E |]. rewrite E. clear E.
  unfold read_abs_dataset. rewrite Hlist.
  destruct Hr as (text & Hopen & Hread). rewrite Hopen. cbn [lift bind].
  rewrite Hread. cbn [bind].
  destruct (set_row _ 0 (fst r)) as [stack0 | |]; cbn [lift bind]; try reflexivity.
  match goal with |- context [abs_loop ?a ?b ?c ?d false ?e ?f ?g ?h ?i] =>
    pose proof (abs_loop_unaligned_trace a b c d e f g h i) as Ht;
    destruct (abs_loop a b c d false e f g h i) as [t2 [st2 | |]]
  end; cbn [fst] in Ht; subst t2; reflexivity.
Qed.

Lemma read_abs_dataset_same_grid_witness :
  @read_abs_dataset decimal example_scipy "data" abs_same_folder "ABS.dat" aqualog
                    None None true "linear" =
  @read_abs_dataset decimal example_scipy "data" abs_same_folder "ABS.dat" aqualog
                    None None false "linear" /\
  fst (@read_abs_dataset decimal example_scipy "data" abs_same_folder "ABS.dat" aqualog
                         None None true "linear") = [].
Proof.
  apply (@read_abs_dataset_same_grid decimal example_scipy "data" abs_same_folder
           "ABS.dat" aqualog None None "linear" "a_ABS.dat" ["c_ABS.dat"]
           ([Fin (3 # 10); Fin (2 # 5); Fin (1 # 2)], [Fin 260; Fin 250; Fin 240])
           [([Fin (1 # 5); Fin (3 # 5); Fin (4 # 5)], [Fin 260; Fin 250; Fin 240])]).
  - vm_compute. reflexivity.
  - exists abs_fine. split; vm_compute; reflexivity.
  - apply Forall2_cons; [| apply Forall2_nil].
    exists abs_second. split; vm_compute; reflexivity.
  - apply Forall_cons; [reflexivity | apply Forall_nil].
  - cbn. lia.
Defined.

(** ** The header of [read_reference_from_text] *)

Lemma split_from_token (s : string) :
  forall tok, is_empty tok = false ->
    exists mid post,
      hd EmptyString (split_from tok s) = String.append tok mid /\
      s = String.append mid post /\
      no_blank mid = true /\ after_token post = true.
Proof.
  induction s as [| c s IH]; intros tok Ht; cbn [split_from]; rewrite ?Ht.
  - exists EmptyString, EmptyString. cbn [hd].
    split; [clear; induction tok as [| a tok IH]; cbn; [| f_equal]; auto |].
    repeat split.
  - destruct (is_space c) eqn:Ec.
    + exists EmptyString, (String c s). cbn [hd].
      split; [clear; induction tok as [| a tok IH]; cbn; [| f_equal]; auto |].
      repeat split. exact Ec.
    + destruct (IH (snoc tok c)) as (mid & post & Hh & -> & Hm & Hp).
      { destruct tok; reflexivity. }
      exists (String c mid), post. rewrite Hh. unfold snoc. rewrite append_assoc.
      cbn [String.append no_blank]. rewrite Ec, Hm. repeat split. exact Hp.
Qed.

Lemma split_first_token (s h : string) (rest : list string) :
  split s = h :: rest ->
  exists pre post,
    s = String.append pre (String.append h post) /\
    blank pre = true /\ is_empty h = false /\ no_blank h = true /\
    after_token post = true.
Proof.
  unfold split. induction s as [| c s IH]; cbn [split_from is_empty]; [discriminate |].
  destruct (is_space c) eqn:Ec.
  - intros E. destruct (IH E) as (pre & post & -> & Hb & Hh & Hn & Hp).
    exists (String c pre), post. cbn [String.append blank]. rewrite Ec, Hb.
    repeat split; assumption.
  - intros E.
    destruct (split_from_token s (snoc EmptyString c) eq_refl)
      as (mid & post & Hh & -> & Hm & Hp).
    rewrite E in Hh. cbn [hd snoc String.append] in Hh. subst h.
    exists EmptyString, post. cbn [String.append blank is_empty no_blank].
    rewrite Ec, Hm. repeat split. exact Hp.
Qed.

(** X21. Whenever [read_reference_from_text] returns, the header is the
    first word of the first line and not the line: it is not empty, has
    no blank, and stands in the line after blanks only and before a blank
    or the end of the line. A header of several words is cut after the
    first. *)
Theorem read_reference_from_text_header `{PyFloat} (text header : string)
  (values : list float) :
  read_reference_from_text text = Ok (values, header) ->
  exists pre post,
    fst (readline (readlines text)) = String.append pre (String.append header post) /\
    blank pre = true /\ is_empty header = false /\ no_blank header = true /\
    after_token post = true.
Proof.
  unfold read_reference_from_text.
  destruct (readline (readlines text)) as [line f]. cbn [fst].
  destruct (split line) as [| h rest] eqn:Es; [discriminate |].
  destruct (read_reference_rows f []) as [data | |]; try discriminate.
  intros E. injection E as _ <-. apply (split_first_token _ _ _ Es).
Qed.

Lemma read_reference_from_text_header_witness :
  exists pre post,
    fst (readline (readlines reference_trailing_blank)) =
      String.append pre (String.append "DOC" post) /\
    blank pre = true /\ is_empty "DOC" = false /\ no_blank "DOC" = true /\
    after_token post = true.
Proof.
  apply (@read_reference_from_text_header decimal reference_trailing_blank "DOC"
           [Fin 1; Fin (5 # 2); Fin (24 # 5)]).
  vm_compute. reflexivity.
Defined.

(** ** [read_eem] on a file with a grid of fewer than two points *)

(** X22. [read_eem] needs two emission and two excitation wavelengths:
    on a well-formed file with fewer than two rows (a header alone, an
    empty file), or with fewer than two wavelengths in its header, it
    raises [IndexError] where it compares the first two points of the
    grid, and prints nothing. *)
Theorem read_eem_small_grid `{PyFloat} (file_path text : string)
  (index_pos : option (nat * nat)) :
  well_formed_eem text = true ->
  length (raw_emission text) < 2 \/ length (header_of text) < 2 ->
  read_eem file_path text index_pos aqualog = ([], Raise IndexError).
Proof.
  intros Hw Hs. rewrite read_eem_well_formed by exact Hw.
  unfold ascending_em, ascending_ex.
  destruct (raw_emission text) as [| e0 [| e1 em]].
  - reflexivity.
  - reflexivity.
  - destruct Hs as [Hs | Hs]; [cbn [length] in Hs; lia |].
    cbn [lift bind].
    destruct (header_of text) as [| h0 [| h1 hs]]; [reflexivity | reflexivity |].
    cbn [length] in Hs. lia.
Qed.

Lemma read_eem_small_grid_witness :
  @read_eem decimal "EEM.dat" (text_of ["240 250"; "wavelength"; "300 1 2"]) None aqualog =
    ([], Raise IndexError) /\
  @read_eem decimal "EEM.dat" EmptyString None aqualog = ([], Raise IndexError).
Proof.
  split.
  - apply (@read_eem_small_grid decimal "EEM.dat"
             (text_of ["240 250"; "wavelength"; "300 1 2"]) None).
    + vm_compute. reflexivity.
    + left. vm_compute. lia.
  - vm_compute. reflexivity.
Defined.

(** ** [read_abs_dataset] on a second file that is coarser *)

(** X23. [read_abs_dataset] with [wavelength_alignment] on two files the
    second of which has the larger interval: [interp1d] is called once,
    to bring the second spectrum onto the grid of the first, and the
    stack holds the first spectrum and this one; the grid returned is the
    grid of the second file, not the one the rows of the stack are on. *)
Theorem read_abs_dataset_coarser_second `{PyFloat} `{Scipy} (folder_path : string)
  (folder : directory) (kw data_format : string) (index_pos : option (nat * nat))
  (custom_filename_list : option (list string)) (interpolation_method : string)
  (a b : string) (ra rb : list float * list float) (i_new i_old : float)
  (row : list float) :
  filename_list_of folder kw custom_filename_list = [a; b] ->
  abs_reads_as folder_path folder data_format index_pos a ra ->
  abs_reads_as folder_path folder data_format index_pos b rb ->
  interval (snd rb) = Ok i_new ->
  interval (snd ra) = Ok i_old ->
  f_gtb i_new i_old = true ->
  interp1d (snd rb) (fst rb) interpolation_method (snd ra) = Ok row ->
  length row = length (fst ra) ->
  read_abs_dataset folder_path folder kw data_format index_pos custom_filename_list
                   true interpolation_method =
    ([Called Call_interp1d],
     Ok (mk_ndarray 2 (length (fst ra)) [fst ra; row], snd rb, [a; b],
         [index_of (path_of folder_path a) index_pos;
          index_of (path_of folder_path b) index_pos])).
Proof.
  intros Hlist (ta & Hoa & Hra) (tb & Hob & Hrb) Hin Hio Hgt Hi Hlen.
  unfold read_abs_dataset. rewrite Hlist, Hoa. cbn [lift bind].
  rewrite Hra. cbn [bind app length].
  unfold np_zeros. cbn [repeat].
  pose proof (set_row_next 2 (length (fst ra)) []
                [repeat f_zero (length (fst ra))]
                (repeat f_zero (length (fst ra))) (fst ra)) as Hs0.
  unfold stored_row, fits_row in Hs0. rewrite Nat.eqb_refl in Hs0.
  cbn [app length] in Hs0. rewrite Hs0 by reflexivity.
  cbn [lift bind app abs_loop]. unfold abs_round.
  rewrite Hob. cbn [lift bind]. rewrite Hrb.
  cbn [bind abs_stack_of abs_indexes abs_ex_range_old app].
  rewrite Hin, Hio. cbn [lift bind app]. rewrite Hgt.
  cbn [bind called app]. rewrite Hi. cbn [lift bind app].
  unfold f_gtb in Hgt. rewrite (f_ltb_asym _ _ Hgt). cbn [bind ret app].
  pose proof (set_row_next 2 (length (fst ra)) [fst ra] []
                (repeat f_zero (length (fst ra))) row) as Hs1.
  unfold stored_row, fits_row in Hs1. rewrite Hlen, Nat.eqb_refl in Hs1.
  cbn [app length] in Hs1. rewrite Hs1 by reflexivity.
  cbn [lift bind ret app abs_stack_of abs_indexes abs_ex_range_old]. reflexivity.
Qed.

Lemma read_abs_dataset_coarser_second_witness :
  @read_abs_dataset decimal example_scipy "data" abs_folder "ABS.dat" aqualog
                    None None true "linear" =
    ([Called Call_interp1d],
     Ok (mk_ndarray 2 3 [[Fin (3 # 10); Fin (2 # 5); Fin (1 # 2)];
                         [Fin (7 # 10); Fin (7 # 10); Fin (9 # 10)]],
         [Fin 260; Fin 240], ["a_ABS.dat"; "b_ABS.dat"], [None; None])).
Proof.
  apply (@read_abs_dataset_coarser_second decimal example_scipy "data" abs_folder
           "ABS.dat" aqualog None None "linear" "a_ABS.dat" "b_ABS.dat"
           ([Fin (3 # 10); Fin (2 # 5); Fin (1 # 2)], [Fin 260; Fin 250; Fin 240])
           ([Fin (7 # 10); Fin (9 # 10)], [Fin 260; Fin 240])
           (Fin 20) (Fin 10) [Fin (7 # 10); Fin (7 # 10); Fin (9 # 10)]).
  - vm_compute. reflexivity.
  - exists abs_fine. split; vm_compute; reflexivity.
  - exists abs_coarse. split; vm_compute; reflexivity.
  - vm_compute. reflexivity.
  - vm_compute. reflexivity.
  - vm_compute. reflexivity.
  - vm_compute. reflexivity.
  - reflexivity.
Defined.

(** ** Intervals that tie in binary64

    The intervals are compared as the code computes them, rounded to
    binary64. Of the grids 0.1 to 1.0 in 10 points and 0.1 to 1.1 in 11
    points, read as doubles, the exact quotients differ and the rounded
    ones are the same double: [read_abs_dataset] interpolates nothing and
    raises on the row of another length. *)
Example read_abs_dataset_tie_binary64 :
  (binary64 (1 # 1) = Fin (1 # 1) /\
   @py_float binary64_decimal "0.1" = Some (Fin (3602879701896397 # 36028797018963968)) /\
   @py_float binary64_decimal "1.1" = Some (Fin (2476979795053773 # 2251799813685248))) /\
  ((1 - 3602879701896397 # 36028797018963968) / 9 <
   ((2476979795053773 # 2251799813685248) -
    (3602879701896397 # 36028797018963968)) / 10)%Q /\
  interval (map (fun k => binary64 (Z.of_nat k # 10)) (seq 1 10)) =
    Ok (Fin (3602879701896397 # 36028797018963968)) /\
  interval (map (fun k => binary64 (Z.of_nat k # 10)) (seq 1 11)) =
    Ok (Fin (3602879701896397 # 36028797018963968)) /\
  @read_abs_dataset binary64_decimal example_scipy "data" abs_tie_folder "ABS.dat"
                    aqualog None None true "linear" = ([], Raise ValueError).
Proof.
  split; [split; [| split]; vm_compute; reflexivity |].
  split; [vm_compute; reflexivity |].
  split; [vm_compute; reflexivity |].
  split; vm_compute; reflexivity.
Qed.

(** The emission grids 250.1 to 259.6 in 20 points and 250.1 to 260.1 in
    21 points tie as well: [read_eem_dataset] interpolates nothing, the
    second array does not fit its slice, and the grid returned has 21
    points for slices of 20 columns. Files of one interval and of
    different lengths are what [ties_agree] leaves out. *)
Example read_eem_dataset_tie_binary64 :
  exists stack ex_range em_range indexes,
    @read_eem_dataset binary64_decimal example_processing "data" tie_folder "PEM.dat"
                      aqualog None None true "linear" =
      ([check_dimension "b_PEM.dat"], Ok (stack, ex_range, em_range, indexes)) /\
    dim2 stack = 20 /\ length em_range = 21.
Proof.
  eexists _, _, _, _. split; [vm_compute; reflexivity |].
  split; vm_compute; reflexivity.
Qed.
